(** * AI Tutor orchestrator: intent classification, parameter extraction,
      schema validation and tool dispatch

    A shallow embedding of [models.py], [context_analyzer.py],
    [parameter_extractor.py], [schema_validator.py],
    [tool_orchestrator.py], the [/orchestrate] endpoint of [main.py] and the
    sessions of [state_manager.py], followed by the properties of the
    pipeline.

    Conventions of the embedding:
    - a Python [str] is a [string] of code points below 256;
    - a Python [dict] with string keys is a [gmap string _] (dict equality in
      Python ignores insertion order, and so does the embedding);
    - JSON-like values of type [Any] are the inductive [value];
    - code that can raise returns a [result]; a [try]/[except] is a match on
      it;
    - the two language-model calls and the HTTP transport are parameters of
      the functions that use them. *)

From Stdlib Require Import ZArith QArith Ascii String List Bool Lia.
From Stdlib Require Import DecimalString.
From stdpp Require Import gmap strings list fin_maps.

Set Warnings "-register-all".
Set Default Proof Using "Type".

Local Open Scope Z_scope.
Local Open Scope string_scope.
Local Open Scope list_scope.

(* ===================================================================== *)
(** * Python strings *)
(* ===================================================================== *)

Module PyStr.

(** [str.isspace] on one code point below 256. *)
Definition isspace (c : ascii) : bool :=
  let n := N_of_ascii c in
  (((9 <=? n) && (n <=? 13)) || ((28 <=? n) && (n <=? 32))
   || (n =? 133) || (n =? 160))%N.

Definition isdigit (c : ascii) : bool :=
  let n := N_of_ascii c in ((48 <=? n) && (n <=? 57))%N.

Definition isupper (c : ascii) : bool :=
  let n := N_of_ascii c in
  (((65 <=? n) && (n <=? 90))
   || ((192 <=? n) && (n <=? 222) && negb (n =? 215)))%N.

Definition islower (c : ascii) : bool :=
  let n := N_of_ascii c in
  (((97 <=? n) && (n <=? 122))
   || ((223 <=? n) && (n <=? 255) && negb (n =? 247))
   || (n =? 170) || (n =? 181) || (n =? 186))%N.

Definition lower_char (c : ascii) : ascii :=
  if isupper c then ascii_of_N (N_of_ascii c + 32) else c.

(** Upper-casing of one code point, where the result stays below 256. *)
Definition upper_char (c : ascii) : ascii :=
  let n := N_of_ascii c in
  if (((97 <=? n) && (n <=? 122))
      || ((224 <=? n) && (n <=? 254) && negb (n =? 247)))%N
  then ascii_of_N (n - 32) else c.

Fixpoint lower (s : string) : string :=
  match s with
  | EmptyString => EmptyString
  | String c s' => String (lower_char c) (lower s')
  end.

(** [str.title]: the first cased character of every run of cased
    characters is upper-cased, the others are lower-cased. *)
Fixpoint title_from (prev_cased : bool) (s : string) : string :=
  match s with
  | EmptyString => EmptyString
  | String c s' =>
      let cased := isupper c || islower c in
      String (if prev_cased then lower_char c else upper_char c)
             (title_from cased s')
  end.

Definition title (s : string) : string := title_from false s.

Fixpoint lstrip (s : string) : string :=
  match s with
  | EmptyString => EmptyString
  | String c s' => if isspace c then lstrip s' else s
  end.

Fixpoint rstrip (s : string) : string :=
  match s with
  | EmptyString => EmptyString
  | String c s' =>
      match rstrip s' with
      | EmptyString => if isspace c then EmptyString else String c EmptyString
      | r => String c r
      end
  end.

(** [s.strip()] *)
Definition strip (s : string) : string := rstrip (lstrip s).

(** [s.replace(chr(n), '')] for the single code point [c]. *)
Fixpoint remove_char (c : ascii) (s : string) : string :=
  match s with
  | EmptyString => EmptyString
  | String d s' =>
      if Ascii.eqb c d then remove_char c s' else String d (remove_char c s')
  end.

Definition NUL : ascii := Ascii.zero.

(** [len(s)] *)
Definition len (s : string) : Z := Z.of_nat (String.length s).

(** [needle in s] *)
Fixpoint contains (needle s : string) : bool :=
  String.prefix needle s
  || match s with
     | EmptyString => false
     | String _ s' => contains needle s'
     end.

(** [str(n)] for an integer. *)
Definition of_Z (n : Z) : string := NilZero.string_of_int (Z.to_int n).

Definition digit_val (c : ascii) : Z := Z.of_N (N_of_ascii c) - 48.

(** [int(s)] for a string of decimal digits. *)
Definition to_Z (s : string) : Z :=
  fold_left (fun acc c => 10 * acc + digit_val c) (list_ascii_of_string s) 0.

(** [repr] of a string without quotes or backslashes, and of a list of
    such strings. *)
Definition repr (s : string) : string := "'" +:+ s +:+ "'".

Fixpoint join (sep : string) (l : list string) : string :=
  match l with
  | [] => ""
  | [x] => x
  | x :: l' => x +:+ sep +:+ join sep l'
  end.

Definition repr_list (l : list string) : string :=
  "[" +:+ join ", " (map repr l) +:+ "]".

End PyStr.

(* ===================================================================== *)
(** * Python values and exceptions *)
(* ===================================================================== *)

(** A value of type [Any] as JSON produces it. [VFloat m e] stands for the
    float [m * 2^e]; no function of the pipeline looks inside a float. *)
Inductive value :=
| VNone
| VBool (b : bool)
| VInt (z : Z)
| VFloat (m e : Z)
| VStr (s : string)
| VList (l : list value)
| VDict (d : gmap string value).

Abbreviation pydict := (gmap string value).

(** The exceptions ([Exception] subclasses) the modelled code can meet. *)
Inductive exn :=
| TypeError (msg : string)
| AttributeError (msg : string)
| ValidationFailure (msg : string)
| JSONDecodeError (msg : string)
| TimeoutException (msg : string)
| ConnectError (msg : string)
| OtherException (msg : string).

(** [str(e)] *)
Definition exn_str (e : exn) : string :=
  match e with
  | TypeError m | AttributeError m | ValidationFailure m | JSONDecodeError m
  | TimeoutException m | ConnectError m | OtherException m => m
  end.

Inductive result (A : Type) :=
| Ok (a : A)
| Raise (e : exn).
Arguments Ok {A} a.
Arguments Raise {A} e.

#[global] Instance result_ret : MRet result := fun _ a => Ok a.
#[global] Instance result_bind : MBind result := fun _ _ f m =>
  match m with
  | Ok a => f a
  | Raise e => Raise e
  end.

(** A loop whose body can raise. *)
Fixpoint foldM {A B : Type} (f : B -> A -> result B) (l : list A) (acc : B)
  : result B :=
  match l with
  | [] => Ok acc
  | x :: l' => acc' ← f acc x; foldM f l' acc'
  end.

Module Py.

(** [type(v).__name__] *)
Definition type_name (v : value) : string :=
  match v with
  | VNone => "NoneType"
  | VBool _ => "bool"
  | VInt _ => "int"
  | VFloat _ _ => "float"
  | VStr _ => "str"
  | VList _ => "list"
  | VDict _ => "dict"
  end.

(** The classes [isinstance] is asked about. [bool] is a subclass of
    [int]. *)
Inductive pytype := Tstr | Tint | Tbool | Tlist | Tdict.

Definition isinstance (v : value) (t : pytype) : bool :=
  match t, v with
  | Tstr, VStr _ => true
  | Tint, VInt _ => true
  | Tint, VBool _ => true
  | Tbool, VBool _ => true
  | Tlist, VList _ => true
  | Tdict, VDict _ => true
  | _, _ => false
  end.

Definition is_str (key : string) (v : value) : bool :=
  match v with
  | VStr s => String.eqb s key
  | _ => false
  end.

(** [key in v] for a string [key]. *)
Definition contains (key : string) (v : value) : result bool :=
  match v with
  | VDict d => Ok (bool_decide (is_Some (d !! key)))
  | VList l => Ok (existsb (is_str key) l)
  | VStr s => Ok (PyStr.contains key s)
  | _ => Raise (TypeError ("argument of type " +:+ PyStr.repr (type_name v)
                           +:+ " is not iterable"))
  end.

(** [v[key]] for a string [key], once [key in v] holds. *)
Definition getitem (v : value) (key : string) : result value :=
  match v with
  | VDict d =>
      match d !! key with
      | Some x => Ok x
      | None => Raise (OtherException (PyStr.repr key))
      end
  | VList _ =>
      Raise (TypeError "list indices must be integers or slices, not str")
  | VStr _ => Raise (TypeError "string indices must be integers, not 'str'")
  | _ => Raise (TypeError (PyStr.repr (type_name v)
                           +:+ " object is not subscriptable"))
  end.

(** [len(v)] *)
Definition len (v : value) : result Z :=
  match v with
  | VList l => Ok (Z.of_nat (length l))
  | VStr s => Ok (PyStr.len s)
  | VDict d => Ok (Z.of_nat (size d))
  | _ => Raise (TypeError ("object of type " +:+ PyStr.repr (type_name v)
                           +:+ " has no len()"))
  end.

(** The items [for x in v] runs through; the keys of a dict come in the
    order of the finite map, not in the order of insertion. *)
Definition iter (v : value) : result (list value) :=
  match v with
  | VList l => Ok l
  | VStr s =>
      Ok (map (fun c => VStr (String c EmptyString)) (list_ascii_of_string s))
  | VDict d => Ok (map (fun kv => VStr (fst kv)) (map_to_list d))
  | _ => Raise (TypeError (PyStr.repr (type_name v)
                           +:+ " object is not iterable"))
  end.

(** [enumerate(l)] *)
Definition enumerate {A : Type} (l : list A) : list (Z * A) :=
  imap (fun i x => (Z.of_nat i, x)) l.

(** [int] value of a [bool]. *)
Definition int_of_bool (b : bool) : Z := if b then 1 else 0.

(** Truth value of [v] in a condition. *)
Definition truthy (v : value) : bool :=
  match v with
  | VNone => false
  | VBool b => b
  | VInt z => negb (z =? 0)%Z
  | VFloat m _ => negb (m =? 0)%Z
  | VStr s => negb (String.eqb s "")
  | VList l => negb (bool_decide (length l = 0%nat))
  | VDict d => negb (bool_decide (size d = 0%nat))
  end.

(** [d.update(other)]: the entries of [other] replace those of [d]. *)
Definition update (d other : pydict) : pydict := other ∪ d.

(** [{**d, **other}] *)
Definition merge (d other : pydict) : pydict := other ∪ d.

(** [d.get(key, fallback)] on a value that should be a dict. *)
Definition get (v : value) (key : string) (fallback : value) : result value :=
  match v with
  | VDict d => Ok (default fallback (d !! key))
  | _ => Raise (AttributeError (PyStr.repr (type_name v)
                                +:+ " object has no attribute 'get'"))
  end.

End Py.

(* ===================================================================== *)
(** * models.py *)
(* ===================================================================== *)

Module Models.

Inductive Role := USER | ASSISTANT.

Inductive TeachingStyle := DIRECT | SOCRATIC | VISUAL | FLIPPED_CLASSROOM.

Inductive EmotionalState := FOCUSED | ANXIOUS | CONFUSED | TIRED.

(** The string value of each member (the enums derive from [str]). *)
Definition Role_value (r : Role) : string :=
  match r with USER => "user" | ASSISTANT => "assistant" end.

Definition TeachingStyle_value (t : TeachingStyle) : string :=
  match t with
  | DIRECT => "direct"
  | SOCRATIC => "socratic"
  | VISUAL => "visual"
  | FLIPPED_CLASSROOM => "flipped_classroom"
  end.

Definition EmotionalState_value (e : EmotionalState) : string :=
  match e with
  | FOCUSED => "focused"
  | ANXIOUS => "anxious"
  | CONFUSED => "confused"
  | TIRED => "tired"
  end.

Module ChatMessage.
Record t := mk { role : Role; content : string }.

(** [msg.dict()] *)
Definition dict (m : t) : pydict :=
  <["role" := VStr (Role_value (role m))]>
    (<["content" := VStr (content m)]> ∅).
End ChatMessage.

Module UserInfo.
Record t := mk {
  user_id : string;
  name : string;
  grade_level : string;
  learning_style_summary : string;
  emotional_state_summary : string;
  mastery_level_summary : string
}.

(** [user_info.dict()] *)
Definition dict (u : t) : pydict :=
  <["user_id" := VStr (user_id u)]>
    (<["name" := VStr (name u)]>
       (<["grade_level" := VStr (grade_level u)]>
          (<["learning_style_summary" := VStr (learning_style_summary u)]>
             (<["emotional_state_summary" :=
                  VStr (emotional_state_summary u)]>
                (<["mastery_level_summary" :=
                     VStr (mastery_level_summary u)]> ∅))))).
End UserInfo.

Module ConversationContext.
Record t := mk {
  user_info : UserInfo.t;
  chat_history : list ChatMessage.t;
  current_message : string;
  teaching_style : option TeachingStyle;
  emotional_state : option EmotionalState;
  mastery_level : option Z
}.

(** The field constraint [Field(None, ge=1, le=10)] of
    [mastery_level]. *)
Definition mastery_in_range (c : t) : Prop :=
  match mastery_level c with
  | Some m => 1 <= m <= 10
  | None => True
  end.

(** [context.dict()]; the members of the enums are strings. *)
Definition dict (c : t) : pydict :=
  <["user_info" := VDict (UserInfo.dict (user_info c))]>
    (<["chat_history" :=
         VList (map (fun msg => VDict (ChatMessage.dict msg)) (chat_history c))]>
       (<["current_message" := VStr (current_message c)]>
          (<["teaching_style" :=
               match teaching_style c with
               | Some s => VStr (TeachingStyle_value s)
               | None => VNone
               end]>
             (<["emotional_state" :=
                  match emotional_state c with
                  | Some e => VStr (EmotionalState_value e)
                  | None => VNone
                  end]>
                (<["mastery_level" :=
                     match mastery_level c with
                     | Some m => VInt m
                     | None => VNone
                     end]> ∅))))).
End ConversationContext.

Module ToolRequest.
Record t := mk {
  tool_name : string;
  parameters : pydict;
  user_info : UserInfo.t;
  chat_history : list ChatMessage.t
}.
End ToolRequest.

Module ToolResponse.
Record t := mk {
  success : bool;
  data : option pydict;
  error : option string;
  error_code : option string
}.

(** [response.dict()] *)
Definition dict (r : t) : pydict :=
  <["success" := VBool (success r)]>
    (<["data" := match data r with Some d => VDict d | None => VNone end]>
       (<["error" := match error r with Some e => VStr e | None => VNone end]>
          (<["error_code" :=
               match error_code r with Some c => VStr c | None => VNone end]>
             ∅))).
End ToolResponse.

Module EducationalIntent.
Record t := mk {
  intent_type : string;
  confidence : Q;
  extracted_parameters : pydict;
  missing_parameters : list string;
  suggested_tool : string
}.
End EducationalIntent.

Module OrchestratorResponse.
Record t := mk {
  success : bool;
  tool_response : option ToolResponse.t;
  educational_intent : option EducationalIntent.t;
  error_message : option string;
  conversation_context : option ConversationContext.t
}.
End OrchestratorResponse.

End Models.

(* ===================================================================== *)
(** * schema_validator.py *)
(* ===================================================================== *)

Module SchemaValidator.
Import Models.

Inductive ValidationErrorType :=
| MISSING_REQUIRED
| INVALID_TYPE
| INVALID_VALUE
| CONSTRAINT_VIOLATION
| SCHEMA_MISMATCH.

(** One entry of an error list: the dict with keys [type], [field],
    [message], [code] and, for a type error, [expected_type] and
    [actual_type]. *)
Record error_entry := mk_error {
  e_type : ValidationErrorType;
  e_field : string;
  e_message : string;
  e_code : string;
  e_expected_type : option string;
  e_actual_type : option string
}.

Definition make_error (t : ValidationErrorType) (field message code : string)
  : error_entry :=
  mk_error t field message code None None.

Module ValidationResult.
Record t := mk {
  is_valid : bool;
  errors : list error_entry;
  warnings : list string;
  validated_data : option pydict
}.
End ValidationResult.

(** A constraint dict: one optional entry per key that occurs in the
    tables below. *)
Record constraint_set := mk_constraints {
  c_min_length : option Z;
  c_max_length : option Z;
  c_enum_values : option (list string);
  c_min : option Z;
  c_max : option Z;
  c_type : option string;
  c_enum : option (list string)
}.

Definition no_constraints : constraint_set :=
  mk_constraints None None None None None None None.

Definition length_between (lo hi : Z) : constraint_set :=
  mk_constraints (Some lo) (Some hi) None None None None None.

Definition one_of (l : list string) : constraint_set :=
  mk_constraints None None (Some l) None None None None.

Definition int_between (lo hi : Z) : constraint_set :=
  mk_constraints None None None (Some lo) (Some hi) None None.

Definition of_type (t : string) : constraint_set :=
  mk_constraints None None None None None (Some t) None.

Record tool_schema := mk_schema {
  required_fields : list string;
  optional_fields : list string;
  field_types : gmap string string;
  constraints : gmap string constraint_set
}.

Definition note_maker_schema : tool_schema := {|
  required_fields :=
    ["user_info"; "chat_history"; "topic"; "subject"; "note_taking_style"];
  optional_fields := ["include_examples"; "include_analogies"];
  field_types := list_to_map [
    ("user_info", "object"); ("chat_history", "array");
    ("topic", "string"); ("subject", "string");
    ("note_taking_style", "enum");
    ("include_examples", "boolean"); ("include_analogies", "boolean")];
  constraints := list_to_map [
    ("topic", length_between 1 200);
    ("subject", length_between 1 100);
    ("note_taking_style",
      one_of ["outline"; "bullet_points"; "narrative"; "structured"]);
    ("include_examples", of_type "boolean");
    ("include_analogies", of_type "boolean")]
|}.

Definition flashcard_generator_schema : tool_schema := {|
  required_fields := ["user_info"; "topic"; "count"; "difficulty"; "subject"];
  optional_fields := ["include_examples"];
  field_types := list_to_map [
    ("user_info", "object"); ("topic", "string"); ("count", "integer");
    ("difficulty", "enum"); ("subject", "string");
    ("include_examples", "boolean")];
  constraints := list_to_map [
    ("topic", length_between 1 200);
    ("count", int_between 1 20);
    ("difficulty", one_of ["easy"; "medium"; "hard"]);
    ("subject", length_between 1 100);
    ("include_examples", of_type "boolean")]
|}.

Definition concept_explainer_schema : tool_schema := {|
  required_fields :=
    ["user_info"; "chat_history"; "concept_to_explain"; "current_topic";
     "desired_depth"];
  optional_fields := [];
  field_types := list_to_map [
    ("user_info", "object"); ("chat_history", "array");
    ("concept_to_explain", "string"); ("current_topic", "string");
    ("desired_depth", "enum")];
  constraints := list_to_map [
    ("concept_to_explain", length_between 1 200);
    ("current_topic", length_between 1 200);
    ("desired_depth",
      one_of ["basic"; "intermediate"; "advanced"; "comprehensive"])]
|}.

Definition _initialize_tool_schemas : gmap string tool_schema :=
  list_to_map [
    ("note_maker", note_maker_schema);
    ("flashcard_generator", flashcard_generator_schema);
    ("concept_explainer", concept_explainer_schema)].

Definition tool_schemas : gmap string tool_schema := _initialize_tool_schemas.

Definition string_rule (lo : Z) (hi : option Z) : constraint_set :=
  mk_constraints (Some lo) hi None None None (Some "string") None.

(** The table of [_initialize_validation_rules], one module per key:
    [validation_rules.user_info.required_fields] is
    [validation_rules["user_info"]["required_fields"]], and so on. *)
Module validation_rules.

Module user_info.
Definition required_fields : list string :=
  ["user_id"; "name"; "grade_level"; "learning_style_summary";
   "emotional_state_summary"; "mastery_level_summary"].

Definition field_constraints : gmap string constraint_set :=
  list_to_map [
    ("user_id", string_rule 1 None);
    ("name", string_rule 1 (Some 100));
    ("grade_level", string_rule 1 None);
    ("learning_style_summary", string_rule 1 (Some 500));
    ("emotional_state_summary", string_rule 1 (Some 500));
    ("mastery_level_summary", string_rule 1 (Some 500))].
End user_info.

Module chat_history.
Module item_constraints.
(** The role rule carries its permitted values under the key [enum]. *)
Definition role : constraint_set :=
  mk_constraints None None None None None (Some "string")
                 (Some ["user"; "assistant"]).

Definition content : constraint_set := string_rule 1 (Some 2000).
End item_constraints.

Module array_constraints.
Definition min_length : Z := 0.
Definition max_length : Z := 50.
End array_constraints.
End chat_history.

End validation_rules.

Record field_result := mk_field_result {
  fr_is_valid : bool;
  fr_errors : list error_entry
}.

Definition type_mapping (expected_type : string) : option Py.pytype :=
  if String.eqb expected_type "string" then Some Py.Tstr
  else if String.eqb expected_type "integer" then Some Py.Tint
  else if String.eqb expected_type "boolean" then Some Py.Tbool
  else if String.eqb expected_type "array" then Some Py.Tlist
  else if String.eqb expected_type "object" then Some Py.Tdict
  else if String.eqb expected_type "enum" then Some Py.Tstr
  else None.

Definition _validate_type (v : value) (expected_type : string) : bool :=
  if String.eqb expected_type "enum" then Py.isinstance v Py.Tstr
  else match type_mapping expected_type with
       | None => false
       | Some t => Py.isinstance v t
       end.

Definition str_of (v : value) : string :=
  match v with VStr s => s | _ => "" end.

Definition int_of (v : value) : Z :=
  match v with
  | VInt z => z
  | VBool b => Py.int_of_bool b
  | _ => 0
  end.

Definition when {A : Type} (b : bool) (l : list A) : list A :=
  if b then l else [].

Definition _validate_constraints (v : value) (cs : constraint_set)
  : list error_entry :=
  if Py.isinstance v Py.Tstr then
    let s := str_of v in
    match c_min_length cs with
    | Some lo =>
        when (PyStr.len s <? lo)%Z
          [make_error CONSTRAINT_VIOLATION "string_length"
             ("String too short (minimum: " +:+ PyStr.of_Z lo +:+ ")")
             "MIN_LENGTH_VIOLATION"]
    | None => []
    end
    ++ match c_max_length cs with
       | Some hi =>
           when (PyStr.len s >? hi)%Z
             [make_error CONSTRAINT_VIOLATION "string_length"
                ("String too long (maximum: " +:+ PyStr.of_Z hi +:+ ")")
                "MAX_LENGTH_VIOLATION"]
       | None => []
       end
    ++ match c_enum_values cs with
       | Some allowed =>
           when (negb (existsb (String.eqb s) allowed))
             [make_error INVALID_VALUE "enum_value"
                ("Invalid enum value. Must be one of: "
                 +:+ PyStr.repr_list allowed)
                "INVALID_ENUM_VALUE"]
       | None => []
       end
  else if Py.isinstance v Py.Tint then
    let n := int_of v in
    match c_min cs with
    | Some lo =>
        when (n <? lo)%Z
          [make_error CONSTRAINT_VIOLATION "integer_value"
             ("Integer too small (minimum: " +:+ PyStr.of_Z lo +:+ ")")
             "MIN_VALUE_VIOLATION"]
    | None => []
    end
    ++ match c_max cs with
       | Some hi =>
           when (n >? hi)%Z
             [make_error CONSTRAINT_VIOLATION "integer_value"
                ("Integer too large (maximum: " +:+ PyStr.of_Z hi +:+ ")")
                "MAX_VALUE_VIOLATION"]
       | None => []
       end
  else if Py.isinstance v Py.Tbool then
    match c_type cs with
    | Some t =>
        when (negb (String.eqb t "boolean"))
          [make_error INVALID_TYPE "boolean_value" "Value must be boolean"
             "INVALID_BOOLEAN_TYPE"]
    | None => []
    end
  else [].

Definition _validate_field (field_name : string) (v : value)
    (schema : tool_schema) : field_result :=
  match field_types schema !! field_name with
  | None =>
      mk_field_result false
        [make_error SCHEMA_MISMATCH field_name
           ("Field " +:+ PyStr.repr field_name +:+ " not defined in schema")
           "UNDEFINED_FIELD"]
  | Some expected_type =>
      let cs := default no_constraints (constraints schema !! field_name) in
      let errors :=
        when (negb (_validate_type v expected_type))
          [mk_error INVALID_TYPE field_name
             ("Field " +:+ PyStr.repr field_name +:+ " must be of type "
              +:+ expected_type)
             "INVALID_TYPE" (Some expected_type) (Some (Py.type_name v))]
        ++ _validate_constraints v cs in
      mk_field_result (bool_decide (length errors = 0%nat)) errors
  end.

Definition _validate_user_info (user_info : value) : result field_result :=
  errors ← foldM (fun errors field =>
      present ← Py.contains field user_info;
      if negb present then
        Ok (errors ++
            [make_error MISSING_REQUIRED ("user_info." +:+ field)
               ("Required field " +:+ PyStr.repr ("user_info." +:+ field)
                +:+ " is missing")
               "MISSING_USER_INFO_FIELD"])
      else
        x ← Py.getitem user_info field;
        let cs :=
          default no_constraints
                  (validation_rules.user_info.field_constraints !! field) in
        Ok (errors ++ _validate_constraints x cs))
    validation_rules.user_info.required_fields [];
  Ok (mk_field_result (bool_decide (length errors = 0%nat)) errors).

(** The body of the loop over the messages of a chat history. *)
Definition chat_message_errors (i : Z) (message : value) : list error_entry :=
  match message with
  | VDict m =>
      match m !! "role" with
      | None =>
          [make_error MISSING_REQUIRED
             ("chat_history[" +:+ PyStr.of_Z i +:+ "].role")
             ("Message " +:+ PyStr.of_Z i +:+ " missing required 'role' field")
             "MISSING_ROLE"]
      | Some r =>
          _validate_constraints
            r validation_rules.chat_history.item_constraints.role
      end
      ++ match m !! "content" with
         | None =>
             [make_error MISSING_REQUIRED
                ("chat_history[" +:+ PyStr.of_Z i +:+ "].content")
                ("Message " +:+ PyStr.of_Z i
                 +:+ " missing required 'content' field")
                "MISSING_CONTENT"]
         | Some c =>
             _validate_constraints
               c validation_rules.chat_history.item_constraints.content
         end
  | _ =>
      [make_error INVALID_TYPE ("chat_history[" +:+ PyStr.of_Z i +:+ "]")
         ("Message " +:+ PyStr.of_Z i +:+ " must be an object")
         "INVALID_MESSAGE_TYPE"]
  end.

Definition _validate_chat_history (chat_history : value)
  : result field_result :=
  let min_length :=
    validation_rules.chat_history.array_constraints.min_length in
  let max_length :=
    validation_rules.chat_history.array_constraints.max_length in
  n ← Py.len chat_history;
  let errors :=
    when (n <? min_length)%Z
      [make_error CONSTRAINT_VIOLATION "chat_history.length"
         ("Chat history too short (minimum: " +:+ PyStr.of_Z min_length
          +:+ ")")
         "MIN_ARRAY_LENGTH_VIOLATION"]
    ++ when (n >? max_length)%Z
         [make_error CONSTRAINT_VIOLATION "chat_history.length"
            ("Chat history too long (maximum: " +:+ PyStr.of_Z max_length
             +:+ ")")
            "MAX_ARRAY_LENGTH_VIOLATION"] in
  items ← Py.iter chat_history;
  let errors :=
    fold_left (fun errors im => errors ++ chat_message_errors (fst im) (snd im))
              (Py.enumerate items) errors in
  Ok (mk_field_result (bool_decide (length errors = 0%nat)) errors).

(** One round of the loop over the required fields: the accumulator is
    the pair of [errors] and [validated_data]. *)
Definition required_step (parameters : pydict) (schema : tool_schema)
    (acc : list error_entry * pydict) (field : string)
  : list error_entry * pydict :=
  match parameters !! field with
  | None =>
      (acc.1 ++ [make_error MISSING_REQUIRED field
                   ("Required field " +:+ PyStr.repr field +:+ " is missing")
                   "MISSING_REQUIRED"],
       acc.2)
  | Some v =>
      let fv := _validate_field field v schema in
      if fr_is_valid fv then (acc.1, <[field := v]> acc.2)
      else (acc.1 ++ fr_errors fv, acc.2)
  end.

Definition optional_step (parameters : pydict) (schema : tool_schema)
    (acc : list error_entry * pydict) (field : string)
  : list error_entry * pydict :=
  match parameters !! field with
  | None => acc
  | Some v =>
      let fv := _validate_field field v schema in
      if fr_is_valid fv then (acc.1, <[field := v]> acc.2)
      else (acc.1 ++ fr_errors fv, acc.2)
  end.

(** The deeper check of [user_info] or [chat_history], run when the key
    is among the parameters. *)
Definition deeper_check (check : value -> result field_result)
    (parameters : pydict) (key : string) (errors : list error_entry)
  : result (list error_entry) :=
  match parameters !! key with
  | None => Ok errors
  | Some v =>
      r ← check v;
      Ok (if negb (fr_is_valid r) then errors ++ fr_errors r else errors)
  end.

(** The [try] block of [validate_tool_request]. *)
Definition validate_tool_request_try (tool_request : ToolRequest.t)
  : result ValidationResult.t :=
  let tool_name := ToolRequest.tool_name tool_request in
  let parameters := ToolRequest.parameters tool_request in
  match tool_schemas !! tool_name with
  | None =>
      Ok (ValidationResult.mk false
            [make_error SCHEMA_MISMATCH "tool_name"
               ("Unknown tool: " +:+ tool_name) "UNKNOWN_TOOL"]
            [] None)
  | Some schema =>
      let acc := fold_left (required_step parameters schema)
                           (required_fields schema) ([], ∅) in
      let acc := fold_left (optional_step parameters schema)
                           (optional_fields schema) acc in
      errors ← deeper_check _validate_user_info parameters "user_info" acc.1;
      errors ←
        deeper_check _validate_chat_history parameters "chat_history" errors;
      Ok (ValidationResult.mk
            (bool_decide (length errors = 0%nat))
            errors
            []
            (if bool_decide (length errors = 0%nat) then Some acc.2
             else None))
  end.

Definition validate_tool_request (tool_request : ToolRequest.t)
  : ValidationResult.t :=
  match validate_tool_request_try tool_request with
  | Ok r => r
  | Raise e =>
      ValidationResult.mk false
        [make_error SCHEMA_MISMATCH "general"
           ("Validation failed: " +:+ exn_str e) "VALIDATION_ERROR"]
        [] None
  end.

(** [validate_tool_response]. The model declares [success] as a [bool],
    so the first test is made on a boolean. *)
Definition validate_tool_response (tool_response : ToolResponse.t)
  : ValidationResult.t :=
  let errors :=
    when (negb (Py.isinstance (VBool (ToolResponse.success tool_response))
                              Py.Tbool))
      [make_error INVALID_TYPE "success"
         "Response 'success' field must be boolean" "INVALID_SUCCESS_TYPE"]
    ++ (if ToolResponse.success tool_response then
          when (negb (match ToolResponse.data tool_response with
                      | Some d => Py.truthy (VDict d)
                      | None => false
                      end))
            [make_error MISSING_REQUIRED "data"
               "Successful response must include 'data' field" "MISSING_DATA"]
        else
          when (negb (match ToolResponse.error tool_response with
                      | Some e => Py.truthy (VStr e)
                      | None => false
                      end))
            [make_error MISSING_REQUIRED "error"
               "Failed response must include 'error' field" "MISSING_ERROR"]) in
  ValidationResult.mk
    (bool_decide (length errors = 0%nat))
    errors
    []
    (if bool_decide (length errors = 0%nat)
     then Some (ToolResponse.dict tool_response) else None).

(** [sanitize_input] applied to one value of the mapping. *)
Definition sanitize_str (s : string) : string :=
  PyStr.remove_char PyStr.NUL (PyStr.strip s).

Fixpoint sanitize_value (v : value) : value :=
  match v with
  | VStr s => VStr (sanitize_str s)
  | VDict d => VDict (sanitize_value <$> d)
  | VList l =>
      VList (map (fun item =>
                    match item with
                    | VDict d' => VDict (sanitize_value <$> d')
                    | _ => item
                    end) l)
  | _ => v
  end.

Definition sanitize_input (data : pydict) : pydict := sanitize_value <$> data.

End SchemaValidator.

(* ===================================================================== *)
(** * Regular expressions as [re.search] runs them *)
(* ===================================================================== *)

(** The fragment of Python's [re] syntax the patterns of the analyzer are
    written in. Matching is by backtracking: alternatives in order, a
    greedy repetition longest first, a lazy one shortest first. *)
Module Re.

Inductive regex :=
| Lit (s : string)                           (* literal text *)
| Many (greedy : bool) (least : nat) (cls : ascii -> bool)
                                             (* \d+  \s*  .+? *)
| One (cls : ascii -> bool)                  (* \s *)
| Opt (r : regex)                            (* r? *)
| Alt (r1 r2 : regex)                        (* r1|r2 *)
| Seq (r1 r2 : regex)                        (* r1r2 *)
| Group (r : regex)                          (* (r), the only group *)
| EndOfString.                               (* $ *)

(** [.] : every character but the newline. *)
Definition dot (c : ascii) : bool := negb (N_of_ascii c =? 10)%N.

(** The rest of [s] after its prefix [l], if [l] is a prefix of [s]. *)
Fixpoint after_prefix (l s : string) : option string :=
  match l, s with
  | EmptyString, _ => Some s
  | String a l', String b s' =>
      if Ascii.eqb a b then after_prefix l' s' else None
  | String _ _, EmptyString => None
  end.

(** The text consumed between [s] and its suffix [rest]. *)
Definition consumed (s rest : string) : string :=
  String.substring 0 (String.length s - String.length rest) s.

Section Matcher.
Context {A : Type}.

(** [cls] repeated at least [least] times, then [k] on the rest. *)
Fixpoint many_greedy (cls : ascii -> bool) (least : nat) (s : string)
    (k : string -> option A) : option A :=
  let stop := match least with O => k s | S _ => None end in
  match s with
  | EmptyString => stop
  | String c s' =>
      if cls c then
        match many_greedy cls (Nat.pred least) s' k with
        | Some m => Some m
        | None => stop
        end
      else stop
  end.

Fixpoint many_lazy (cls : ascii -> bool) (least : nat) (s : string)
    (k : string -> option A) : option A :=
  let more :=
    match s with
    | EmptyString => None
    | String c s' =>
        if cls c then many_lazy cls (Nat.pred least) s' k else None
    end in
  match least with
  | O => match k s with Some m => Some m | None => more end
  | S _ => more
  end.

(** [rmatch r s cap k]: match [r] at the start of [s]; [cap] is the
    text of the group so far; [k] receives the rest and the group. *)
Fixpoint rmatch (r : regex) (s : string) (cap : option string)
    (k : string -> option string -> option A) : option A :=
  match r with
  | Lit l =>
      match after_prefix l s with
      | Some rest => k rest cap
      | None => None
      end
  | Many true least cls => many_greedy cls least s (fun rest => k rest cap)
  | Many false least cls => many_lazy cls least s (fun rest => k rest cap)
  | One cls =>
      match s with
      | String c s' => if cls c then k s' cap else None
      | EmptyString => None
      end
  | Opt r' =>
      match rmatch r' s cap k with
      | Some m => Some m
      | None => k s cap
      end
  | Alt r1 r2 =>
      match rmatch r1 s cap k with
      | Some m => Some m
      | None => rmatch r2 s cap k
      end
  | Seq r1 r2 => rmatch r1 s cap (fun rest cap' => rmatch r2 rest cap' k)
  | Group r' =>
      rmatch r' s cap (fun rest _ => k rest (Some (consumed s rest)))
  | EndOfString =>
      if String.eqb s "" || String.eqb s (String "010" "")
      then k s cap else None
  end.
End Matcher.

(** A match object: the text of group 1, if the group took part. *)
Record Match := mk_match { group1 : option string }.

Definition match_at (r : regex) (s : string) : option Match :=
  rmatch r s None (fun _ cap => Some (mk_match cap)).

(** [re.search(r, s)]: the match at the leftmost position that has
    one. *)
Fixpoint search (r : regex) (s : string) : option Match :=
  match match_at r s with
  | Some m => Some m
  | None =>
      match s with
      | EmptyString => None
      | String _ s' => search r s'
      end
  end.

(** [match.group(1)] where the group takes part in every match. *)
Definition group (m : Match) : string := default "" (group1 m).

End Re.

(* ===================================================================== *)
(** * context_analyzer.py *)
(* ===================================================================== *)

Module ContextAnalyzer.
Import Models Re.

Definition _initialize_intent_patterns : list (string * list regex) :=
  [("note_making",
     [Lit "take notes"; Lit "make notes"; Lit "note taking"; Lit "summarize";
      Lit "outline"; Lit "organize"; Lit "write down"; Lit "document"]);
   ("flashcard_generation",
     [Lit "flashcards"; Lit "flash cards"; Lit "memorize"; Lit "study cards";
      Lit "practice"; Lit "quiz"; Lit "test"; Lit "review"]);
   ("concept_explanation",
     [Lit "explain"; Lit "understand"; Lit "what is"; Lit "how does";
      Lit "tell me about"; Lit "describe"; Lit "clarify";
      Lit "help me understand"]);
   ("quiz_generation",
     [Lit "quiz"; Lit "test"; Lit "questions"; Lit "practice problems";
      Lit "exam"; Lit "assessment"; Lit "challenge"])].

Definition intent_patterns := _initialize_intent_patterns.

(** [(.+?)(?:\s|$)] after a leading word. *)
Definition capture_after (word : string) : regex :=
  Seq (Lit word)
      (Seq (Group (Many false 1 dot)) (Alt (One PyStr.isspace) EndOfString)).

(** [(\d+)\s*(?:w1|w2|...)] *)
Definition number_before (words : regex) : regex :=
  Seq (Group (Many true 1 PyStr.isdigit))
      (Seq (Many true 0 PyStr.isspace) words).

Definition plural (w : string) : regex := Seq (Lit w) (Opt (Lit "s")).

(** The table of [_initialize_parameter_patterns], one definition per
    key. *)
Module parameter_patterns.
Definition topic : list regex :=
  [capture_after "about "; capture_after "topic ";
   capture_after "subject "; capture_after "regarding "].

Definition subject : list regex :=
  [capture_after "in "; capture_after "for ";
   capture_after "about "; capture_after "subject "].


Definition count : list regex :=
  [number_before (Alt (plural "question")
                   (Alt (plural "card") (Alt (plural "note") (plural "item"))));
   number_before (Alt (Lit "of") (Lit "for"));
   number_before (Alt (Lit "more") (Lit "additional"))].
End parameter_patterns.

(** The first pattern of the list that [re.search] finds in [s]. *)
Fixpoint first_search (patterns : list regex) (s : string) : option Match :=
  match patterns with
  | [] => None
  | p :: rest =>
      match search p s with
      | Some m => Some m
      | None => first_search rest s
      end
  end.

(** [max(items, key=lambda x: x[1])]: the first item with the greatest
    score. *)
Definition better (best x : string * Q) : string * Q :=
  if Qle_bool x.2 best.2 then best else x.

Definition max_by_score (items : list (string * Q)) : string * Q :=
  match items with
  | [] => ("", 0%Q)
  | x :: rest => fold_left better rest x
  end.

(** The number of patterns found in the message, over their number. The
    quotient is kept exact; the floats of the code compare as these
    quotients do (an eighth is exact, and no seventh rounds to it). *)
Definition matched (patterns : list regex) (message_lower : string) : nat :=
  length (filter (fun p => is_Some (search p message_lower)) patterns).

Definition score (patterns : list regex) (message_lower : string) : Q :=
  Z.of_nat (matched patterns message_lower)
    # Pos.of_nat (length patterns).

Definition intent_scores (message_lower : string) : list (string * Q) :=
  map (fun ip => (ip.1, score ip.2 message_lower)) intent_patterns.

Section WithLanguageModel.
(** The text-classification capability: the answer of the model to
    the fixed prompt built around the message, or the exception of the
    call. *)
Variable llm : string -> result string.

Definition _llm_intent_detection (message : string) : option string :=
  match llm message with
  | Ok response =>
      let intent := PyStr.lower (PyStr.strip response) in
      if existsb (fun ip => String.eqb intent ip.1) intent_patterns
      then Some intent else None
  | Raise _ => None
  end.

Definition _detect_intent (message : string) : string * Q :=
  let message_lower := PyStr.lower message in
  let best_intent := max_by_score (intent_scores message_lower) in
  if negb (Qle_bool (1 # 2) best_intent.2) then
    match _llm_intent_detection message with
    | Some llm_intent =>
        if negb (String.eqb llm_intent "") then (llm_intent, 8 # 10)
        else best_intent
    | None => best_intent
    end
  else best_intent.
End WithLanguageModel.

Definition last_three {A : Type} (l : list A) : list A :=
  drop (length l - 3) l.

Definition _extract_topic (message : string)
    (chat_history : list ChatMessage.t) : option string :=
  match first_search parameter_patterns.topic message with
  | Some m => Some (PyStr.strip (group m))
  | None =>
      let from_history :=
        omap (fun msg =>
                if String.eqb (Role_value (ChatMessage.role msg)) "user" then
                  first_search parameter_patterns.topic
                               (PyStr.lower (ChatMessage.content msg))
                else None)
             (rev (last_three chat_history)) in
      match from_history with
      | m :: _ => Some (PyStr.strip (group m))
      | [] => None
      end
  end.

Definition subjects : list string :=
  ["math"; "mathematics"; "calculus"; "algebra"; "geometry";
   "science"; "physics"; "chemistry"; "biology"; "environmental science";
   "english"; "literature"; "writing"; "grammar";
   "history"; "social studies"; "geography";
   "computer science"; "programming"; "coding"].

Definition _extract_subject (message : string)
    (chat_history : list ChatMessage.t) : option string :=
  let message_lower := PyStr.lower message in
  match filter (fun subject => PyStr.contains subject message_lower) subjects
  with
  | subject :: _ => Some (PyStr.title subject)
  | [] => None
  end.

(** Truth value of an optional integer: [None] and [0] are false. *)
Definition truthy_int (o : option Z) : bool :=
  match o with
  | Some m => negb (m =? 0)%Z
  | None => false
  end.

Definition at_least (o : option Z) (n : Z) : bool :=
  match o with Some m => (n <=? m)%Z | None => false end.

Definition at_most (o : option Z) (n : Z) : bool :=
  match o with Some m => (m <=? n)%Z | None => false end.

Definition _infer_difficulty (context : ConversationContext.t)
  : option string :=
  let emotional_state := ConversationContext.emotional_state context in
  let mastery_level := ConversationContext.mastery_level context in
  match emotional_state with
  | Some CONFUSED => Some "easy"
  | Some ANXIOUS => Some "easy"
  | Some TIRED => Some "easy"
  | Some FOCUSED =>
      if truthy_int mastery_level && at_least mastery_level 7 then Some "hard"
      else if truthy_int mastery_level && at_least mastery_level 4
           then Some "medium"
      else Some "easy"
  | None =>
      if truthy_int mastery_level then
        if at_most mastery_level 3 then Some "easy"
        else if at_most mastery_level 6 then Some "medium"
        else Some "hard"
      else Some "medium"
  end.

Definition clamp (count : Z) : Z := Z.min (Z.max count 1) 20.

Definition _extract_count (message : string) : option Z :=
  match first_search parameter_patterns.count message with
  | Some m => Some (clamp (PyStr.to_Z (group m)))
  | None => None
  end.

Definition _infer_note_style (context : ConversationContext.t)
  : option string :=
  let learning_style :=
    PyStr.lower (UserInfo.learning_style_summary
                   (ConversationContext.user_info context)) in
  if PyStr.contains "outline" learning_style
     || PyStr.contains "structured" learning_style then Some "outline"
  else if PyStr.contains "bullet" learning_style
          || PyStr.contains "points" learning_style then Some "bullet_points"
  else if PyStr.contains "narrative" learning_style
          || PyStr.contains "story" learning_style then Some "narrative"
  else Some "structured".

Definition _infer_explanation_depth (context : ConversationContext.t)
  : option string :=
  let mastery_level := ConversationContext.mastery_level context in
  match ConversationContext.emotional_state context with
  | Some CONFUSED => Some "basic"
  | Some ANXIOUS => Some "basic"
  | _ =>
      if truthy_int mastery_level then
        if at_most mastery_level 3 then Some "basic"
        else if at_most mastery_level 6 then Some "intermediate"
        else if at_most mastery_level 8 then Some "advanced"
        else Some "comprehensive"
      else Some "intermediate"
  end.

(** [if x: params[key] = x] for an optional string. *)
Definition set_if_str (key : string) (x : option string) (params : pydict)
  : pydict :=
  match x with
  | Some s => if negb (String.eqb s "") then <[key := VStr s]> params
              else params
  | None => params
  end.

Definition set_if_int (key : string) (x : option Z) (params : pydict)
  : pydict :=
  match x with
  | Some n => if negb (n =? 0)%Z then <[key := VInt n]> params else params
  | None => params
  end.

Definition _extract_parameters (context : ConversationContext.t) : pydict :=
  let message := PyStr.lower (ConversationContext.current_message context) in
  let chat_history := ConversationContext.chat_history context in
  let params := ∅ in
  let params := set_if_str "topic" (_extract_topic message chat_history)
                           params in
  let params := set_if_str "subject" (_extract_subject message chat_history)
                           params in
  let params := set_if_str "difficulty" (_infer_difficulty context) params in
  let params := set_if_int "count" (_extract_count message) params in
  let params := set_if_str "note_taking_style" (_infer_note_style context)
                           params in
  set_if_str "desired_depth" (_infer_explanation_depth context) params.

Definition _map_intent_to_tool (intent_type : string) : string :=
  let mapping : gmap string string :=
    list_to_map [("note_making", "note_maker");
                 ("flashcard_generation", "flashcard_generator");
                 ("concept_explanation", "concept_explainer");
                 ("quiz_generation", "quiz_generator")] in
  default "unknown" (mapping !! intent_type).

Definition _identify_missing_parameters (intent_type : string)
    (params : pydict) : list string :=
  let required_params : gmap string (list string) :=
    list_to_map
      [("note_making", ["topic"; "subject"; "note_taking_style"]);
       ("flashcard_generation", ["topic"; "count"; "difficulty"; "subject"]);
       ("concept_explanation",
         ["concept_to_explain"; "current_topic"; "desired_depth"]);
       ("quiz_generation", ["topic"; "subject"; "difficulty"; "count"])] in
  let required := default [] (required_params !! intent_type) in
  filter (fun param => params !! param = None) required.

(** The intent returned when the analysis raises. *)
Definition unknown_intent : EducationalIntent.t :=
  EducationalIntent.mk "unknown" 0 ∅ [] "none".

Section WithLanguageModel.
Variable llm : string -> result string.

Definition analyze_context_try (context : ConversationContext.t)
  : result EducationalIntent.t :=
  let '(intent_type, confidence) :=
    _detect_intent llm (ConversationContext.current_message context) in
  let extracted_params := _extract_parameters context in
  let suggested_tool := _map_intent_to_tool intent_type in
  let missing_params :=
    _identify_missing_parameters intent_type extracted_params in
  Ok (EducationalIntent.mk intent_type confidence extracted_params
                           missing_params suggested_tool).

Definition analyze_context (context : ConversationContext.t)
  : EducationalIntent.t :=
  match analyze_context_try context with
  | Ok intent => intent
  | Raise _ => unknown_intent
  end.
End WithLanguageModel.

End ContextAnalyzer.

(* ===================================================================== *)
(** * parameter_extractor.py *)
(* ===================================================================== *)

Module ParameterExtractor.
Import Models.

Module ParameterExtractionResult.
Record t := mk {
  success : bool;
  extracted_parameters : pydict;
  missing_parameters : list string;
  confidence_scores : gmap string Q;
  extraction_method : string
}.
End ParameterExtractionResult.

(** A tool schema of the extractor; its parameter descriptions only
    feed the prompt of the language model. *)
Record schema := mk_schema {
  required : list string;
  optional : list string
}.

Definition _initialize_tool_schemas : gmap string schema :=
  list_to_map [
    ("note_maker",
      mk_schema ["user_info"; "chat_history"; "topic"; "subject";
                 "note_taking_style"]
                ["include_examples"; "include_analogies"]);
    ("flashcard_generator",
      mk_schema ["user_info"; "topic"; "count"; "difficulty"; "subject"]
                ["include_examples"]);
    ("concept_explainer",
      mk_schema ["user_info"; "chat_history"; "concept_to_explain";
                 "current_topic"; "desired_depth"]
                [])].

Definition tool_schemas : gmap string schema := _initialize_tool_schemas.

Definition _infer_note_maker_params (context : ConversationContext.t)
  : pydict :=
  let learning_style :=
    PyStr.lower (UserInfo.learning_style_summary
                   (ConversationContext.user_info context)) in
  let params : pydict := ∅ in
  let params :=
    if PyStr.contains "outline" learning_style
    then <["note_taking_style" := VStr "outline"]> params
    else if PyStr.contains "bullet" learning_style
    then <["note_taking_style" := VStr "bullet_points"]> params
    else if PyStr.contains "narrative" learning_style
    then <["note_taking_style" := VStr "narrative"]> params
    else <["note_taking_style" := VStr "structured"]> params in
  match ConversationContext.teaching_style context with
  | Some VISUAL =>
      <["include_analogies" := VBool true]>
        (<["include_examples" := VBool true]> params)
  | Some DIRECT =>
      <["include_analogies" := VBool false]>
        (<["include_examples" := VBool true]> params)
  | _ =>
      <["include_analogies" := VBool false]>
        (<["include_examples" := VBool true]> params)
  end.

(** The count the flashcard pass derives from the mastery level. *)
Definition mastery_count (mastery_level : option Z) : Z :=
  if ContextAnalyzer.truthy_int mastery_level then
    if ContextAnalyzer.at_most mastery_level 3 then 5
    else if ContextAnalyzer.at_most mastery_level 6 then 10
    else 15
  else 10.

(** The difficulty the flashcard pass derives from the emotional state
    and the mastery level. *)
Definition flashcard_difficulty (emotional_state : option EmotionalState)
    (mastery_level : option Z) : string :=
  match emotional_state with
  | Some CONFUSED | Some ANXIOUS => "easy"
  | Some FOCUSED =>
      if ContextAnalyzer.truthy_int mastery_level
         && ContextAnalyzer.at_least mastery_level 7
      then "hard" else "medium"
  | _ => "medium"
  end.

Definition _infer_flashcard_params (context : ConversationContext.t)
  : pydict :=
  let params : pydict := ∅ in
  let params :=
    <["count" :=
        VInt (mastery_count (ConversationContext.mastery_level context))]>
      params in
  let params :=
    <["difficulty" :=
        VStr (flashcard_difficulty
                (ConversationContext.emotional_state context)
                (ConversationContext.mastery_level context))]> params in
  <["include_examples" := VBool true]> params.

Definition _infer_concept_explainer_params (context : ConversationContext.t)
  : pydict :=
  let mastery_level := ConversationContext.mastery_level context in
  let depth :=
    match ConversationContext.emotional_state context with
    | Some CONFUSED | Some ANXIOUS => "basic"
    | _ =>
        if ContextAnalyzer.truthy_int mastery_level then
          if ContextAnalyzer.at_most mastery_level 3 then "basic"
          else if ContextAnalyzer.at_most mastery_level 6 then "intermediate"
          else if ContextAnalyzer.at_most mastery_level 8 then "advanced"
          else "comprehensive"
        else "intermediate"
    end in
  <["desired_depth" := VStr depth]> ∅.

Definition _infer_from_context (context : ConversationContext.t)
    (tool_name : string) : pydict :=
  let params : pydict := ∅ in
  let params :=
    <["user_info" :=
        VDict (UserInfo.dict (ConversationContext.user_info context))]>
      params in
  let params :=
    <["chat_history" :=
        VList (map (fun msg => VDict (ChatMessage.dict msg))
                   (ConversationContext.chat_history context))]> params in
  if String.eqb tool_name "note_maker"
  then Py.update params (_infer_note_maker_params context)
  else if String.eqb tool_name "flashcard_generator"
  then Py.update params (_infer_flashcard_params context)
  else if String.eqb tool_name "concept_explainer"
  then Py.update params (_infer_concept_explainer_params context)
  else params.

Definition _assign_default_values (tool_name : string)
    (context : ConversationContext.t) : pydict :=
  let defaults : gmap string pydict :=
    list_to_map [
      ("note_maker",
        list_to_map [("include_examples", VBool true);
                     ("include_analogies", VBool false)]);
      ("flashcard_generator",
        list_to_map [("count", VInt 10); ("include_examples", VBool true)]);
      ("concept_explainer", ∅)] in
  default ∅ (defaults !! tool_name).

(** The loop of the fourth pass: a default is stored only under a key
    that is still absent. *)
Definition fill_absent (params default_params : pydict) : pydict :=
  map_fold (fun key v params =>
              match params !! key with
              | None => <[key := v]> params
              | Some _ => params
              end)
           params default_params.

Definition _validate_parameters (params : pydict) (s : schema)
  : pydict * list string :=
  let acc :=
    fold_left (fun (acc : pydict * list string) param =>
                 match params !! param with
                 | Some VNone | None => (acc.1, acc.2 ++ [param])
                 | Some v => (<[param := v]> acc.1, acc.2)
                 end)
              (required s) (∅, []) in
  let validated_params :=
    fold_left (fun (validated : pydict) param =>
                 match params !! param with
                 | Some v => <[param := v]> validated
                 | None => validated
                 end)
              (optional s) acc.1 in
  (validated_params, acc.2).

Definition _calculate_confidence_scores (params : pydict)
    (context : ConversationContext.t) : gmap string Q :=
  map_imap (fun param v =>
    Some (if String.eqb param "user_info" || String.eqb param "chat_history"
          then 1%Q
          else if existsb (String.eqb param) ["topic"; "subject"]
          then (if Py.truthy v then 9 # 10 else 3 # 10)
          else if existsb (String.eqb param)
                          ["difficulty"; "note_taking_style"; "desired_depth"]
          then 7 # 10
          else if existsb (String.eqb param)
                          ["count"; "include_examples"; "include_analogies"]
          then 5 # 10
          else 6 # 10)) params.

Section WithLanguageModel.
(** The text-to-structured-data capability: the JSON object parsed
    from the answer of the model to the prompt built from the
    conversation and the schema of the tool, or the exception of the
    call or of the parse. *)
Variable llm_json : ConversationContext.t -> string -> result pydict.

Definition _llm_parameter_extraction (context : ConversationContext.t)
    (tool_name : string) : pydict :=
  match llm_json context tool_name with
  | Ok extracted => extracted
  | Raise _ => ∅
  end.

Definition _extract_with_multiple_methods (intent : EducationalIntent.t)
    (context : ConversationContext.t) (tool_name : string) : pydict :=
  let params : pydict := ∅ in
  (* Method 1 *)
  let params :=
    Py.update params (EducationalIntent.extracted_parameters intent) in
  (* Method 2 *)
  let llm_params := _llm_parameter_extraction context tool_name in
  let params := Py.update params llm_params in
  (* Method 3 *)
  let inferred_params := _infer_from_context context tool_name in
  let params := Py.update params inferred_params in
  (* Method 4 *)
  let default_params := _assign_default_values tool_name context in
  fill_absent params default_params.

Definition error_result : ParameterExtractionResult.t :=
  ParameterExtractionResult.mk false ∅ [] ∅ "error".

Definition extract_parameters_try (intent : EducationalIntent.t)
    (context : ConversationContext.t)
  : result ParameterExtractionResult.t :=
  let tool_name := EducationalIntent.suggested_tool intent in
  match tool_schemas !! tool_name with
  | None => Ok error_result
  | Some s =>
      let extracted_params :=
        _extract_with_multiple_methods intent context tool_name in
      let '(validated_params, missing_params) :=
        _validate_parameters extracted_params s in
      let confidence_scores :=
        _calculate_confidence_scores validated_params context in
      Ok (ParameterExtractionResult.mk
            (bool_decide (length missing_params = 0%nat))
            validated_params missing_params confidence_scores "hybrid")
  end.

Definition extract_parameters (intent : EducationalIntent.t)
    (context : ConversationContext.t) : ParameterExtractionResult.t :=
  match extract_parameters_try intent context with
  | Ok r => r
  | Raise _ => error_result
  end.
End WithLanguageModel.

Definition _ask_for_parameter (param : string)
    (context : ConversationContext.t) : string :=
  let name := UserInfo.name (ConversationContext.user_info context) in
  let questions : gmap string string :=
    list_to_map [
      ("topic",
        "What specific topic would you like to focus on, " +:+ name +:+ "?");
      ("subject",
        "What subject area is this related to, " +:+ name +:+ "?")] in
  default ("Please specify " +:+ param) (questions !! param).

Definition _get_intelligent_default (param : string)
    (context : ConversationContext.t) (tool_name : string) : value :=
  let defaults : pydict :=
    list_to_map [
      ("note_taking_style", VStr "structured");
      ("difficulty", VStr "medium");
      ("count", VInt 10);
      ("desired_depth", VStr "intermediate");
      ("include_examples", VBool true);
      ("include_analogies", VBool false)] in
  default VNone (defaults !! param).

Definition fill_missing_parameters (missing_params : list string)
    (context : ConversationContext.t) (tool_name : string) : pydict :=
  fold_left (fun (filled_params : pydict) param =>
               if existsb (String.eqb param) ["topic"; "subject"]
               then <[param := VStr (_ask_for_parameter param context)]>
                      filled_params
               else <[param :=
                        _get_intelligent_default param context tool_name]>
                      filled_params)
            missing_params ∅.

End ParameterExtractor.

(* ===================================================================== *)
(** * tool_orchestrator.py *)
(* ===================================================================== *)

Module ToolOrchestrator.
Import Models.

Module OrchestratorState.
Record t := mk {
  conversation_context : ConversationContext.t;
  educational_intent : option EducationalIntent.t;
  extracted_parameters : pydict;
  tool_request : option ToolRequest.t;
  tool_response : option ToolResponse.t;
  orchestrator_response : option OrchestratorResponse.t;
  error_message : option string;
  workflow_step : string
}.
End OrchestratorState.
Import OrchestratorState.

(** Updates of one key of the state. *)
Definition set_educational_intent (x : option EducationalIntent.t)
    (st : OrchestratorState.t) : OrchestratorState.t :=
  mk (conversation_context st) x (extracted_parameters st) (tool_request st)
     (tool_response st) (orchestrator_response st) (error_message st)
     (workflow_step st).

Definition set_extracted_parameters (x : pydict) (st : OrchestratorState.t)
  : OrchestratorState.t :=
  mk (conversation_context st) (educational_intent st) x (tool_request st)
     (tool_response st) (orchestrator_response st) (error_message st)
     (workflow_step st).

Definition set_tool_request (x : option ToolRequest.t)
    (st : OrchestratorState.t) : OrchestratorState.t :=
  mk (conversation_context st) (educational_intent st)
     (extracted_parameters st) x (tool_response st)
     (orchestrator_response st) (error_message st) (workflow_step st).

Definition set_tool_response (x : option ToolResponse.t)
    (st : OrchestratorState.t) : OrchestratorState.t :=
  mk (conversation_context st) (educational_intent st)
     (extracted_parameters st) (tool_request st) x
     (orchestrator_response st) (error_message st) (workflow_step st).

Definition set_orchestrator_response (x : option OrchestratorResponse.t)
    (st : OrchestratorState.t) : OrchestratorState.t :=
  mk (conversation_context st) (educational_intent st)
     (extracted_parameters st) (tool_request st) (tool_response st) x
     (error_message st) (workflow_step st).

Definition set_error_message (x : option string) (st : OrchestratorState.t)
  : OrchestratorState.t :=
  mk (conversation_context st) (educational_intent st)
     (extracted_parameters st) (tool_request st) (tool_response st)
     (orchestrator_response st) x (workflow_step st).

Definition set_workflow_step (x : string) (st : OrchestratorState.t)
  : OrchestratorState.t :=
  mk (conversation_context st) (educational_intent st)
     (extracted_parameters st) (tool_request st) (tool_response st)
     (orchestrator_response st) (error_message st) x.

(** The [except] clause shared by the nodes that end in the error step. *)
Definition fail_with (message : string) (st : OrchestratorState.t)
  : OrchestratorState.t :=
  set_workflow_step "error" (set_error_message (Some message) st).

(** ** The outbound HTTP call *)

Record http_request := mk_request {
  url : string;
  json : ToolRequest.t;
  timeout : Z
}.

(** What [client.post] gives: a response (its status code, whether its
    body is non-empty, and what [response.json()] yields), or the
    exception the transport raises. *)
Inductive http_reply :=
| Response (status_code : Z) (has_content : bool) (body : result value)
| Failure (e : exn).

(** A computation that may send requests: it extends the log of the
    requests sent so far. *)
Definition io (A : Type) : Type := list http_request -> A * list http_request.

Definition io_ret {A : Type} (a : A) : io A := fun log => (a, log).

Definition io_bind {A B : Type} (m : io A) (f : A -> io B) : io B :=
  fun log => let '(a, log') := m log in f a log'.

Notation "'do' x <- m ; k" := (io_bind m (fun x => k))
  (at level 10, x name, m at level 100, k at level 200).

Definition tool_endpoints (config : gmap string string) : gmap string string :=
  list_to_map [
    ("note_maker",
      default "http://localhost:8001" (config !! "NOTE_MAKER_URL"));
    ("flashcard_generator",
      default "http://localhost:8002" (config !! "FLASHCARD_GENERATOR_URL"));
    ("concept_explainer",
      default "http://localhost:8003" (config !! "CONCEPT_EXPLAINER_URL"))].

Definition failed (error error_code : string) : ToolResponse.t :=
  ToolResponse.mk false None (Some error) (Some error_code).

Section WithCollaborators.
Variable config : gmap string string.
(** The language models of the analyzer and of the extractor. *)
Variable llm : string -> result string.
Variable llm_json : ConversationContext.t -> string -> result pydict.
(** The transport under [httpx.AsyncClient.post]. *)
Variable transport : http_request -> http_reply.
(** What the [ToolResponse] model makes of a value of another type
    where it declares [Optional[str]] or [Optional[Dict]]: a coerced
    value or a validation error, depending on the version of the
    modelling library. *)
Variable coerce_str : value -> result string.
Variable coerce_dict : value -> result pydict.

Definition post (request : http_request) : io http_reply :=
  fun log => (transport request, log ++ [request]).

Definition optional_str (v : value) : result (option string) :=
  match v with
  | VNone => Ok None
  | VStr s => Ok (Some s)
  | _ => s ← coerce_str v; Ok (Some s)
  end.

Definition optional_dict (v : value) : result (option pydict) :=
  match v with
  | VNone => Ok None
  | VDict d => Ok (Some d)
  | _ => d ← coerce_dict v; Ok (Some d)
  end.

(** The [try] block of [_call_educational_tool], after the reply of
    the transport. *)
Definition handle_reply (reply : http_reply) : result ToolResponse.t :=
  match reply with
  | Failure e => Raise e
  | Response status_code has_content body =>
      if (status_code =? 200)%Z then
        data ← body;
        d ← optional_dict data;
        Ok (ToolResponse.mk true d None None)
      else
        error_data ← (if has_content then body else Ok (VDict ∅));
        error ←
          Py.get error_data "error"
                 (VStr ("HTTP " +:+ PyStr.of_Z status_code));
        error_code ← Py.get error_data "error_code" (VStr "HTTP_ERROR");
        e ← optional_str error;
        c ← optional_str error_code;
        Ok (ToolResponse.mk false None e c)
  end.

Definition _call_educational_tool (tool_request : ToolRequest.t)
  : io ToolResponse.t :=
  let tool_name := ToolRequest.tool_name tool_request in
  match tool_endpoints config !! tool_name with
  | Some endpoint =>
      if String.eqb endpoint "" then
        io_ret (failed ("Unknown tool: " +:+ tool_name) "UNKNOWN_TOOL")
      else
        do reply <- post (mk_request (endpoint +:+ "/generate")
                                     tool_request 30);
        io_ret
          match handle_reply reply with
          | Ok response => response
          | Raise (TimeoutException _) =>
              failed "Tool request timed out" "TIMEOUT"
          | Raise (ConnectError _) =>
              failed ("Could not connect to " +:+ tool_name +:+ " service")
                     "CONNECTION_ERROR"
          | Raise e =>
              failed ("Tool call failed: " +:+ exn_str e) "CALL_ERROR"
          end
  | None => io_ret (failed ("Unknown tool: " +:+ tool_name) "UNKNOWN_TOOL")
  end.

(** ** The nodes of the workflow

    Each node runs inside a [try] block; none of the calls it makes
    raises in this embedding (the analyzer, the extractor and the
    tool client catch their own exceptions), so the [except] clauses
    of the nodes are not reached and are left out. *)

Definition _analyze_context_node (state : OrchestratorState.t)
  : OrchestratorState.t :=
  let context := conversation_context state in
  let intent := ContextAnalyzer.analyze_context llm context in
  set_workflow_step "context_analyzed"
    (set_educational_intent (Some intent) state).

Definition _extract_parameters_node (state : OrchestratorState.t)
  : OrchestratorState.t :=
  let context := conversation_context state in
  match educational_intent state with
  | None => fail_with "No educational intent identified" state
  | Some intent =>
      let extraction_result :=
        ParameterExtractor.extract_parameters llm_json intent context in
      if ParameterExtractor.ParameterExtractionResult.success
           extraction_result
      then
        set_workflow_step "parameters_extracted"
          (set_extracted_parameters
             (ParameterExtractor.ParameterExtractionResult.extracted_parameters
                extraction_result) state)
      else
        let filled_params :=
          ParameterExtractor.fill_missing_parameters
            (ParameterExtractor.ParameterExtractionResult.missing_parameters
               extraction_result)
            context (EducationalIntent.suggested_tool intent) in
        set_workflow_step "parameters_filled"
          (set_extracted_parameters
             (Py.merge
                (ParameterExtractor.ParameterExtractionResult.extracted_parameters
                   extraction_result)
                filled_params) state)
  end.

Definition _validate_request_node (state : OrchestratorState.t)
  : OrchestratorState.t :=
  let params := extracted_parameters state in
  let context := conversation_context state in
  match educational_intent state with
  | None => fail_with "Missing intent or parameters" state
  | Some intent =>
      if negb (Py.truthy (VDict params))
      then fail_with "Missing intent or parameters" state
      else
        let tool_request :=
          ToolRequest.mk (EducationalIntent.suggested_tool intent) params
                         (ConversationContext.user_info context)
                         (ConversationContext.chat_history context) in
        set_workflow_step "request_validated"
          (set_tool_request (Some tool_request) state)
  end.

Definition _should_execute_tool (state : OrchestratorState.t) : string :=
  if String.eqb (workflow_step state) "error" then "error" else "execute".

Definition _execute_tool_node (state : OrchestratorState.t)
  : io OrchestratorState.t :=
  match tool_request state with
  | None => io_ret (fail_with "No tool request to execute" state)
  | Some tool_request =>
      do tool_response <- _call_educational_tool tool_request;
      io_ret (set_workflow_step "tool_executed"
                (set_tool_response (Some tool_response) state))
  end.

Definition _format_response_node (state : OrchestratorState.t)
  : OrchestratorState.t :=
  let tool_response := tool_response state in
  let orchestrator_response :=
    OrchestratorResponse.mk
      (match tool_response with
       | Some r => ToolResponse.success r
       | None => false
       end)
      tool_response
      (educational_intent state)
      (match tool_response with
       | Some r =>
           if negb (ToolResponse.success r) then ToolResponse.error r
           else None
       | None => None
       end)
      (Some (conversation_context state)) in
  set_workflow_step "response_formatted"
    (set_orchestrator_response (Some orchestrator_response) state).

Definition _handle_error_node (state : OrchestratorState.t)
  : OrchestratorState.t :=
  let orchestrator_response :=
    OrchestratorResponse.mk false None (educational_intent state)
                            (error_message state)
                            (Some (conversation_context state)) in
  set_workflow_step "error_handled"
    (set_orchestrator_response (Some orchestrator_response) state).

(** ** The graph *)

Inductive node :=
| analyze_context
| extract_parameters
| validate_request
| execute_tool
| format_response
| handle_error.

Definition run_node (n : node) (state : OrchestratorState.t)
  : io OrchestratorState.t :=
  match n with
  | analyze_context => io_ret (_analyze_context_node state)
  | extract_parameters => io_ret (_extract_parameters_node state)
  | validate_request => io_ret (_validate_request_node state)
  | execute_tool => _execute_tool_node state
  | format_response => io_ret (_format_response_node state)
  | handle_error => io_ret (_handle_error_node state)
  end.

(** The edges added in [_build_workflow]; [None] is [END]. *)
Definition next_node (n : node) (state : OrchestratorState.t)
  : option node :=
  match n with
  | analyze_context => Some extract_parameters
  | extract_parameters => Some validate_request
  | validate_request =>
      if String.eqb (_should_execute_tool state) "execute"
      then Some execute_tool else Some handle_error
  | execute_tool => Some format_response
  | format_response => None
  | handle_error => None
  end.

(** Running the compiled graph from node [n]: the final state and the
    nodes that ran, or [None] when [fuel] steps were not enough. *)
Fixpoint run (fuel : nat) (n : node) (state : OrchestratorState.t)
  : io (option (OrchestratorState.t * list node)) :=
  match fuel with
  | O => io_ret None
  | S fuel' =>
      do state' <- run_node n state;
      match next_node n state' with
      | None => io_ret (Some (state', [n]))
      | Some n' =>
          do rest <- run fuel' n' state';
          io_ret (match rest with
                  | Some (final, visited) => Some (final, n :: visited)
                  | None => None
                  end)
      end
  end.

Definition initial_state (context : ConversationContext.t)
  : OrchestratorState.t :=
  mk context None ∅ None None None None "start".

(** [workflow.ainvoke(initial_state)] with the entry point
    [analyze_context]; the graph has six nodes and no cycle. *)
Definition ainvoke (state : OrchestratorState.t)
  : io (option (OrchestratorState.t * list node)) :=
  run 6 analyze_context state.

(** [orchestrate]: the response stored in the final state. *)
Definition orchestrate (context : ConversationContext.t)
  : io (option OrchestratorResponse.t) :=
  do final <- ainvoke (initial_state context);
  io_ret (match final with
          | Some (final_state, _) => orchestrator_response final_state
          | None => None
          end).
End WithCollaborators.

End ToolOrchestrator.

(* ===================================================================== *)
(** * main.py: the [/orchestrate] endpoint *)
(* ===================================================================== *)

Module Main.
Import Models.

(** What an endpoint gives: the value it returns, or the
    [HTTPException] it raises. *)
Inductive outcome (A : Type) :=
| Returned (a : A)
| HTTPException (status_code : Z) (detail : string).
Arguments Returned {A} a.
Arguments HTTPException {A} status_code detail.

Section WithCollaborators.
Variable config : gmap string string.
Variable llm : string -> result string.
Variable llm_json : ConversationContext.t -> string -> result pydict.
Variable transport : ToolOrchestrator.http_request -> ToolOrchestrator.http_reply.
Variable coerce_str : value -> result string.
Variable coerce_dict : value -> result pydict.

(** [orchestrate_request]: the context is first validated as the
    parameters of a request for the tool named ['unknown']. Indexing an
    empty error list, or reading [success] of a missing response, raises
    inside the [try] block, which answers with status 500. *)
Definition orchestrate_request (context : ConversationContext.t)
  : ToolOrchestrator.io (outcome OrchestratorResponse.t) :=
  let validation_result :=
    SchemaValidator.validate_tool_request
      (ToolRequest.mk "unknown" (ConversationContext.dict context)
                      (ConversationContext.user_info context)
                      (ConversationContext.chat_history context)) in
  if negb (SchemaValidator.ValidationResult.is_valid validation_result) then
    ToolOrchestrator.io_ret
      match SchemaValidator.ValidationResult.errors validation_result with
      | e :: _ =>
          Returned
            (OrchestratorResponse.mk false None None
               (Some ("Input validation failed: "
                      +:+ SchemaValidator.e_message e))
               None)
      | [] =>
          HTTPException 500 "Orchestration failed: list index out of range"
      end
  else
    ToolOrchestrator.io_bind
      (ToolOrchestrator.orchestrate config llm llm_json transport
                                    coerce_str coerce_dict context)
      (fun response =>
         ToolOrchestrator.io_ret
           match response with
           | Some r => Returned r
           | None =>
               HTTPException 500
                 ("Orchestration failed: "
                  +:+ "'NoneType' object has no attribute 'success'")
           end).
End WithCollaborators.

End Main.

(* ===================================================================== *)
(** * state_manager.py *)
(* ===================================================================== *)

(** The manager of student profiles and conversation sessions. Times
    are in microseconds, and every reading of the clock
    ([datetime.now()]) is an argument of the method that makes it. The
    methods that assign attributes by name ([update_student_profile],
    [update_session]), the learning progress and the statistics are not
    part of the embedding. *)
Module StateManager.
Import Models.

Module StudentProfile.
Record t := mk {
  user_id : string;
  name : string;
  grade_level : string;
  learning_style_summary : string;
  emotional_state_summary : string;
  mastery_level_summary : string;
  teaching_style : option TeachingStyle;
  emotional_state : option EmotionalState;
  mastery_level : option Z;
  preferences : pydict;
  learning_history : list pydict;
  created_at : Z;
  updated_at : Z
}.
End StudentProfile.

Module ConversationSession.
Record t := mk {
  session_id : string;
  user_id : string;
  chat_history : list ChatMessage.t;
  current_context : option ConversationContext.t;
  session_start : Z;
  last_activity : Z;
  tool_interactions : list pydict;
  learning_objectives : list string;
  progress_tracking : pydict
}.
End ConversationSession.

(** The two tables of a [StateManager]. *)
Record t := mk {
  student_profiles : gmap string StudentProfile.t;
  active_sessions : gmap string ConversationSession.t
}.

(** [StateManager()] *)
Definition init : t := mk ∅ ∅.

(** [timedelta(hours=2)] *)
Definition session_timeout : Z := 2 * 3600 * 1000000.

Definition _infer_teaching_style (user_info : UserInfo.t) : TeachingStyle :=
  let learning_style :=
    PyStr.lower (UserInfo.learning_style_summary user_info) in
  if PyStr.contains "visual" learning_style
     || PyStr.contains "image" learning_style then VISUAL
  else if PyStr.contains "question" learning_style
          || PyStr.contains "discussion" learning_style then SOCRATIC
  else if PyStr.contains "application" learning_style
          || PyStr.contains "practice" learning_style then FLIPPED_CLASSROOM
  else DIRECT.

Definition _infer_emotional_state (user_info : UserInfo.t) : EmotionalState :=
  let emotional_summary :=
    PyStr.lower (UserInfo.emotional_state_summary user_info) in
  if PyStr.contains "focused" emotional_summary
     || PyStr.contains "motivated" emotional_summary then FOCUSED
  else if PyStr.contains "anxious" emotional_summary
          || PyStr.contains "worried" emotional_summary then ANXIOUS
  else if PyStr.contains "confused" emotional_summary
          || PyStr.contains "lost" emotional_summary then CONFUSED
  else if PyStr.contains "tired" emotional_summary
          || PyStr.contains "exhausted" emotional_summary then TIRED
  else FOCUSED.

Definition _infer_mastery_level (user_info : UserInfo.t) : Z :=
  let mastery_summary :=
    PyStr.lower (UserInfo.mastery_level_summary user_info) in
  if PyStr.contains "level 1" mastery_summary
     || PyStr.contains "foundation" mastery_summary then 1
  else if PyStr.contains "level 2" mastery_summary then 2
  else if PyStr.contains "level 3" mastery_summary then 3
  else if PyStr.contains "level 4" mastery_summary
          || PyStr.contains "building" mastery_summary then 4
  else if PyStr.contains "level 5" mastery_summary then 5
  else if PyStr.contains "level 6" mastery_summary
          || PyStr.contains "good" mastery_summary then 6
  else if PyStr.contains "level 7" mastery_summary
          || PyStr.contains "proficient" mastery_summary then 7
  else if PyStr.contains "level 8" mastery_summary then 8
  else if PyStr.contains "level 9" mastery_summary
          || PyStr.contains "advanced" mastery_summary then 9
  else if PyStr.contains "level 10" mastery_summary
          || PyStr.contains "master" mastery_summary then 10
  else 5.

(** [create_student_profile]; the two readings of the clock are those
    of [__post_init__]. *)
Definition create_student_profile (self : t) (user_info : UserInfo.t)
    (created_at updated_at : Z) : StudentProfile.t * t :=
  let profile :=
    StudentProfile.mk
      (UserInfo.user_id user_info) (UserInfo.name user_info)
      (UserInfo.grade_level user_info)
      (UserInfo.learning_style_summary user_info)
      (UserInfo.emotional_state_summary user_info)
      (UserInfo.mastery_level_summary user_info)
      (Some (_infer_teaching_style user_info))
      (Some (_infer_emotional_state user_info))
      (Some (_infer_mastery_level user_info))
      ∅ [] created_at updated_at in
  (profile,
   mk (<[UserInfo.user_id user_info := profile]> (student_profiles self))
      (active_sessions self)).

Definition get_student_profile (self : t) (user_id : string)
  : option StudentProfile.t :=
  student_profiles self !! user_id.

(** [create_session]; the two readings of the clock are those of
    [__post_init__]. *)
Definition create_session (self : t) (user_id session_id : string)
    (session_start last_activity : Z) : ConversationSession.t * t :=
  let session :=
    ConversationSession.mk session_id user_id [] None
                           session_start last_activity [] [] ∅ in
  (session,
   mk (student_profiles self)
      (<[session_id := session]> (active_sessions self))).

Definition get_session (self : t) (session_id : string) (now : Z)
  : option ConversationSession.t * t :=
  match active_sessions self !! session_id with
  | Some session =>
      if (now - ConversationSession.last_activity session >? session_timeout)%Z
      then (None,
            mk (student_profiles self)
               (delete session_id (active_sessions self)))
      else (Some session, self)
  | None => (None, self)
  end.

Definition add_message_to_session (self : t) (session_id : string)
    (message : ChatMessage.t) (now : Z) : bool * t :=
  match active_sessions self !! session_id with
  | None => (false, self)
  | Some session =>
      let chat_history := ConversationSession.chat_history session ++ [message]
      in
      let chat_history :=
        if (Z.of_nat (length chat_history) >? 50)%Z
        then drop (length chat_history - 50) chat_history
        else chat_history in
      let session :=
        ConversationSession.mk
          (ConversationSession.session_id session)
          (ConversationSession.user_id session)
          chat_history
          (ConversationSession.current_context session)
          (ConversationSession.session_start session)
          now
          (ConversationSession.tool_interactions session)
          (ConversationSession.learning_objectives session)
          (ConversationSession.progress_tracking session) in
      (true,
       mk (student_profiles self)
          (<[session_id := session]> (active_sessions self)))
  end.

(** [get_conversation_context]; building the [ConversationContext]
    raises when the mastery level of the profile is outside 1..10. *)
Definition get_conversation_context (self : t) (session_id : string)
  : result (option ConversationContext.t) :=
  match active_sessions self !! session_id with
  | None => Ok None
  | Some session =>
      match student_profiles self !! ConversationSession.user_id session with
      | None => Ok None
      | Some profile =>
          let in_range :=
            match StudentProfile.mastery_level profile with
            | Some m => ((1 <=? m) && (m <=? 10))%Z
            | None => true
            end in
          if in_range then
            Ok (Some
                  (ConversationContext.mk
                     (UserInfo.mk
                        (StudentProfile.user_id profile)
                        (StudentProfile.name profile)
                        (StudentProfile.grade_level profile)
                        (StudentProfile.learning_style_summary profile)
                        (StudentProfile.emotional_state_summary profile)
                        (StudentProfile.mastery_level_summary profile))
                     (ConversationSession.chat_history session)
                     ""
                     (StudentProfile.teaching_style profile)
                     (StudentProfile.emotional_state profile)
                     (StudentProfile.mastery_level profile)))
          else Raise (ValidationFailure
                        "1 validation error for ConversationContext")
      end
  end.

(** [cleanup_expired_sessions]: the number of sessions removed, and the
    manager without them. *)
Definition cleanup_expired_sessions (self : t) (current_time : Z) : Z * t :=
  let expired (session : ConversationSession.t) : bool :=
    (current_time - ConversationSession.last_activity session
     >? session_timeout)%Z in
  let expired_sessions := filter (fun kv => expired kv.2)
                                 (map_to_list (active_sessions self)) in
  (Z.of_nat (length expired_sessions),
   mk (student_profiles self)
      (fold_left (fun sessions kv => delete kv.1 sessions)
                 expired_sessions (active_sessions self))).

End StateManager.

(* ===================================================================== *)
(** * Fixtures of tests/test_system.py, and collaborators that fail *)
(* ===================================================================== *)

Module Fixtures.
Import Models.

Definition sample_user_info : UserInfo.t :=
  UserInfo.mk "test_user_123" "Test Student" "10"
    "Visual learner, prefers diagrams and examples"
    "Focused and motivated to learn"
    "Level 6 - Good understanding, ready for application".

Definition sample_chat_history : list ChatMessage.t :=
  [ChatMessage.mk USER "I need help with calculus derivatives";
   ChatMessage.mk ASSISTANT
     "I'd be happy to help you with calculus derivatives!";
   ChatMessage.mk USER "Can you explain the chain rule?"].

Definition sample_conversation_context : ConversationContext.t :=
  ConversationContext.mk sample_user_info sample_chat_history
    "I'm struggling with calculus derivatives and need some practice problems"
    (Some VISUAL) (Some FOCUSED) (Some 6).

(** The parameters of [test_validate_tool_request_success]. *)
Definition note_maker_parameters : pydict :=
  list_to_map [
    ("user_info", VDict (UserInfo.dict sample_user_info));
    ("chat_history",
      VList (map (fun msg => VDict (ChatMessage.dict msg))
                 sample_chat_history));
    ("topic", VStr "photosynthesis");
    ("subject", VStr "biology");
    ("note_taking_style", VStr "outline")].

Definition note_maker_request (parameters : pydict) : ToolRequest.t :=
  ToolRequest.mk "note_maker" parameters sample_user_info sample_chat_history.

(** Language models whose call raises, as with no API key. *)
Definition llm_down : string -> result string :=
  fun _ => Raise (OtherException "api key missing").

Definition llm_json_down : ConversationContext.t -> string -> result pydict :=
  fun _ _ => Raise (OtherException "api key missing").

(** A [ToolResponse] model that refuses values of another type. *)
Definition strict_str : value -> result string :=
  fun _ => Raise (ValidationFailure "str type expected").

Definition strict_dict : value -> result pydict :=
  fun _ => Raise (ValidationFailure "dict type expected").

End Fixtures.

(* ===================================================================== *)
(** * Vocabulary of the properties *)
(* ===================================================================== *)

Import Models.

Local Open Scope Z_scope.

Section ValidatorVocabulary.
Import SchemaValidator.

(** The parameters kept by the two loops when no field fails: each listed
    field that is present, with its value. *)
Definition keep (parameters : pydict) (fields : list string) (acc : pydict)
  : pydict :=
  fold_left (fun m f => match parameters !! f with
                        | Some v => <[f := v]> m
                        | None => m
                        end) fields acc.

Definition required_ok (parameters : pydict) (schema : tool_schema)
    (field : string) : Prop :=
  exists v, parameters !! field = Some v
            /\ fr_is_valid (_validate_field field v schema) = true.

Definition optional_ok (parameters : pydict) (schema : tool_schema)
    (field : string) : Prop :=
  forall v, parameters !! field = Some v
            -> fr_is_valid (_validate_field field v schema) = true.

(** The result reports an error with the given code on the given field. *)
Definition reports (code field : string) (r : ValidationResult.t) : Prop :=
  exists e, e ∈ ValidationResult.errors r /\ e_code e = code
            /\ e_field e = field.

(** The parameters whose [user_info], when present, is an object and whose
    [chat_history], when present, is an array. *)
Definition well_shaped (parameters : pydict) : Prop :=
  (forall v, parameters !! "user_info" = Some v -> exists d, v = VDict d)
  /\ (forall v, parameters !! "chat_history" = Some v -> exists l, v = VList l).

Definition missing_required (field : string) : error_entry :=
  make_error MISSING_REQUIRED field
    ("Required field " +:+ PyStr.repr field +:+ " is missing")
    "MISSING_REQUIRED".

Definition system_role_chat : value :=
  VList [VDict (list_to_map [("role", VStr "system");
                             ("content", VStr "Hello")])].

(** A chat history the validator has to refuse for its length or for the
    content of one of its messages. *)
Definition defective_history (l : list value) : Prop :=
  (50 < length l)%nat
  \/ exists m c, VDict m ∈ l /\ m !! "content" = Some (VStr c)
                 /\ (c = "" \/ 2000 < PyStr.len c).

Definition with_nul (before after : string) : string :=
  before +:+ String PyStr.NUL after.

(** The data of [test_sanitize_input]. *)
Definition sanitize_data : pydict :=
  list_to_map [
    ("text", VStr (with_nul "  Test text with" "null character  "));
    ("nested", VDict (list_to_map [("value", VStr (with_nul "Another" "value"))]));
    ("list", VList [VStr "Item1"; VStr (with_nul "Item2" "")])].

End ValidatorVocabulary.




Definition fifteen_cards_context : ConversationContext.t :=
  ConversationContext.mk Fixtures.sample_user_info []
    "I need 15 cards to memorize Spanish vocabulary"
    None (Some FOCUSED) (Some 5).

Section PipelineVocabulary.
Import ToolOrchestrator ToolOrchestrator.OrchestratorState.

(** The state the analysis node leaves for [intent]. *)
Definition analyzed (context : ConversationContext.t)
    (intent : EducationalIntent.t) : OrchestratorState.t :=
  set_workflow_step "context_analyzed"
    (set_educational_intent (Some intent) (initial_state context)).

(** The response of the error path for a tool without extraction
    schema. *)
Definition missing_parameters_response (context : ConversationContext.t)
    (intent : EducationalIntent.t) : OrchestratorResponse.t :=
  OrchestratorResponse.mk false None (Some intent)
                          (Some "Missing intent or parameters") (Some context).

(** The entry of a remote error body under [key] is absent or a string. *)
Definition absent_or_text (d : pydict) (key : string) : Prop :=
  d !! key = None \/ exists s, d !! key = Some (VStr s).

(** The string under [key], or [fallback] when there is none. *)
Definition text_or (d : pydict) (key fallback : string) : string :=
  match d !! key with
  | Some (VStr s) => s
  | _ => fallback
  end.

(** A gateway that answers 502 with a body that is not JSON. *)
Definition bad_gateway : ToolOrchestrator.http_request
                         -> ToolOrchestrator.http_reply :=
  fun _ => ToolOrchestrator.Response 502 true
             (Raise (JSONDecodeError
                       "Expecting value: line 1 column 1 (char 0)")).

(** An endpoint nothing listens on. *)
Definition unreachable : ToolOrchestrator.http_request
                         -> ToolOrchestrator.http_reply :=
  fun _ => ToolOrchestrator.Failure (ConnectError "All connection attempts failed").

End PipelineVocabulary.

(** Every character of [s] is in the class [cls]. *)
Fixpoint all_in (cls : ascii -> bool) (s : string) : bool :=
  match s with
  | EmptyString => true
  | String c s' => cls c && all_in cls s'
  end.

(** No character of [s] is in the class [cls]. *)
Definition none_in (cls : ascii -> bool) (s : string) : bool :=
  all_in (fun c => negb (cls c)) s.


(** The nouns a count may stand before. *)
Definition counted_nouns : list string :=
  ["question"; "questions"; "card"; "cards";
   "note"; "notes"; "item"; "items"].

(** What is left of [s] after its longest prefix in the class [cls]. *)
Fixpoint after_run (cls : ascii -> bool) (s : string) : string :=
  match s with
  | EmptyString => s
  | String c s' => if cls c then after_run cls s' else s
  end.

(** [s] starts with a count phrase: a number, then whitespace or none,
    then one of the counted nouns. *)
Definition starts_count_phrase (s : string) : bool :=
  match s with
  | EmptyString => false
  | String c _ =>
      PyStr.isdigit c
      && existsb
           (fun noun =>
              String.prefix noun
                (after_run PyStr.isspace (after_run PyStr.isdigit s)))
           counted_nouns
  end.

(** No count phrase starts at a position of [pre] in [pre +:+ rest]: a
    count phrase at the start of [rest] is the leftmost one. *)
Fixpoint leftmost_phrase (pre rest : string) : bool :=
  match pre with
  | EmptyString => true
  | String _ pre' =>
      negb (starts_count_phrase (pre +:+ rest)) && leftmost_phrase pre' rest
  end.

Section AnalyzerVocabulary.
Import Re ContextAnalyzer.


(** The patterns declared for an intent category. *)
Definition patterns_of (intent : string) : list Re.regex :=
  match filter (fun ip => String.eqb ip.1 intent) ContextAnalyzer.intent_patterns
  with
  | ip :: _ => ip.2
  | [] => []
  end.

End AnalyzerVocabulary.

Section ValidatorTerms.
Import SchemaValidator.

(** What the check of [user_info] reports for one of its fields. *)
Definition user_info_errors (d : pydict) (field : string) : list error_entry :=
  match d !! field with
  | None =>
      [make_error MISSING_REQUIRED ("user_info." +:+ field)
         ("Required field " +:+ PyStr.repr ("user_info." +:+ field)
          +:+ " is missing")
         "MISSING_USER_INFO_FIELD"]
  | Some x =>
      _validate_constraints x
        (default no_constraints
                 (validation_rules.user_info.field_constraints !! field))
  end.

(** A value that is no string, or a string of [lo] to [hi] characters. *)
Definition text_within (lo : Z) (hi : option Z) (v : value) : Prop :=
  forall s, v = VStr s ->
            lo <= PyStr.len s /\ forall h, hi = Some h -> PyStr.len s <= h.

(** The greatest length the rules allow for a field of [user_info]. *)
Definition user_info_max (field : string) : option Z :=
  c_max_length
    (default no_constraints
             (validation_rules.user_info.field_constraints !! field)).

Definition message_ok (m : value) : Prop :=
  exists d, m = VDict d /\ is_Some (d !! "role")
            /\ exists c, d !! "content" = Some c
                         /\ text_within 1 (Some 2000) c.

(** The bounds the rules put on the six strings of a [UserInfo]. *)
Definition user_info_within_bounds (u : UserInfo.t) : Prop :=
  1 <= PyStr.len (UserInfo.user_id u)
  /\ 1 <= PyStr.len (UserInfo.name u) <= 100
  /\ 1 <= PyStr.len (UserInfo.grade_level u)
  /\ 1 <= PyStr.len (UserInfo.learning_style_summary u) <= 500
  /\ 1 <= PyStr.len (UserInfo.emotional_state_summary u) <= 500
  /\ 1 <= PyStr.len (UserInfo.mastery_level_summary u) <= 500.

(** The codes an error of [validate_tool_request] can carry. *)
Definition reported_codes : list string :=
  ["UNKNOWN_TOOL"; "VALIDATION_ERROR"; "MISSING_REQUIRED"; "INVALID_TYPE";
   "MIN_LENGTH_VIOLATION"; "MAX_LENGTH_VIOLATION"; "INVALID_ENUM_VALUE";
   "MIN_VALUE_VIOLATION"; "MAX_VALUE_VIOLATION"; "MISSING_USER_INFO_FIELD";
   "MAX_ARRAY_LENGTH_VIOLATION"; "INVALID_MESSAGE_TYPE"; "MISSING_ROLE";
   "MISSING_CONTENT"].

(** The codes the validator declares and never reports. *)
Definition silent_codes : list string :=
  ["UNDEFINED_FIELD"; "INVALID_BOOLEAN_TYPE"; "MIN_ARRAY_LENGTH_VIOLATION"].

(** One step of a path into a JSON value: under a key of an object, or at
    an index of an array. *)
Inductive path_step :=
| Key (k : string)
| Index (i : nat).

(** The value found along [path] from [v]. *)
Fixpoint at_path (v : value) (path : list path_step) : option value :=
  match path with
  | [] => Some v
  | Key k :: path' =>
      match v with
      | VDict d => x ← d !! k; at_path x path'
      | _ => None
      end
  | Index i :: path' =>
      match v with
      | VList l => x ← l !! i; at_path x path'
      | _ => None
      end
  end.

(** The paths on which every array item that is entered is an object: an
    index is always followed by a key. *)
Fixpoint through_objects (path : list path_step) : bool :=
  match path with
  | [] => true
  | Key _ :: path' => through_objects path'
  | Index _ :: Key _ :: path' => through_objects path'
  | Index _ :: _ => false
  end.

Definition known (e : error_entry) : Prop := e_code e ∈ reported_codes.
End ValidatorTerms.

Section AnalyzerTerms.
Import ContextAnalyzer.

(** The four categories of the classifier. *)
Definition categories : list string := map fst intent_patterns.

(** The titles of the subjects that another subject of the list always
    shadows. *)
Definition shadowed_subjects : list string :=
  ["Mathematics"; "Environmental Science"; "Computer Science"].



(** The messages of the student. *)
Definition from_user (msg : ChatMessage.t) : bool :=
  String.eqb (Role_value (ChatMessage.role msg)) "user".
End AnalyzerTerms.

Section ExtractorTerms.
Import ParameterExtractor.

(** A parameter the extractor counts as missing: no entry, or [None]. *)
Definition absent (params : pydict) (param : string) : bool :=
  match params !! param with
  | Some VNone | None => true
  | Some _ => false
  end.

(** The parameters no pass but the language model's and the classifier's
    can provide. *)
Definition unguessable : list string :=
  ["topic"; "subject"; "concept_to_explain"; "current_topic"].

(** The fields of a schema of the extractor. *)
Definition schema_fields (s : schema) : list string := required s ++ optional s.
End ExtractorTerms.

Section WorkflowTerms.
Import ParameterExtractor.

(** What [fill_missing_parameters] stores for a parameter. *)
Definition filled_value (param : string) (context : ConversationContext.t)
    (tool_name : string) : value :=
  if existsb (String.eqb param) ["topic"; "subject"]
  then VStr (_ask_for_parameter param context)
  else _get_intelligent_default param context tool_name.
End WorkflowTerms.

Section SessionTerms.
Import StateManager.

(** The calls of the manager that the embedding covers. *)
Inductive manager_call :=
| CreateStudentProfile (user_info : UserInfo.t) (created_at updated_at : Z)
| CreateSession (user_id session_id : string) (session_start last_activity : Z)
| GetSession (session_id : string) (now : Z)
| AddMessageToSession (session_id : string) (message : ChatMessage.t) (now : Z)
| CleanupExpiredSessions (current_time : Z).

(** The manager after one call. *)
Definition manager_after (self : StateManager.t) (c : manager_call) : StateManager.t :=
  match c with
  | CreateStudentProfile user_info created_at updated_at =>
      (create_student_profile self user_info created_at updated_at).2
  | CreateSession user_id session_id session_start last_activity =>
      (create_session self user_id session_id session_start last_activity).2
  | GetSession session_id now => (get_session self session_id now).2
  | AddMessageToSession session_id message now =>
      (add_message_to_session self session_id message now).2
  | CleanupExpiredSessions current_time =>
      (cleanup_expired_sessions self current_time).2
  end.

(** The manager after a sequence of calls on a fresh one. *)
Definition after_calls (calls : list manager_call) : StateManager.t :=
  fold_left manager_after calls init.

(** Every session holds at most 50 messages and every profile a mastery
    level within 1..10. *)
Definition bounded (self : StateManager.t) : Prop :=
  (forall session_id session,
      active_sessions self !! session_id = Some session ->
      (length (ConversationSession.chat_history session) <= 50)%nat)
  /\ (forall user_id profile,
        student_profiles self !! user_id = Some profile ->
        exists m, StudentProfile.mastery_level profile = Some m
                  /\ 1 <= m <= 10).
End SessionTerms.

(* ===================================================================== *)
(** * The schema validator *)
(* ===================================================================== *)

Section Validation.
Import SchemaValidator.

(** [len(errors) == 0] *)
Lemma length_zero_nil {A : Type} (l : list A) :
  bool_decide (length l = 0%nat) = true <-> l = [].
Proof.
  rewrite bool_decide_eq_true. split; [apply nil_length_inv | by intros ->].
Qed.

(** A field check is valid exactly when it lists no error. *)
Lemma validate_field_valid_iff field v schema :
  fr_is_valid (_validate_field field v schema) = true
  <-> fr_errors (_validate_field field v schema) = [].
Proof.
  unfold _validate_field. destruct (field_types schema !! field); simpl.
  - apply length_zero_nil.
  - split; discriminate.
Qed.

(** The map [keep] builds, key by key. *)
Lemma lookup_keep parameters fields acc k :
  keep parameters fields acc !! k
  = if decide (k ∈ fields)
    then match parameters !! k with Some v => Some v | None => acc !! k end
    else acc !! k.
Proof.
  revert acc. induction fields as [|f fields IH]; intros acc.
  - case_decide as H; [by apply elem_of_nil in H|done].
  - unfold keep in *. cbn [fold_left]. rewrite IH. clear IH.
    destruct (decide (k ∈ fields)) as [Hin|Hnin].
    + rewrite decide_True by (by right).
      destruct (parameters !! k) eqn:Hk; [done|].
      destruct (parameters !! f) eqn:Hf; [|done].
      rewrite lookup_insert_ne; [done|congruence].
    + destruct (decide (k = f)) as [->|Hne].
      * rewrite decide_True by left.
        destruct (parameters !! f); [by rewrite lookup_insert_eq|done].
      * rewrite decide_False by (rewrite elem_of_cons; tauto).
        destruct (parameters !! f); [|done].
        by rewrite lookup_insert_ne.
Qed.

Lemma required_step_errors parameters schema acc field :
  exists extra, (required_step parameters schema acc field).1 = acc.1 ++ extra.
Proof.
  unfold required_step. destruct (parameters !! field); simpl.
  - destruct (fr_is_valid _); simpl; eauto. exists []. by rewrite app_nil_r.
  - eauto.
Qed.

Lemma optional_step_errors parameters schema acc field :
  exists extra, (optional_step parameters schema acc field).1 = acc.1 ++ extra.
Proof.
  unfold optional_step. destruct (parameters !! field); simpl.
  - destruct (fr_is_valid _); simpl; eauto. exists []. by rewrite app_nil_r.
  - exists []. by rewrite app_nil_r.
Qed.

(** The loops only ever append to the errors. *)
Lemma fold_errors {F : Type} (step : list error_entry * pydict -> F ->
                                     list error_entry * pydict) fields acc :
  (forall acc f, exists extra, (step acc f).1 = acc.1 ++ extra) ->
  exists extra, (fold_left step fields acc).1 = acc.1 ++ extra.
Proof.
  intros Hstep. revert acc. induction fields as [|f fields IH]; intros acc.
  - exists []. by rewrite app_nil_r.
  - simpl. destruct (IH (step acc f)) as [e2 ->].
    destruct (Hstep acc f) as [e1 ->]. exists (e1 ++ e2). by rewrite app_assoc.
Qed.

(** A loop over the required fields that ends without error met no
    missing and no invalid field, and kept every field. *)
Lemma required_loop_nil parameters schema fields acc :
  (fold_left (required_step parameters schema) fields acc).1 = [] ->
  acc.1 = [] /\ Forall (required_ok parameters schema) fields
  /\ fold_left (required_step parameters schema) fields acc
     = ([], keep parameters fields acc.2).
Proof.
  revert acc. induction fields as [|f fields IH]; intros acc H; simpl in *.
  - destruct acc; simpl in *; subst; auto.
  - destruct (IH _ H) as (H1 & H2 & H3). rewrite H3. clear IH H3.
    unfold required_step in *. destruct (parameters !! f) as [v|] eqn:Hf.
    + destruct (fr_is_valid (_validate_field f v schema)) eqn:Hv; simpl in *.
      * repeat split; auto. constructor; auto. exists v; auto.
      * apply app_eq_nil in H1 as [_ H1].
        apply validate_field_valid_iff in H1. congruence.
    + simpl in H1. by apply app_eq_nil in H1 as [_ ?].
Qed.

(** The same for the optional fields, of which some may be absent. *)
Lemma optional_loop_nil parameters schema fields acc :
  (fold_left (optional_step parameters schema) fields acc).1 = [] ->
  acc.1 = [] /\ Forall (optional_ok parameters schema) fields
  /\ fold_left (optional_step parameters schema) fields acc
     = ([], keep parameters fields acc.2).
Proof.
  revert acc. induction fields as [|f fields IH]; intros acc H; simpl in *.
  - destruct acc; simpl in *; subst; auto.
  - destruct (IH _ H) as (H1 & H2 & H3). rewrite H3. clear IH H3.
    unfold optional_step, optional_ok in *.
    destruct (parameters !! f) as [v|] eqn:Hf.
    + destruct (fr_is_valid (_validate_field f v schema)) eqn:Hv; simpl in *.
      * repeat split; auto. constructor; auto. intros ? ?. by simplify_eq.
      * apply app_eq_nil in H1 as [_ H1].
        apply validate_field_valid_iff in H1. congruence.
    + repeat split; auto. constructor; auto. intros ? ?. by simplify_eq.
Qed.

(** Conversely, fields that are all present and valid give no error. *)
Lemma required_loop_ok parameters schema fields vd :
  Forall (required_ok parameters schema) fields ->
  fold_left (required_step parameters schema) fields ([], vd)
  = ([], keep parameters fields vd).
Proof.
  revert vd. induction fields as [|f fields IH]; intros vd H; [done|].
  inversion H as [|? ? (v & Hf & Hv) Hrest]; subst. simpl.
  unfold required_step at 2. rewrite Hf, Hv. simpl. by rewrite IH.
Qed.

Lemma optional_loop_ok parameters schema fields vd :
  Forall (optional_ok parameters schema) fields ->
  fold_left (optional_step parameters schema) fields ([], vd)
  = ([], keep parameters fields vd).
Proof.
  revert vd. induction fields as [|f fields IH]; intros vd H; [done|].
  inversion H as [|? ? Hf Hrest]; subst. simpl.
  unfold optional_step at 2. destruct (parameters !! f) as [v|] eqn:E.
  - rewrite (Hf v E). simpl. by rewrite IH.
  - destruct vd; by rewrite IH.
Qed.

Lemma deeper_check_errors check parameters key errors errors' :
  deeper_check check parameters key errors = Ok errors' ->
  exists extra, errors' = errors ++ extra.
Proof.
  unfold deeper_check. destruct (parameters !! key) as [v|].
  - destruct (check v) as [r|e]; simpl; [|discriminate].
    intros [= <-]. destruct (negb _); eauto. exists []. by rewrite app_nil_r.
  - intros [= <-]. exists []. by rewrite app_nil_r.
Qed.

Lemma deeper_check_restrict check parameters parameters' key :
  deeper_check check parameters key [] = Ok [] ->
  parameters' !! key = parameters !! key \/ parameters' !! key = None ->
  deeper_check check parameters' key [] = Ok [].
Proof.
  unfold deeper_check. intros H [-> | ->]; done.
Qed.

(** The validated map of a valid request: the parameters restricted to
    the fields of the schema. *)
Lemma lookup_kept parameters required optional k :
  keep parameters optional (keep parameters required ∅) !! k
  = if decide (k ∈ required ++ optional) then parameters !! k else None.
Proof.
  rewrite !lookup_keep, lookup_empty.
  destruct (decide (k ∈ optional)) as [Ho|Ho],
    (decide (k ∈ required)) as [Hr|Hr];
    [rewrite decide_True by (apply elem_of_app; auto)
    | rewrite decide_True by (apply elem_of_app; auto)
    | rewrite decide_True by (apply elem_of_app; auto)
    | rewrite decide_False by (rewrite elem_of_app; tauto)];
    by destruct (parameters !! k).
Qed.

(** What a run of the [try] block without error amounts to. *)
Lemma validate_try_valid req r :
  validate_tool_request_try req = Ok r ->
  ValidationResult.is_valid r = true ->
  exists schema,
    tool_schemas !! ToolRequest.tool_name req = Some schema
    /\ Forall (required_ok (ToolRequest.parameters req) schema)
              (required_fields schema)
    /\ Forall (optional_ok (ToolRequest.parameters req) schema)
              (optional_fields schema)
    /\ deeper_check _validate_user_info (ToolRequest.parameters req)
                    "user_info" [] = Ok []
    /\ deeper_check _validate_chat_history (ToolRequest.parameters req)
                    "chat_history" [] = Ok []
    /\ r = ValidationResult.mk true [] []
             (Some (keep (ToolRequest.parameters req) (optional_fields schema)
                      (keep (ToolRequest.parameters req)
                            (required_fields schema) ∅))).
Proof.
  unfold validate_tool_request_try. intros Htry Hvalid.
  destruct (tool_schemas !! ToolRequest.tool_name req) as [schema|];
    [|by simplify_eq].
  exists schema. split; [done|].
  set (p := ToolRequest.parameters req) in *.
  set (acc1 := fold_left (required_step p schema) (required_fields schema)
                         ([], ∅)) in *.
  set (acc2 := fold_left (optional_step p schema) (optional_fields schema)
                         acc1) in *.
  destruct (deeper_check _validate_user_info p "user_info" acc2.1)
    as [e1|] eqn:H1; simpl in Htry; [|done].
  destruct (deeper_check _validate_chat_history p "chat_history" e1)
    as [e2|] eqn:H2; simpl in Htry; [|done].
  injection Htry as <-. simpl in Hvalid. apply length_zero_nil in Hvalid.
  subst e2.
  destruct (deeper_check_errors _ _ _ _ _ H2) as [x Hx].
  symmetry in Hx. apply app_eq_nil in Hx as [-> _].
  destruct (deeper_check_errors _ _ _ _ _ H1) as [y Hy].
  symmetry in Hy. apply app_eq_nil in Hy as [Hacc2 _].
  rewrite Hacc2 in H1.
  destruct (optional_loop_nil _ _ _ _ Hacc2) as (Hacc1 & Hopt & E2).
  destruct (required_loop_nil _ _ _ _ Hacc1) as (_ & Hreq & E1).
  repeat split; try done.
  fold acc1 in E1. fold acc2 in E2. rewrite E2. simpl.
  rewrite E1. simpl. done.
Qed.

(** ... and such a run is the run of any request in that situation. *)
Lemma validate_try_of_ok req schema :
  tool_schemas !! ToolRequest.tool_name req = Some schema ->
  Forall (required_ok (ToolRequest.parameters req) schema)
         (required_fields schema) ->
  Forall (optional_ok (ToolRequest.parameters req) schema)
         (optional_fields schema) ->
  deeper_check _validate_user_info (ToolRequest.parameters req)
               "user_info" [] = Ok [] ->
  deeper_check _validate_chat_history (ToolRequest.parameters req)
               "chat_history" [] = Ok [] ->
  validate_tool_request req
  = ValidationResult.mk true [] []
      (Some (keep (ToolRequest.parameters req) (optional_fields schema)
               (keep (ToolRequest.parameters req) (required_fields schema) ∅))).
Proof.
  intros Hs Hreq Hopt Hu Hc.
  unfold validate_tool_request, validate_tool_request_try. rewrite Hs.
  rewrite (required_loop_ok _ _ _ _ Hreq), (optional_loop_ok _ _ _ _ Hopt).
  simpl. rewrite Hu. simpl. rewrite Hc. done.
Qed.

(** C6. Validation is idempotent on its own output: when a tool request
    validates, it has a [validated_data], and validating that map as the
    parameters of the same tool is valid again, without errors, and gives
    back the very same map (the same fields with the same values). *)
Theorem validate_tool_request_idempotent (req : ToolRequest.t) :
  ValidationResult.is_valid (validate_tool_request req) = true ->
  exists validated_data,
    ValidationResult.validated_data (validate_tool_request req)
    = Some validated_data
    /\ validate_tool_request
         (ToolRequest.mk (ToolRequest.tool_name req) validated_data
                         (ToolRequest.user_info req)
                         (ToolRequest.chat_history req))
       = ValidationResult.mk true [] [] (Some validated_data).
Proof.
  intros Hvalid. unfold validate_tool_request in Hvalid |- * at 1.
  destruct (validate_tool_request_try req) as [r|e] eqn:Htry; [|done].
  destruct (validate_try_valid _ _ Htry Hvalid)
    as (schema & Hs & Hreq & Hopt & Hu & Hc & ->).
  set (p := ToolRequest.parameters req) in *.
  set (vd := keep p (optional_fields schema) (keep p (required_fields schema) ∅)).
  exists vd. split; [done|].
  assert (Hlook : forall k, k ∈ required_fields schema ++ optional_fields schema
                            -> vd !! k = p !! k).
  { intros k Hk. unfold vd. rewrite lookup_kept. by rewrite decide_True. }
  assert (Hsub : forall k, vd !! k = p !! k \/ vd !! k = None).
  { intros k. unfold vd. rewrite lookup_kept. case_decide; auto. }
  rewrite (validate_try_of_ok _ schema); simpl; try done.
  - do 2 f_equal. apply map_eq. intros k. rewrite lookup_kept.
    case_decide as Hk; [done|].
    unfold vd. rewrite lookup_kept. by rewrite decide_False.
  - rewrite Forall_forall in Hreq |- *. intros f Hf.
    destruct (Hreq f Hf) as (v & Hv & Hok). exists v. split; [|done].
    rewrite Hlook; [done|apply elem_of_app; by left].
  - rewrite Forall_forall in Hopt |- *. intros f Hf v Hv.
    apply Hopt; [done|]. rewrite <- Hlook; [done|apply elem_of_app; by right].
  - by eapply deeper_check_restrict.
  - by eapply deeper_check_restrict.
Qed.

(** The request of [test_validate_tool_request_success] with one field the
    schema does not know: the field is dropped, and the validated map
    validates to itself. *)
Lemma validate_tool_request_idempotent_witness :
  let req := Fixtures.note_maker_request
               (<["debug" := VBool true]> Fixtures.note_maker_parameters) in
  ValidationResult.validated_data (validate_tool_request req)
  = Some Fixtures.note_maker_parameters
  /\ validate_tool_request
       (Fixtures.note_maker_request Fixtures.note_maker_parameters)
     = ValidationResult.mk true [] [] (Some Fixtures.note_maker_parameters).
Proof.
  cbv zeta.
  destruct (validate_tool_request_idempotent
              (Fixtures.note_maker_request
                 (<["debug" := VBool true]> Fixtures.note_maker_parameters)))
    as (vd & Hvd & Hagain); [reflexivity|].
  assert (vd = Fixtures.note_maker_parameters) as ->.
  { vm_compute in Hvd. injection Hvd as <-. reflexivity. }
  split; [exact Hvd | exact Hagain].
Defined.

(** A loop whose body never raises does not raise. *)
Lemma foldM_total {A B : Type} (f : B -> A -> result B) (l : list A) (acc : B) :
  (forall acc x, exists acc', f acc x = Ok acc') ->
  exists acc', foldM f l acc = Ok acc'.
Proof.
  intros Hf. revert acc. induction l as [|x l IH]; intros acc; simpl; [eauto|].
  destruct (Hf acc x) as [acc' ->]. simpl. apply IH.
Qed.

(** The deeper checks do not raise on an object and on an array. *)
Lemma validate_user_info_object d :
  exists r, _validate_user_info (VDict d) = Ok r.
Proof.
  unfold _validate_user_info.
  match goal with
  | |- context [foldM ?f ?l ?a] => destruct (foldM_total f l a) as [errs ->]
  end; [|simpl; eauto].
  intros acc field. simpl.
  destruct (d !! field) as [x|] eqn:Hx.
  - rewrite bool_decide_eq_true_2 by eauto. simpl. eauto.
  - rewrite bool_decide_eq_false_2 by (intros [? ?]; congruence). simpl. eauto.
Qed.

Lemma validate_chat_history_array l :
  exists r, _validate_chat_history (VList l) = Ok r.
Proof. unfold _validate_chat_history. simpl. eauto. Qed.

Lemma deeper_check_total check parameters key errors :
  (forall v, parameters !! key = Some v -> exists r, check v = Ok r) ->
  exists errors', deeper_check check parameters key errors = Ok errors'.
Proof.
  intros H. unfold deeper_check. destruct (parameters !! key) as [v|]; [|eauto].
  destruct (H v eq_refl) as [r ->]. simpl. eauto.
Qed.

Lemma validate_try_total req :
  well_shaped (ToolRequest.parameters req) ->
  exists r, validate_tool_request_try req = Ok r.
Proof.
  intros [Hu Hc]. unfold validate_tool_request_try.
  destruct (tool_schemas !! ToolRequest.tool_name req) as [schema|]; [|eauto].
  match goal with
  | |- context [deeper_check _validate_user_info ?p ?k ?e] =>
      destruct (deeper_check_total _validate_user_info p k e) as [e1 ->]
  end.
  { intros v Hv. destruct (Hu v Hv) as [d ->]. apply validate_user_info_object. }
  simpl.
  match goal with
  | |- context [deeper_check _validate_chat_history ?p ?k ?e] =>
      destruct (deeper_check_total _validate_chat_history p k e) as [e2 ->]
  end.
  { intros v Hv. destruct (Hc v Hv) as [l ->].
    apply validate_chat_history_array. }
  simpl. eauto.
Qed.

(** A missing required field leaves its error in the list. *)
Lemma required_loop_missing parameters schema fields acc field :
  field ∈ fields -> parameters !! field = None ->
  missing_required field
    ∈ (fold_left (required_step parameters schema) fields acc).1.
Proof.
  intros Hin Hnone. revert acc.
  induction fields as [|f fields IH]; intros acc; [by apply elem_of_nil in Hin|].
  simpl. apply elem_of_cons in Hin as [<- | Hin]; [|by apply IH].
  destruct (fold_errors (required_step parameters schema) fields
              (required_step parameters schema acc field)
              (required_step_errors parameters schema)) as [extra ->].
  unfold required_step at 1. rewrite Hnone. simpl.
  apply elem_of_app. left. apply elem_of_app. right. by left.
Qed.

Lemma validate_try_missing req schema field r :
  tool_schemas !! ToolRequest.tool_name req = Some schema ->
  field ∈ required_fields schema ->
  ToolRequest.parameters req !! field = None ->
  validate_tool_request_try req = Ok r ->
  missing_required field ∈ ValidationResult.errors r
  /\ ValidationResult.is_valid r = false
  /\ ValidationResult.validated_data r = None.
Proof.
  intros Hs Hin Hnone. unfold validate_tool_request_try. rewrite Hs.
  set (p := ToolRequest.parameters req) in *.
  set (acc1 := fold_left (required_step p schema) (required_fields schema)
                         ([], ∅)).
  set (acc2 := fold_left (optional_step p schema) (optional_fields schema)
                         acc1).
  destruct (deeper_check _validate_user_info p "user_info" acc2.1)
    as [e1|] eqn:H1; simpl; [|done].
  destruct (deeper_check _validate_chat_history p "chat_history" e1)
    as [e2|] eqn:H2; simpl; [|done].
  intros [= <-]. simpl.
  assert (Hmem : missing_required field ∈ e2).
  { destruct (deeper_check_errors _ _ _ _ _ H2) as [x ->].
    destruct (deeper_check_errors _ _ _ _ _ H1) as [y ->].
    destruct (fold_errors (optional_step p schema) (optional_fields schema)
                acc1 (optional_step_errors p schema)) as [z Hz].
    fold acc2 in Hz. rewrite Hz.
    do 3 (apply elem_of_app; left).
    by apply required_loop_missing. }
  split; [done|].
  destruct e2 as [|e e2]; [by apply elem_of_nil in Hmem|]. done.
Qed.

(** C2, as the code has it. A result is valid exactly when it carries no
    error, and [validated_data] is present exactly when the result is valid.
    When a required field of the schema of the tool is missing, the result
    is invalid and [validated_data] is null; it reports [MISSING_REQUIRED]
    on that field, unless one of the deeper checks raised, in which case the
    only error is the one with code [VALIDATION_ERROR]. No deeper check
    raises when [user_info], if present, is an object and [chat_history],
    if present, is an array. *)
Theorem validate_tool_request_aggregate (req : ToolRequest.t) :
  let r := validate_tool_request req in
  (ValidationResult.is_valid r = true <-> ValidationResult.errors r = [])
  /\ (is_Some (ValidationResult.validated_data r)
      <-> ValidationResult.is_valid r = true)
  /\ (forall schema field,
        tool_schemas !! ToolRequest.tool_name req = Some schema ->
        field ∈ required_fields schema ->
        ToolRequest.parameters req !! field = None ->
        ValidationResult.is_valid r = false
        /\ ValidationResult.validated_data r = None
        /\ (reports "MISSING_REQUIRED" field r
            \/ exists e, ValidationResult.errors r = [e]
                         /\ e_code e = "VALIDATION_ERROR")
        /\ (well_shaped (ToolRequest.parameters req)
            -> reports "MISSING_REQUIRED" field r)).
Proof.
  cbv zeta. unfold validate_tool_request.
  destruct (validate_tool_request_try req) as [r|e] eqn:Htry.
  - assert (Hshape :
      (ValidationResult.is_valid r = true <-> ValidationResult.errors r = [])
      /\ (is_Some (ValidationResult.validated_data r)
          <-> ValidationResult.is_valid r = true)).
    { revert Htry. unfold validate_tool_request_try.
      destruct (tool_schemas !! ToolRequest.tool_name req) as [schema|].
      - destruct (deeper_check _validate_user_info _ _ _) as [e1|]; simpl;
          [|done].
        destruct (deeper_check _validate_chat_history _ _ _) as [e2|]; simpl;
          [|done].
        intros [= <-]. simpl. split; [apply length_zero_nil|].
        destruct (bool_decide (length e2 = 0%nat)); split; try done.
      - intros [= <-]. simpl. split; split; done. }
    destruct Hshape as [Ha Hb]. split; [done|]. split; [done|].
    intros schema field Hs Hin Hnone.
    destruct (validate_try_missing _ _ _ _ Hs Hin Hnone Htry) as (Hm & Hv & Hd).
    assert (reports "MISSING_REQUIRED" field r)
      by (exists (missing_required field); done).
    auto.
  - simpl. split; [split; done|]. split; [split; [by intros [? ?]|done]|].
    intros schema field Hs Hin Hnone. repeat split; try done.
    + right. eexists. split; [done|done].
    + intros Hw. destruct (validate_try_total req Hw) as [r Hr]. congruence.
Qed.

(** Counterexample to C2 as stated: a [note_maker] request whose [user_info] is
    null misses the required [topic], yet no error of the result has the
    code [MISSING_REQUIRED]: the check of [user_info] raises and the handler
    replaces the errors collected so far. *)
Lemma missing_required_masked_by_exception :
  let req := Fixtures.note_maker_request {["user_info" := VNone]} in
  (tool_schemas !! ToolRequest.tool_name req = Some note_maker_schema
   /\ "topic" ∈ required_fields note_maker_schema
   /\ ToolRequest.parameters req !! "topic" = None)
  /\ ~ exists e, e ∈ ValidationResult.errors (validate_tool_request req)
                 /\ e_code e = "MISSING_REQUIRED".
Proof.
  cbv zeta. split.
  - split; [reflexivity|]. split; [|reflexivity].
    simpl. do 2 right. by left.
  - intros (e & Hin & Hcode). vm_compute in Hin.
    apply list_elem_of_singleton in Hin. subst e. discriminate.
Qed.

(** The request of [test_validate_tool_request_missing_required], without
    its topic. *)
Lemma validate_tool_request_aggregate_witness :
  let req := Fixtures.note_maker_request
               (delete "topic" Fixtures.note_maker_parameters) in
  ValidationResult.is_valid (validate_tool_request req) = false
  /\ ValidationResult.validated_data (validate_tool_request req) = None
  /\ reports "MISSING_REQUIRED" "topic" (validate_tool_request req).
Proof.
  cbv zeta.
  destruct (validate_tool_request_aggregate
              (Fixtures.note_maker_request
                 (delete "topic" Fixtures.note_maker_parameters)))
    as (_ & _ & H).
  destruct (H note_maker_schema "topic") as (H1 & H2 & _ & H4).
  - reflexivity.
  - simpl. do 2 right. by left.
  - reflexivity.
  - split; [done|]. split; [done|]. apply H4. split.
    + intros v Hv. vm_compute in Hv. injection Hv as <-. eauto.
    + intros v Hv. vm_compute in Hv. injection Hv as <-. eauto.
Defined.

(** The role rule yields no error, whatever the role is. *)
(** The role rule never yields an error. *)
Lemma role_constraints_vacuous v :
  _validate_constraints v validation_rules.chat_history.item_constraints.role = [].
Proof. by destruct v as [| | | | | |]; try destruct b. Qed.

(** C4. A [note_maker] request that is valid in every other respect and
    whose chat history holds a message of role ["system"] validates: the
    role rule lists its values under the key [enum], which
    [_validate_constraints] never reads. *)
Theorem role_outside_enum_accepted :
  validate_tool_request
    (Fixtures.note_maker_request
       (<["chat_history" := system_role_chat]> Fixtures.note_maker_parameters))
  = ValidationResult.mk true [] []
      (Some (<["chat_history" := system_role_chat]>
               Fixtures.note_maker_parameters)).
Proof. vm_compute. reflexivity. Qed.

Lemma fold_append_prefix {A B : Type} (f : A -> list B) (xs : list A)
    (init : list B) :
  exists extra, fold_left (fun acc x => acc ++ f x) xs init = init ++ extra.
Proof.
  revert init. induction xs as [|x xs IH]; intros init; simpl.
  - exists []. by rewrite app_nil_r.
  - destruct (IH (init ++ f x)) as [extra ->]. exists (f x ++ extra).
    by rewrite app_assoc.
Qed.

Lemma fold_append_not_nil {A B : Type} (f : A -> list B) (xs : list A)
    (init : list B) x :
  x ∈ xs -> f x <> [] -> fold_left (fun acc x => acc ++ f x) xs init <> [].
Proof.
  intros Hin Hx. revert init.
  induction xs as [|y xs IH]; intros init; [by apply elem_of_nil in Hin|].
  simpl. apply elem_of_cons in Hin as [<- | Hin]; [|by apply IH].
  destruct (fold_append_prefix f xs (init ++ f x)) as [extra ->].
  intros H. apply app_eq_nil in H as [H _]. by apply app_eq_nil in H as [_ H].
Qed.

Lemma content_defect_reported c :
  c = "" \/ 2000 < PyStr.len c ->
  _validate_constraints (VStr c) validation_rules.chat_history.item_constraints.content <> [].
Proof.
  intros [-> | H]; [done|].
  unfold _validate_constraints, validation_rules.chat_history.item_constraints.content, string_rule.
  simpl. destruct (Z.ltb_spec (PyStr.len c) 1); [done|].
  destruct (Z.gtb_spec (PyStr.len c) 2000); [done|lia].
Qed.

Lemma defective_history_errors l :
  defective_history l ->
  exists errors,
    _validate_chat_history (VList l) = Ok (mk_field_result false errors)
    /\ errors <> [].
Proof.
  intros Hdef. unfold _validate_chat_history. simpl.
  match goal with
  | |- context [fold_left ?f ?xs ?init] =>
      set (errors := fold_left f xs init)
  end.
  assert (Hne : errors <> []).
  { unfold errors. destruct Hdef as [Hlen | (m & c & Hin & Hc & Hbad)].
    - destruct (fold_append_prefix
                  (fun im : Z * value => chat_message_errors im.1 im.2)
                  (Py.enumerate l)
                  (when (Z.of_nat (length l) <? validation_rules.chat_history.array_constraints.min_length)
                     [make_error CONSTRAINT_VIOLATION "chat_history.length"
                        ("Chat history too short (minimum: "
                         +:+ PyStr.of_Z validation_rules.chat_history.array_constraints.min_length +:+ ")")
                        "MIN_ARRAY_LENGTH_VIOLATION"]
                   ++ when (Z.of_nat (length l) >? validation_rules.chat_history.array_constraints.max_length)
                        [make_error CONSTRAINT_VIOLATION "chat_history.length"
                           ("Chat history too long (maximum: "
                            +:+ PyStr.of_Z validation_rules.chat_history.array_constraints.max_length +:+ ")")
                           "MAX_ARRAY_LENGTH_VIOLATION"])) as [extra ->].
      unfold validation_rules.chat_history.array_constraints.max_length.
      destruct (Z.gtb_spec (Z.of_nat (length l)) 50) as [_|]; [|lia].
      intros H. apply app_eq_nil in H as [H _].
      by apply app_eq_nil in H as [_ H].
    - apply list_elem_of_lookup in Hin as [i Hi].
      apply (fold_append_not_nil
               (fun im : Z * value => chat_message_errors im.1 im.2)
               _ _ (Z.of_nat i, VDict m)).
      + unfold Py.enumerate. apply elem_of_lookup_imap. eauto.
      + simpl. rewrite Hc. intros H. apply app_eq_nil in H as [_ H].
        by apply content_defect_reported in H. }
  exists errors. split; [|done]. do 2 f_equal.
  apply bool_decide_eq_false_2. by destruct errors.
Qed.

(** The part of the chat-history rule that is enforced: whatever else a
    request holds, a chat history of more than 50 items, or with a message
    whose content is empty or longer than 2000 characters, makes it
    invalid. *)
Lemma defective_history_rejected (req : ToolRequest.t) (l : list value) :
  ToolRequest.parameters req !! "chat_history" = Some (VList l) ->
  defective_history l ->
  ValidationResult.is_valid (validate_tool_request req) = false.
Proof.
  intros Hl Hdef. unfold validate_tool_request.
  destruct (validate_tool_request_try req) as [r|e] eqn:Htry; [|done].
  revert Htry. unfold validate_tool_request_try.
  destruct (tool_schemas !! ToolRequest.tool_name req) as [schema|];
    [|by intros [= <-]].
  destruct (deeper_check _validate_user_info _ _ _) as [e1|]; simpl; [|done].
  unfold deeper_check. rewrite Hl.
  destruct (defective_history_errors l Hdef) as (errors & -> & Hne). simpl.
  intros [= <-]. simpl. apply bool_decide_eq_false_2.
  destruct e1, errors; done.
Qed.

(** What [sanitize_input] does do: the mapping keeps its keys, and a string
    stored directly under a key is stripped, then freed of null bytes. *)
Lemma sanitize_input_strings_of_mapping (data : pydict) :
  dom (sanitize_input data) = dom data
  /\ forall key s, data !! key = Some (VStr s) ->
                   sanitize_input data !! key = Some (VStr (sanitize_str s)).
Proof.
  unfold sanitize_input. split; [apply dom_fmap_L|].
  intros key s H. by rewrite lookup_fmap, H.
Qed.

(** The null bytes go after the whitespace: whitespace that only a null
    byte kept from the edge stays. *)
Lemma sanitize_str_strips_first :
  sanitize_str (String PyStr.NUL " abc") = " abc".
Proof. reflexivity. Qed.

(** C9. On the data of [test_sanitize_input] the strings stored under a key
    are cleaned, at the top and in the nested object, but the list comes
    back as it was: its second item still holds the null byte (the last
    assertion of that test fails). *)
Theorem sanitize_input_keeps_nul_in_list :
  sanitize_input sanitize_data !! "text"
  = Some (VStr "Test text withnull character")
  /\ sanitize_input sanitize_data !! "nested"
     = Some (VDict {["value" := VStr "Anothervalue"]})
  /\ sanitize_input sanitize_data !! "list"
     = Some (VList [VStr "Item1"; VStr (with_nul "Item2" "")])
  /\ PyStr.contains (String PyStr.NUL "") (with_nul "Item2" "") = true.
Proof. repeat split; vm_compute; reflexivity. Qed.

End Validation.

(* ===================================================================== *)
(** * The difficulty rules *)
(* ===================================================================== *)

Section Difficulty.
Import ContextAnalyzer ParameterExtractor.










End Difficulty.

(* ===================================================================== *)
(** * The four passes of the extractor *)
(* ===================================================================== *)

Section Extraction.
Import ContextAnalyzer ParameterExtractor.

(** The fourth pass, key by key. *)
Lemma lookup_fill_absent (params default_params : pydict) k :
  fill_absent params default_params !! k
  = match params !! k with
    | Some v => Some v
    | None => default_params !! k
    end.
Proof.
  unfold fill_absent. revert k.
  apply (map_fold_weak_ind
           (fun (r m : pydict) =>
              forall k, r !! k = match params !! k with
                                 | Some v => Some v
                                 | None => m !! k
                                 end)).
  - intros k. rewrite lookup_empty. by destruct (params !! k).
  - intros i x m r Hi IH k. destruct (decide (k = i)) as [->|Hne].
    + rewrite lookup_insert_eq. specialize (IH i). rewrite Hi in IH.
      destruct (r !! i) eqn:Hr.
      * rewrite Hr. by destruct (params !! i).
      * rewrite lookup_insert_eq. by destruct (params !! i).
    + rewrite (lookup_insert_ne m) by done. rewrite <- IH.
      destruct (r !! i); [done|]. by rewrite lookup_insert_ne.
Qed.

(** The order of precedence of the four passes, per key. *)
Lemma extraction_precedence llm_json intent context tool_name k :
  _extract_with_multiple_methods llm_json intent context tool_name !! k
  = match _infer_from_context context tool_name !! k with
    | Some v => Some v
    | None =>
        match _llm_parameter_extraction llm_json context tool_name !! k with
        | Some v => Some v
        | None =>
            match EducationalIntent.extracted_parameters intent !! k with
            | Some v => Some v
            | None => _assign_default_values tool_name context !! k
            end
        end
    end.
Proof.
  unfold _extract_with_multiple_methods, Py.update.
  rewrite lookup_fill_absent, !lookup_union, lookup_empty.
  destruct (_infer_from_context context tool_name !! k),
    (_llm_parameter_extraction llm_json context tool_name !! k),
    (EducationalIntent.extracted_parameters intent !! k); done.
Qed.

(** For the flashcard generator the count of the merged parameters is the
    one derived from the mastery level, whatever the earlier passes
    found. *)
Lemma flashcard_count_from_mastery llm_json intent context :
  _extract_with_multiple_methods llm_json intent context "flashcard_generator"
    !! "count"
  = Some (VInt (mastery_count (ConversationContext.mastery_level context))).
Proof. by rewrite extraction_precedence. Qed.

(** What the loop over the required parameters leaves under a key. *)
Lemma lookup_required_loop (params : pydict) fields (acc : pydict * list string)
    k :
  (fold_left (fun (acc : pydict * list string) param =>
                match params !! param with
                | Some VNone | None => (acc.1, acc.2 ++ [param])
                | Some v => (<[param := v]> acc.1, acc.2)
                end) fields acc).1 !! k
  = if decide (k ∈ fields)
    then match params !! k with
         | Some VNone | None => acc.1 !! k
         | Some v => Some v
         end
    else acc.1 !! k.
Proof.
  revert acc. induction fields as [|f fields IH]; intros acc.
  - case_decide as H; [by apply elem_of_nil in H|done].
  - cbn [fold_left]. rewrite IH. clear IH.
    assert (Hstep : forall v, params !! f = Some v -> v <> VNone ->
                              f <> k -> (<[f := v]> acc.1) !! k = acc.1 !! k)
      by (intros; by rewrite lookup_insert_ne).
    destruct (decide (k ∈ fields)) as [Hin|Hnin].
    + rewrite decide_True by (by right).
      destruct (params !! k) as [[]|] eqn:Hk; try done;
        destruct (params !! f) as [[]|] eqn:Hf; try done;
        simpl; rewrite lookup_insert_ne; congruence.
    + destruct (decide (k = f)) as [->|Hne].
      * rewrite decide_True by left.
        destruct (params !! f) as [[]|]; simpl; by rewrite ?lookup_insert_eq.
      * rewrite decide_False by (rewrite elem_of_cons; tauto).
        destruct (params !! f) as [[]|]; simpl; by rewrite ?lookup_insert_ne.
Qed.

Lemma lookup_validate_parameters (params : pydict) s k :
  k ∉ optional s ->
  (_validate_parameters params s).1 !! k
  = if decide (k ∈ required s)
    then match params !! k with
         | Some VNone | None => None
         | Some v => Some v
         end
    else None.
Proof.
  intros Hopt. unfold _validate_parameters. cbn [fst].
  change (fold_left _ (optional s) ?acc) with (keep params (optional s) acc).
  rewrite lookup_keep, decide_False by done.
  rewrite lookup_required_loop. cbn [fst]. by rewrite lookup_empty.
Qed.

Lemma extract_parameters_supported llm_json intent context s :
  tool_schemas !! EducationalIntent.suggested_tool intent = Some s ->
  ParameterExtractionResult.extracted_parameters
    (extract_parameters llm_json intent context)
  = (_validate_parameters
       (_extract_with_multiple_methods
          llm_json intent context (EducationalIntent.suggested_tool intent))
       s).1.
Proof.
  intros Hs. unfold extract_parameters, extract_parameters_try. rewrite Hs.
  by destruct (_validate_parameters
                 (_extract_with_multiple_methods
                    llm_json intent context
                    (EducationalIntent.suggested_tool intent)) s).
Qed.

(** The count the classifier read in the message never reaches the
    parameters the extractor returns: for the flashcard generator they hold
    the count derived from the mastery level, and for every other tool they
    hold none. *)
Lemma classifier_count_never_used llm_json intent context :
  ParameterExtractionResult.extracted_parameters
    (extract_parameters llm_json intent context) !! "count"
  = if String.eqb (EducationalIntent.suggested_tool intent)
                  "flashcard_generator"
    then Some (VInt (mastery_count (ConversationContext.mastery_level context)))
    else None.
Proof.
  destruct (tool_schemas !! EducationalIntent.suggested_tool intent)
    as [s|] eqn:Hs.
  - rewrite (extract_parameters_supported _ _ _ s Hs).
    unfold tool_schemas, _initialize_tool_schemas in Hs.
    cbn [list_to_map foldr fst snd] in Hs.
    apply lookup_insert_Some in Hs as [[Ht <-]|[_ Hs]];
      [|apply lookup_insert_Some in Hs as [[Ht <-]|[_ Hs]];
        [|apply lookup_insert_Some in Hs as [[Ht <-]|[_ Hs]]; [|done]]];
      rewrite <- Ht; cbn [String.eqb Ascii.eqb Bool.eqb];
      rewrite lookup_validate_parameters; cbn [required optional];
      try apply not_elem_of_nil;
      try (rewrite !elem_of_cons, elem_of_nil; intros H; decompose [or] H;
           done).
    + rewrite decide_False; [done|].
      rewrite !elem_of_cons, elem_of_nil. intros H; decompose [or] H; done.
    + rewrite decide_True by (rewrite !elem_of_cons; tauto).
      by rewrite flashcard_count_from_mastery.
    + rewrite decide_False; [done|].
      rewrite !elem_of_cons, elem_of_nil. intros H; decompose [or] H; done.
  - unfold extract_parameters, extract_parameters_try. rewrite Hs. simpl.
    destruct (String.eqb_spec (EducationalIntent.suggested_tool intent)
                              "flashcard_generator") as [E|_]; [|done].
    by rewrite E in Hs.
Qed.

(** C1. For the message "I need 15 cards to memorize Spanish vocabulary"
    of a focused student of mastery 5, with the language models down, the
    classifier selects the flashcard generator and extracts the count 15,
    and the parameters the extractor returns hold the count 10: the
    mastery-derived count of the third pass has replaced the explicit
    one. *)
Theorem explicit_count_overwritten :
  let context := fifteen_cards_context in
  let intent := analyze_context Fixtures.llm_down context in
  EducationalIntent.suggested_tool intent = "flashcard_generator"
  /\ EducationalIntent.extracted_parameters intent !! "count" = Some (VInt 15)
  /\ ParameterExtractionResult.extracted_parameters
       (extract_parameters Fixtures.llm_json_down intent context) !! "count"
     = Some (VInt 10).
Proof. cbv zeta. repeat split; vm_compute; reflexivity. Qed.

End Extraction.

(* ===================================================================== *)
(** * The workflow *)
(* ===================================================================== *)

Section Pipeline.
Import ToolOrchestrator ToolOrchestrator.OrchestratorState.

Variable config : gmap string string.
Variable llm : string -> result string.
Variable llm_json : ConversationContext.t -> string -> result pydict.
Variable transport : http_request -> http_reply.
Variable coerce_str : value -> result string.
Variable coerce_dict : value -> result pydict.

Lemma extract_parameters_unsupported intent context :
  ParameterExtractor.tool_schemas !! EducationalIntent.suggested_tool intent
  = None ->
  ParameterExtractor.extract_parameters llm_json intent context
  = ParameterExtractor.ParameterExtractionResult.mk false ∅ [] ∅ "error".
Proof.
  intros H. unfold ParameterExtractor.extract_parameters,
    ParameterExtractor.extract_parameters_try. by rewrite H.
Qed.

Lemma extract_node_unsupported intent context :
  ParameterExtractor.tool_schemas !! EducationalIntent.suggested_tool intent
  = None ->
  _extract_parameters_node llm_json (analyzed context intent)
  = set_workflow_step "parameters_filled"
      (set_extracted_parameters ∅ (analyzed context intent)).
Proof.
  intros H. unfold _extract_parameters_node, analyzed. simpl.
  rewrite (extract_parameters_unsupported intent context H). simpl.
  reflexivity.
Qed.

Lemma analyze_node_initial context :
  _analyze_context_node llm (initial_state context)
  = analyzed context (ContextAnalyzer.analyze_context llm context).
Proof. reflexivity. Qed.

(** One step of the graph. *)
Lemma run_step fuel n state log :
  run config llm llm_json transport coerce_str coerce_dict (S fuel) n state log
  = let '(state', log') :=
      run_node config llm llm_json transport coerce_str coerce_dict n state log
    in
    match next_node n state' with
    | None => (Some (state', [n]), log')
    | Some n' =>
        let '(rest, log'') :=
          run config llm llm_json transport coerce_str coerce_dict
              fuel n' state' log' in
        (match rest with
         | Some (final, visited) => Some (final, n :: visited)
         | None => None
         end, log'')
    end.
Proof.
  cbn [run]. unfold io_bind, io_ret.
  destruct (run_node _ _ _ _ _ _ n state log) as [state' log'].
  destruct (next_node n state'); [|done]. by destruct (run _ _ _ _ _ _ _ _ _ _).
Qed.

(** C10. For an intent whose suggested tool has no schema in the extractor,
    extraction fails with empty parameter and missing-parameter
    collections, filling the missing parameters adds nothing, and the
    workflow runs extraction, validation and the error handler, never the
    tool: it ends in the step [error_handled] with no tool request, no tool
    response and no outbound request, and its response is the failure
    "Missing intent or parameters". When the analyzer returns such an
    intent for a context, that is the result of the whole pipeline. *)
Theorem unsupported_tool_takes_error_path
    (context : ConversationContext.t) (intent : EducationalIntent.t)
    (log : list http_request) :
  ParameterExtractor.tool_schemas !! EducationalIntent.suggested_tool intent
  = None ->
  ParameterExtractor.extract_parameters llm_json intent context
  = ParameterExtractor.ParameterExtractionResult.mk false ∅ [] ∅ "error"
  /\ ParameterExtractor.fill_missing_parameters
       [] context (EducationalIntent.suggested_tool intent) = ∅
  /\ (exists final,
        run config llm llm_json transport coerce_str coerce_dict
            5 extract_parameters (analyzed context intent) log
        = (Some (final, [extract_parameters; validate_request; handle_error]),
           log)
        /\ workflow_step final = "error_handled"
        /\ tool_request final = None
        /\ tool_response final = None
        /\ orchestrator_response final
           = Some (missing_parameters_response context intent))
  /\ (ContextAnalyzer.analyze_context llm context = intent ->
      ainvoke config llm llm_json transport coerce_str coerce_dict
              (initial_state context) log
      = (Some (_handle_error_node
                 (_validate_request_node
                    (_extract_parameters_node llm_json
                       (analyzed context intent))),
               [analyze_context; extract_parameters; validate_request;
                handle_error]),
         log)
      /\ orchestrate config llm llm_json transport coerce_str coerce_dict
                     context log
         = (Some (missing_parameters_response context intent), log)).
Proof.
  intros Hnone.
  pose proof (extract_parameters_unsupported intent context Hnone) as Hex.
  split; [done|]. split; [done|].
  pose proof (extract_node_unsupported intent context Hnone) as Hnode.
  assert (Hrun :
    run config llm llm_json transport coerce_str coerce_dict
        5 extract_parameters (analyzed context intent) log
    = (Some (_handle_error_node
               (_validate_request_node
                  (_extract_parameters_node llm_json (analyzed context intent))),
             [extract_parameters; validate_request; handle_error]), log)).
  { cbn [run run_node io_bind io_ret next_node]. rewrite Hnode. reflexivity. }
  assert (Hfinal :
    _handle_error_node
      (_validate_request_node
         (_extract_parameters_node llm_json (analyzed context intent)))
    = mk context (Some intent) ∅ None None
         (Some (missing_parameters_response context intent))
         (Some "Missing intent or parameters") "error_handled").
  { rewrite Hnode. reflexivity. }
  split.
  - eexists. split; [exact Hrun|]. rewrite Hfinal. done.
  - intros Hintent.
    assert (Hall :
      ainvoke config llm llm_json transport coerce_str coerce_dict
              (initial_state context) log
      = (Some (_handle_error_node
                 (_validate_request_node
                    (_extract_parameters_node llm_json
                       (analyzed context intent))),
               [analyze_context; extract_parameters; validate_request;
                handle_error]),
         log)).
    { unfold ainvoke. rewrite run_step. cbn [run_node io_ret next_node].
      rewrite analyze_node_initial, Hintent, Hrun. reflexivity. }
    split; [exact Hall|].
    unfold orchestrate, io_bind. rewrite Hall, Hfinal. reflexivity.
Qed.

End Pipeline.

(** The two intents of the analyzer whose tool the extractor has no
    schema for. *)
Lemma unsupported_intents :
  ContextAnalyzer._map_intent_to_tool "quiz_generation" = "quiz_generator"
  /\ ParameterExtractor.tool_schemas !! "quiz_generator" = None
  /\ EducationalIntent.suggested_tool ContextAnalyzer.unknown_intent = "none"
  /\ ParameterExtractor.tool_schemas !! "none" = None.
Proof. repeat split; reflexivity. Qed.

(** The sample context of the tests is classified as [quiz_generation]
    and ends in the error path; so does the fallback intent of the
    analyzer. *)
Lemma unsupported_tool_takes_error_path_witness :
  let context := Fixtures.sample_conversation_context in
  let intent := ContextAnalyzer.analyze_context Fixtures.llm_down context in
  (EducationalIntent.intent_type intent = "quiz_generation"
   /\ EducationalIntent.suggested_tool intent = "quiz_generator"
   /\ ToolOrchestrator.orchestrate ∅ Fixtures.llm_down Fixtures.llm_json_down
        unreachable Fixtures.strict_str Fixtures.strict_dict context []
      = (Some (missing_parameters_response context intent), []))
  /\ exists final,
       ToolOrchestrator.run ∅ Fixtures.llm_down Fixtures.llm_json_down
         unreachable Fixtures.strict_str Fixtures.strict_dict
         5 ToolOrchestrator.extract_parameters
         (analyzed context ContextAnalyzer.unknown_intent) []
       = (Some (final, [ToolOrchestrator.extract_parameters;
                        ToolOrchestrator.validate_request;
                        ToolOrchestrator.handle_error]), [])
       /\ ToolOrchestrator.OrchestratorState.orchestrator_response final
          = Some (missing_parameters_response
                    context ContextAnalyzer.unknown_intent).
Proof.
  cbv zeta. split.
  - split; [reflexivity|]. split; [reflexivity|].
    apply (unsupported_tool_takes_error_path ∅ Fixtures.llm_down
             Fixtures.llm_json_down unreachable
             Fixtures.strict_str Fixtures.strict_dict
             Fixtures.sample_conversation_context
             (ContextAnalyzer.analyze_context Fixtures.llm_down
                Fixtures.sample_conversation_context) []);
      reflexivity.
  - destruct (unsupported_tool_takes_error_path ∅ Fixtures.llm_down
                Fixtures.llm_json_down unreachable
                Fixtures.strict_str Fixtures.strict_dict
                Fixtures.sample_conversation_context
                ContextAnalyzer.unknown_intent [] eq_refl)
      as (_ & _ & (final & Hrun & _ & _ & _ & Hresp) & _).
    exists final. split; [exact Hrun | exact Hresp].
Defined.

(* ===================================================================== *)
(** * The tool invocation client *)
(* ===================================================================== *)

Section Client.
Import ToolOrchestrator.

Variable config : gmap string string.
Variable transport : http_request -> http_reply.
Variable coerce_str : value -> result string.
Variable coerce_dict : value -> result pydict.

Abbreviation call :=
  (_call_educational_tool config transport coerce_str coerce_dict).

(** The two paths of the client. *)
Lemma call_unknown req log :
  tool_endpoints config !! ToolRequest.tool_name req = None
  \/ tool_endpoints config !! ToolRequest.tool_name req = Some "" ->
  call req log
  = (failed ("Unknown tool: " +:+ ToolRequest.tool_name req) "UNKNOWN_TOOL",
     log).
Proof.
  unfold _call_educational_tool. by intros [-> | ->].
Qed.

Lemma call_known req log endpoint :
  tool_endpoints config !! ToolRequest.tool_name req = Some endpoint ->
  endpoint <> "" ->
  let request := mk_request (endpoint +:+ "/generate") req 30 in
  call req log
  = (match handle_reply coerce_str coerce_dict (transport request) with
     | Ok response => response
     | Raise (TimeoutException _) => failed "Tool request timed out" "TIMEOUT"
     | Raise (ConnectError _) =>
         failed ("Could not connect to " +:+ ToolRequest.tool_name req
                 +:+ " service") "CONNECTION_ERROR"
     | Raise e => failed ("Tool call failed: " +:+ exn_str e) "CALL_ERROR"
     end, log ++ [request]).
Proof.
  intros He Hne. unfold _call_educational_tool. rewrite He.
  destruct (String.eqb_spec endpoint ""); [done|]. reflexivity.
Qed.

(** A response built from a status other than 200 is a failure without
    data. *)
Lemma handle_error_reply_shape status_code has_content body r :
  status_code <> 200 ->
  handle_reply coerce_str coerce_dict (Response status_code has_content body)
  = Ok r ->
  ToolResponse.success r = false /\ ToolResponse.data r = None.
Proof.
  intros Hs. unfold handle_reply.
  destruct (Z.eqb_spec status_code 200) as [|_]; [done|].
  destruct (if has_content then body else Ok (VDict ∅)) as [error_data|];
    simpl; [|done].
  destruct (Py.get error_data "error" _) as [error|]; simpl; [|done].
  destruct (Py.get error_data "error_code" _) as [error_code|]; simpl; [|done].
  destruct (optional_str coerce_str error) as [e|]; simpl; [|done].
  destruct (optional_str coerce_str error_code) as [c|]; simpl; [|done].
  by intros [= <-].
Qed.

Lemma caught_shape (r : result ToolResponse.t) tool_name :
  (forall x, r = Ok x -> ToolResponse.success x = false
                         /\ ToolResponse.data x = None) ->
  let response :=
    match r with
    | Ok response => response
    | Raise (TimeoutException _) => failed "Tool request timed out" "TIMEOUT"
    | Raise (ConnectError _) =>
        failed ("Could not connect to " +:+ tool_name +:+ " service")
               "CONNECTION_ERROR"
    | Raise e => failed ("Tool call failed: " +:+ exn_str e) "CALL_ERROR"
    end in
  ToolResponse.success response = false /\ ToolResponse.data response = None.
Proof. intros H. destruct r as [x|[]]; simpl; auto. Qed.

(** C5, as the code has it. A call returns a response and a log of the
    requests it sent. A tool without endpoint (or with an empty one) gives
    [UNKNOWN_TOOL] and sends nothing. Otherwise exactly one request is sent,
    to the endpoint of the tool, and: a timeout of the transport gives
    [TIMEOUT], a connection error [CONNECTION_ERROR], any other exception
    [CALL_ERROR]; a status other than 200 gives a failure without data,
    which for an empty body is "HTTP <status>" with [HTTP_ERROR], for a
    body that is a JSON object carries the message and the code of the
    remote when they are strings and those defaults when they are absent,
    and for a body that is not JSON or not an object is [CALL_ERROR]. *)
Theorem call_educational_tool_outcomes (req : ToolRequest.t)
    (log log' : list http_request) (response : ToolResponse.t) :
  call req log = (response, log') ->
  let tool_name := ToolRequest.tool_name req in
  (tool_endpoints config !! tool_name = None
   \/ tool_endpoints config !! tool_name = Some "" ->
   response = failed ("Unknown tool: " +:+ tool_name) "UNKNOWN_TOOL"
   /\ log' = log)
  /\ (forall endpoint,
        tool_endpoints config !! tool_name = Some endpoint ->
        endpoint <> "" ->
        let request := mk_request (endpoint +:+ "/generate") req 30 in
        log' = log ++ [request]
        /\ (forall e, transport request = Failure e ->
              response
              = match e with
                | TimeoutException _ =>
                    failed "Tool request timed out" "TIMEOUT"
                | ConnectError _ =>
                    failed ("Could not connect to " +:+ tool_name +:+ " service")
                           "CONNECTION_ERROR"
                | _ => failed ("Tool call failed: " +:+ exn_str e) "CALL_ERROR"
                end)
        /\ (forall status_code has_content body,
              transport request = Response status_code has_content body ->
              status_code <> 200 ->
              ToolResponse.success response = false
              /\ ToolResponse.data response = None
              /\ (has_content = false ->
                  response = failed ("HTTP " +:+ PyStr.of_Z status_code)
                                    "HTTP_ERROR")
              /\ (forall d, has_content = true -> body = Ok (VDict d) ->
                    absent_or_text d "error" ->
                    absent_or_text d "error_code" ->
                    response
                    = failed (text_or d "error"
                                      ("HTTP " +:+ PyStr.of_Z status_code))
                             (text_or d "error_code" "HTTP_ERROR"))
              /\ (has_content = true ->
                  (exists m, body = Raise (JSONDecodeError m))
                  \/ (exists v, body = Ok v /\ forall d, v <> VDict d) ->
                  ToolResponse.error_code response = Some "CALL_ERROR"))).
Proof.
  intros Hcall tool_name. split.
  - intros H. rewrite (call_unknown req log H) in Hcall. by simplify_eq.
  - intros endpoint He Hne request.
    rewrite (call_known req log endpoint He Hne) in Hcall.
    fold request in Hcall. injection Hcall as <- <-.
    split; [done|]. split.
    + intros e ->. simpl. by destruct e.
    + intros status_code has_content body -> Hstatus.
      destruct (caught_shape
                  (handle_reply coerce_str coerce_dict
                     (Response status_code has_content body)) tool_name)
        as [Hsucc Hdata].
      { intros x Hx. by eapply handle_error_reply_shape. }
      split; [exact Hsucc|]. split; [exact Hdata|]. clear Hsucc Hdata.
      unfold handle_reply.
      destruct (Z.eqb_spec status_code 200) as [|_]; [done|].
      split; [|split].
      * intros ->. reflexivity.
      * intros d -> -> Herr Hcode. simpl. unfold text_or.
        destruct Herr as [-> | [s1 ->]], Hcode as [-> | [s2 ->]]; reflexivity.
      * intros -> Hbody.
        destruct Hbody as [[m ->] | (v & -> & Hv)]; [reflexivity|].
        destruct v; simpl; try done. by destruct (Hv d).
Qed.

End Client.

(** Counterexample to C5 as stated: a 502 whose body is not JSON carries no
    remote code and yet gives [CALL_ERROR], not the generic HTTP code; and a
    call for a tool without endpoint sends no request at all. *)
Lemma unparsable_error_body_is_call_error :
  let req := Fixtures.note_maker_request Fixtures.note_maker_parameters in
  ToolResponse.error_code
    (fst (ToolOrchestrator._call_educational_tool
            ∅ bad_gateway Fixtures.strict_str Fixtures.strict_dict req []))
  = Some "CALL_ERROR"
  /\ ToolResponse.error_code
       (fst (ToolOrchestrator._call_educational_tool
               ∅ bad_gateway Fixtures.strict_str Fixtures.strict_dict req []))
     <> Some "HTTP_ERROR"
  /\ length (snd (ToolOrchestrator._call_educational_tool
                    ∅ unreachable Fixtures.strict_str Fixtures.strict_dict
                    (ToolRequest.mk "quiz_generator" ∅
                       Fixtures.sample_user_info []) []))
     = 0%nat.
Proof. cbv zeta. split; [reflexivity|]. split; [|reflexivity]. vm_compute. discriminate. Qed.

(** An endpoint nothing listens on: one request, [CONNECTION_ERROR]. *)
Lemma call_educational_tool_outcomes_witness :
  let req := Fixtures.note_maker_request Fixtures.note_maker_parameters in
  ToolOrchestrator._call_educational_tool
    ∅ unreachable Fixtures.strict_str Fixtures.strict_dict req []
  = (ToolOrchestrator.failed "Could not connect to note_maker service"
                             "CONNECTION_ERROR",
     [ToolOrchestrator.mk_request "http://localhost:8001/generate" req 30]).
Proof.
  cbv zeta.
  destruct (ToolOrchestrator._call_educational_tool
              ∅ unreachable Fixtures.strict_str Fixtures.strict_dict
              (Fixtures.note_maker_request Fixtures.note_maker_parameters) [])
    as [response log'] eqn:Hcall.
  destruct (call_educational_tool_outcomes
              ∅ unreachable Fixtures.strict_str Fixtures.strict_dict
              _ _ _ _ Hcall) as [_ H].
  destruct (H "http://localhost:8001") as (Hlog & Hfail & _);
    [reflexivity | discriminate |].
  rewrite Hlog. rewrite (Hfail _ eq_refl). reflexivity.
Defined.

(* ===================================================================== *)
(** * Searching with the patterns of the analyzer *)
(* ===================================================================== *)

Section Regex.
Import Re.







Lemma search_skip r cls (s1 s2 : string) :
  (forall c t, cls c = false -> match_at r (String c t) = None) ->
  none_in cls s1 = true ->
  search r (s1 +:+ s2) = search r s2.
Proof.
  intros Hr. induction s1 as [|c s1 IH]; intros H; [done|].
  simpl in H. apply andb_true_iff in H as [Hc H]. apply negb_true_iff in Hc.
  change (String c s1 +:+ s2) with (String c (s1 +:+ s2)).
  cbn [search]. rewrite (Hr c _ Hc). by apply IH.
Qed.

(** A literal pattern is found exactly where the text occurs. *)
Lemma after_prefix_is_prefix l s :
  is_Some (after_prefix l s) <-> String.prefix l s = true.
Proof.
  revert s. induction l as [|a l IH]; intros s.
  - destruct s; simpl; split; eauto.
  - destruct s as [|b s]; simpl; [split; [by intros [? ?]|done]|].
    destruct (Ascii.eqb_spec a b) as [->|Hne].
    + destruct (ascii_dec b b); [apply IH|congruence].
    + destruct (ascii_dec a b); [congruence|]. split; [by intros [? ?]|done].
Qed.

Lemma search_literal l s :
  is_Some (search (Lit l) s) <-> PyStr.contains l s = true.
Proof.
  induction s as [|c s IH].
  - unfold match_at. destruct l as [|a l]; simpl; split; eauto; done.
  - cbn [search PyStr.contains]. rewrite orb_true_iff, <- IH.
    rewrite <- after_prefix_is_prefix. unfold match_at. cbn [rmatch].
    destruct (after_prefix l (String c s)); split; eauto.
    + intros [[? ?]|?]; done.
Qed.

End Regex.

(* ===================================================================== *)
(** * The count asked for in the message *)
(* ===================================================================== *)

Section Count.
Import Re ContextAnalyzer.







Lemma number_before_needs_digit words c t :
  PyStr.isdigit c = false -> match_at (number_before words) (String c t) = None.
Proof.
  intros H. unfold match_at, number_before. cbn [rmatch]. simpl. by rewrite H.
Qed.















(** A number that no digit comes before starts the leftmost count
    phrase. *)
Lemma no_digit_leftmost pre rest :
  none_in PyStr.isdigit pre = true -> leftmost_phrase pre rest = true.
Proof.
  induction pre as [|c pre IH]; [done|]. unfold none_in. simpl.
  intros H. apply andb_true_iff in H as [Hc H]. apply negb_true_iff in Hc.
  rewrite Hc. simpl. by apply IH.
Qed.




End Count.

(* ===================================================================== *)
(** * Intent detection *)
(* ===================================================================== *)

Section Intent.
Import Re ContextAnalyzer.


(** The scores, category by category in the order of declaration. *)
Lemma intent_scores_by_category text :
  intent_scores text
  = [("note_making", score (patterns_of "note_making") text);
     ("flashcard_generation", score (patterns_of "flashcard_generation") text);
     ("concept_explanation", score (patterns_of "concept_explanation") text);
     ("quiz_generation", score (patterns_of "quiz_generation") text)].
Proof. reflexivity. Qed.





End Intent.

(* ===================================================================== *)
(** * More on the schema validator *)
(* ===================================================================== *)

Section ValidatorProperties.
Import SchemaValidator.

Lemma ltb_false a b : b <= a -> (a <? b) = false.
Proof. intros. apply Z.ltb_ge. lia. Qed.

Lemma gtb_false a b : a <= b -> (a >? b) = false.
Proof. intros. rewrite Z.gtb_ltb. apply Z.ltb_ge. lia. Qed.

Lemma fold_append_concat {A B : Type} (f : A -> list B) (xs : list A)
    (init : list B) :
  fold_left (fun acc x => acc ++ f x) xs init = init ++ concat (map f xs).
Proof.
  revert init. induction xs as [|x xs IH]; intros init; simpl.
  - by rewrite app_nil_r.
  - by rewrite IH, app_assoc.
Qed.

Lemma foldM_append {A B : Type} (f : list B -> A -> result (list B))
    (g : A -> list B) (xs : list A) (init : list B) :
  (forall acc x, f acc x = Ok (acc ++ g x)) ->
  foldM f xs init = Ok (init ++ concat (map g xs)).
Proof.
  intros Hf. revert init. induction xs as [|x xs IH]; intros init; simpl.
  - by rewrite app_nil_r.
  - rewrite Hf. simpl. unfold mbind, result_bind. rewrite IH. by rewrite app_assoc.
Qed.

Lemma concat_nil_Forall {A B : Type} (g : A -> list B) (xs : list A) :
  concat (map g xs) = [] <-> Forall (fun x => g x = []) xs.
Proof.
  induction xs as [|x xs IH]; simpl.
  - split; [constructor | done].
  - rewrite Forall_cons, <- IH. split.
    + intros H. by apply app_eq_nil in H.
    + intros [-> ->]. done.
Qed.

Lemma string_rule_ok lo hi v :
  _validate_constraints v (string_rule lo hi) = [] <-> text_within lo hi v.
Proof.
  unfold text_within, _validate_constraints, when.
  destruct v as [| b | z | m e | s | l | d]; simpl;
    try (split; [intros _ ? [=] | done]).
  split.
  - intros H s' [= <-].
    apply app_eq_nil in H as [H1 H2]. apply app_eq_nil in H2 as [H2 _].
    unfold when in *. simpl in H1, H2. split.
    + destruct (PyStr.len s <? lo) eqn:E; [done | lia].
    + intros h ->. simpl in H2.
      destruct (PyStr.len s >? h) eqn:E; [done | lia].
  - intros H. destruct (H s eq_refl) as [H1 H2].
    replace (PyStr.len s <? lo) with false by lia. simpl.
    destruct hi as [h|]; simpl; [|done].
    specialize (H2 h eq_refl).
    replace (PyStr.len s >? h) with false by lia. done.
Qed.

Lemma validate_user_info_dict d :
  let errors := concat (map (user_info_errors d)
                            validation_rules.user_info.required_fields) in
  _validate_user_info (VDict d)
  = Ok (mk_field_result (bool_decide (length errors = 0%nat)) errors).
Proof.
  intros errors. unfold _validate_user_info.
  rewrite (foldM_append _ (user_info_errors d)).
  - done.
  - intros acc field. unfold user_info_errors. simpl.
    by destruct (d !! field) as [x|] eqn:E.
Qed.

Lemma user_info_rule field :
  field ∈ validation_rules.user_info.required_fields ->
  default no_constraints
          (validation_rules.user_info.field_constraints !! field)
  = string_rule 1 (user_info_max field).
Proof.
  intros H. apply list_elem_of_In in H. simpl in H.
  repeat (destruct H as [<-|H]; [by vm_compute|]). done.
Qed.

(** X1. [_validate_user_info] accepts a [user_info] object exactly when each
    of the six required fields is present and, where its value is a string,
    has at least one character and at most the length the rules allow. A
    value that is no string passes unchecked: the type [string] the rules
    declare for these fields is never enforced. *)
Theorem validate_user_info_accepts (d : pydict) :
  _validate_user_info (VDict d) = Ok (mk_field_result true [])
  <-> forall field, field ∈ validation_rules.user_info.required_fields ->
        exists v, d !! field = Some v
                  /\ text_within 1 (user_info_max field) v.
Proof.
  rewrite validate_user_info_dict.
  set (errors := concat _).
  transitivity (errors = []).
  { split.
    - intros [= _ H]. done.
    - intros ->. done. }
  unfold errors. rewrite concat_nil_Forall, Forall_forall.
  apply forall_proper. intros field.
  split; intros H Hf; specialize (H Hf).
  - unfold user_info_errors in H. rewrite (user_info_rule _ Hf) in H.
    destruct (d !! field) as [x|]; [|done].
    exists x. split; [done|]. by apply string_rule_ok.
  - destruct H as (v & Hv & Hok). unfold user_info_errors.
    rewrite Hv, (user_info_rule _ Hf). by apply string_rule_ok.
Qed.

Lemma validate_user_info_accepts_witness :
  _validate_user_info
    (VDict (list_to_map [("user_id", VInt 7); ("name", VNone);
                         ("grade_level", VList []);
                         ("learning_style_summary", VBool true);
                         ("emotional_state_summary", VStr "calm");
                         ("mastery_level_summary", VDict ∅)]))
  = Ok (mk_field_result true []).
Proof.
  apply validate_user_info_accepts. intros field H.
  apply list_elem_of_In in H. simpl in H.
  repeat (destruct H as [<-|H];
          [eexists; split; [by vm_compute|]; intros s E;
           first [discriminate E
                 | injection E as <-;
                   split; [vm_compute; discriminate
                          | intros h Hh; vm_compute in Hh; injection Hh as <-;
                            vm_compute; discriminate]] |]).
  done.
Defined.

Lemma Forall_enumerate {A : Type} (P : Z * A -> Prop) (Q : A -> Prop)
    (l : list A) :
  (forall i x, P (i, x) <-> Q x) ->
  Forall P (Py.enumerate l) <-> Forall Q l.
Proof.
  intros HPQ. unfold Py.enumerate. rewrite !Forall_forall. split.
  - intros H x Hx. apply list_elem_of_lookup in Hx as [i Hi].
    apply (HPQ (Z.of_nat i)). apply H.
    apply elem_of_lookup_imap. eauto.
  - intros H [i x] Hx. apply elem_of_lookup_imap in Hx as (j & y & [= -> ->] & Hj).
    apply HPQ, H. by eapply list_elem_of_lookup_2.
Qed.

Lemma chat_message_errors_nil i m :
  chat_message_errors i m = [] <-> message_ok m.
Proof.
  unfold message_ok.
  destruct m as [| b | z | mm e | s | l | d]; simpl;
    try (split; [done | by intros (? & [=] & _)]).
  split.
  - intros H. apply app_eq_nil in H as [H1 H2].
    exists d. split; [done|].
    destruct (d !! "role") as [r|]; [|done].
    split; [eauto|].
    destruct (d !! "content") as [c|]; [|done].
    exists c. split; [done|]. by apply string_rule_ok.
  - intros (d' & [= <-] & [r Hr] & c & Hc & Hok).
    rewrite Hr, Hc, role_constraints_vacuous. simpl.
    by apply string_rule_ok.
Qed.

(** X2. [_validate_chat_history] accepts an array exactly when it holds at
    most 50 items, each an object with a [role] (of any value) and a
    [content] that, where it is a string, has 1 to 2000 characters. *)
Theorem validate_chat_history_accepts (l : list value) :
  _validate_chat_history (VList l) = Ok (mk_field_result true [])
  <-> (length l <= 50)%nat /\ Forall message_ok l.
Proof.
  unfold _validate_chat_history. simpl.
  unfold validation_rules.chat_history.array_constraints.min_length,
    validation_rules.chat_history.array_constraints.max_length.
  rewrite (fold_append_concat (fun im => chat_message_errors im.1 im.2)).
  set (errors := _ ++ _).
  transitivity (errors = []).
  { split.
    - intros [= _ H]. done.
    - intros ->. done. }
  subst errors.
  rewrite (ltb_false (Z.of_nat (length l)) 0) by lia.
  unfold when at 1. simpl.
  rewrite <- (Forall_enumerate (fun im => chat_message_errors im.1 im.2 = [])
                message_ok) by (intros; apply chat_message_errors_nil).
  rewrite <- concat_nil_Forall.
  split.
  - intros H. apply app_eq_nil in H as [H1 H2]. split; [|done].
    unfold when in H1. destruct (Z.of_nat (length l) >? 50) eqn:E; [done|].
    rewrite Z.gtb_ltb in E. apply Z.ltb_ge in E. lia.
  - intros [H1 H2]. rewrite H2.
    rewrite (gtb_false (Z.of_nat (length l)) 50) by lia. done.
Qed.

Lemma validate_chat_history_accepts_witness :
  _validate_chat_history
    (VList [VDict (list_to_map [("role", VInt 3); ("content", VNone)])])
  = Ok (mk_field_result true []).
Proof.
  apply validate_chat_history_accepts. split; [simpl; lia|].
  constructor; [|constructor].
  eexists. split; [done|]. split; [by eexists; vm_compute|].
  eexists. split; [by vm_compute|]. intros s E. discriminate E.
Defined.

(** X3. The [dict()] of a [UserInfo] passes [_validate_user_info] exactly
    when its six strings are within the bounds of the rules, and the
    [dict()]s of a list of [ChatMessage] pass [_validate_chat_history]
    exactly when there are at most 50 messages, each with 1 to 2000
    characters of content. *)
Theorem model_values_pass_deep_checks (u : UserInfo.t)
    (msgs : list ChatMessage.t) :
  (_validate_user_info (VDict (UserInfo.dict u)) = Ok (mk_field_result true [])
   <-> user_info_within_bounds u)
  /\ (_validate_chat_history
        (VList (map (fun msg => VDict (ChatMessage.dict msg)) msgs))
      = Ok (mk_field_result true [])
      <-> (length msgs <= 50)%nat
          /\ Forall (fun msg => 1 <= PyStr.len (ChatMessage.content msg) <= 2000)
                    msgs).
Proof.
  split.
  - rewrite validate_user_info_accepts. unfold user_info_within_bounds. split.
    + intros H.
      assert (Hf : forall field s h,
                 field ∈ validation_rules.user_info.required_fields ->
                 UserInfo.dict u !! field = Some (VStr s) ->
                 1 <= PyStr.len s
                 /\ (user_info_max field = Some h -> PyStr.len s <= h)).
      { intros field s h Hin Hs. destruct (H field Hin) as (v & Hv & Hok).
        rewrite Hs in Hv. injection Hv as <-.
        destruct (Hok s eq_refl) as [H1 H2]. split; [done|]. intros E. by apply H2. }
      assert (Hin : forall field,
                 In field validation_rules.user_info.required_fields ->
                 field ∈ validation_rules.user_info.required_fields)
        by (intros; by apply list_elem_of_In).
      pose proof (Hf "user_id" _ 0 (Hin "user_id" ltac:(simpl; tauto)) eq_refl) as [? _].
      pose proof (Hf "name" _ 100 (Hin "name" ltac:(simpl; tauto)) eq_refl) as [? ?].
      pose proof (Hf "grade_level" _ 0 (Hin "grade_level" ltac:(simpl; tauto)) eq_refl)
        as [? _].
      pose proof (Hf "learning_style_summary" _ 500 (Hin "learning_style_summary" ltac:(simpl; tauto)) eq_refl) as [? ?].
      pose proof (Hf "emotional_state_summary" _ 500 (Hin "emotional_state_summary" ltac:(simpl; tauto)) eq_refl) as [? ?].
      pose proof (Hf "mastery_level_summary" _ 500 (Hin "mastery_level_summary" ltac:(simpl; tauto)) eq_refl) as [? ?].
      repeat split; auto.
    + intros (H1 & H2 & H3 & H4 & H5 & H6) field Hin.
      apply list_elem_of_In in Hin. simpl in Hin.
      repeat (destruct Hin as [<-|Hin];
              [eexists; split; [reflexivity|]; intros s E; injection E as <-;
               split; [lia|intros h Hh; vm_compute in Hh;
                           first [discriminate Hh | injection Hh as <-; lia]] |]).
      done.
  - rewrite validate_chat_history_accepts, length_map, Forall_map.
    apply and_iff_compat_l. apply Forall_iff. intros msg. simpl.
    unfold message_ok. split.
    + intros (d & [= <-] & _ & c & Hc & Hok).
      assert (c = VStr (ChatMessage.content msg)) as ->.
      { unfold ChatMessage.dict in Hc.
        rewrite lookup_insert_ne, lookup_insert_eq in Hc by done. by injection Hc. }
      destruct (Hok _ eq_refl) as [? Hhi]. split; [done|]. by apply Hhi.
    + intros [H1 H2]. eexists. split; [done|].
      unfold ChatMessage.dict. split.
      * rewrite lookup_insert_eq. eauto.
      * eexists. split; [by rewrite lookup_insert_ne, lookup_insert_eq|].
        intros s [= <-]. split; [done|]. intros h [= <-]. done.
Qed.

Lemma model_values_pass_deep_checks_witness :
  _validate_user_info (VDict (UserInfo.dict Fixtures.sample_user_info))
  = Ok (mk_field_result true [])
  /\ _validate_chat_history
       (VList (map (fun msg => VDict (ChatMessage.dict msg))
                   Fixtures.sample_chat_history))
     = Ok (mk_field_result true []).
Proof.
  destruct (model_values_pass_deep_checks Fixtures.sample_user_info
              Fixtures.sample_chat_history) as [[_ Hu] [_ Hc]].
  split.
  - apply Hu. repeat split; vm_compute; intros E; discriminate E.
  - apply Hc. split; [simpl; lia|].
    repeat constructor; vm_compute; intros E; discriminate E.
Defined.

Lemma known_by_code e :
  existsb (String.eqb (e_code e)) reported_codes = true -> known e.
Proof.
  intros H. apply existsb_exists in H as (c & Hc & E).
  apply String.eqb_eq in E. unfold known. rewrite E. by apply list_elem_of_In.
Qed.

Ltac known_list :=
  repeat first
    [ apply Forall_nil_2
    | apply Forall_cons; split; [by apply known_by_code|]
    | apply Forall_app; split
    | progress unfold when
    | case_match ].

Lemma constraints_known v cs : Forall known (_validate_constraints v cs).
Proof. unfold _validate_constraints. destruct v; simpl; known_list. Qed.

Lemma field_known field v schema :
  is_Some (field_types schema !! field) ->
  Forall known (fr_errors (_validate_field field v schema)).
Proof.
  intros [t Ht]. unfold _validate_field. rewrite Ht. simpl.
  apply Forall_app. split; [known_list | apply constraints_known].
Qed.

Lemma required_loop_known p schema fields acc :
  (forall f, f ∈ fields -> is_Some (field_types schema !! f)) ->
  Forall known acc.1 ->
  Forall known (fold_left (required_step p schema) fields acc).1.
Proof.
  revert acc. induction fields as [|f fields IH]; intros acc Ht Hacc; [done|].
  simpl. apply IH.
  - intros g Hg. apply Ht. by right.
  - unfold required_step. destruct (p !! f) as [v|]; simpl.
    + case_match; simpl; [done|].
      apply Forall_app. split; [done|]. apply field_known, Ht. by left.
    + apply Forall_app. split; [done|]. known_list.
Qed.

Lemma optional_loop_known p schema fields acc :
  (forall f, f ∈ fields -> is_Some (field_types schema !! f)) ->
  Forall known acc.1 ->
  Forall known (fold_left (optional_step p schema) fields acc).1.
Proof.
  revert acc. induction fields as [|f fields IH]; intros acc Ht Hacc; [done|].
  simpl. apply IH.
  - intros g Hg. apply Ht. by right.
  - unfold optional_step. destruct (p !! f) as [v|]; simpl; [|done].
    case_match; simpl; [done|].
    apply Forall_app. split; [done|]. apply field_known, Ht. by left.
Qed.

Lemma foldM_invariant {A B : Type} (P : B -> Prop) (f : B -> A -> result B)
    (l : list A) (init r : B) :
  (forall acc x acc', P acc -> f acc x = Ok acc' -> P acc') ->
  P init -> foldM f l init = Ok r -> P r.
Proof.
  intros Hf. revert init. induction l as [|x l IH]; intros init Hinit; simpl.
  - by intros [= <-].
  - destruct (f init x) as [acc'|] eqn:E; simpl; [|done].
    apply IH. by eapply Hf.
Qed.

Lemma validate_user_info_known v r :
  _validate_user_info v = Ok r -> Forall known (fr_errors r).
Proof.
  unfold _validate_user_info.
  destruct (foldM _ _ _) as [errors|] eqn:E; simpl; [|done].
  intros [= <-]. simpl.
  eapply (foldM_invariant (Forall known)); [| |exact E]; [|done].
  intros acc field acc' Hacc. simpl.
  destruct (Py.contains field v) as [[]|]; simpl; [| |done].
  - destruct (Py.getitem v field); simpl; [|done].
    intros [= <-]. apply Forall_app. split; [done|apply constraints_known].
  - intros [= <-]. apply Forall_app. split; [done|known_list].
Qed.

Lemma chat_message_known i m : Forall known (chat_message_errors i m).
Proof.
  unfold chat_message_errors.
  destruct m as [| | | | | |d]; [known_list..|].
  apply Forall_app. split.
  - destruct (d !! "role"); [apply constraints_known|known_list].
  - destruct (d !! "content"); [apply constraints_known|known_list].
Qed.

Lemma len_nonneg v n : Py.len v = Ok n -> 0 <= n.
Proof. destruct v; simpl; intros [= <-]; unfold PyStr.len; lia. Qed.

Lemma validate_chat_history_known v r :
  _validate_chat_history v = Ok r -> Forall known (fr_errors r).
Proof.
  unfold _validate_chat_history.
  destruct (Py.len v) as [n|] eqn:En; simpl; [|done].
  destruct (Py.iter v) as [items|]; simpl; [|done].
  intros [= <-]. simpl.
  rewrite (fold_append_concat (fun im => chat_message_errors im.1 im.2)).
  apply len_nonneg in En.
  unfold validation_rules.chat_history.array_constraints.min_length.
  rewrite (ltb_false n 0) by done.
  apply Forall_app. split; [known_list|].
  apply Forall_concat, Forall_map, Forall_forall. intros ? _.
  apply chat_message_known.
Qed.

Lemma deeper_check_known check p key errors errors' :
  (forall v r, check v = Ok r -> Forall known (fr_errors r)) ->
  Forall known errors ->
  deeper_check check p key errors = Ok errors' -> Forall known errors'.
Proof.
  intros Hc He. unfold deeper_check.
  destruct (p !! key) as [v|]; [|by intros [= <-]].
  destruct (check v) as [r|] eqn:E; simpl; [|done].
  intros [= <-]. case_match; [|done].
  apply Forall_app. split; [done|]. by eapply Hc.
Qed.

Lemma tool_schema_cases tool schema :
  tool_schemas !! tool = Some schema ->
  schema = note_maker_schema \/ schema = flashcard_generator_schema
  \/ schema = concept_explainer_schema.
Proof.
  unfold tool_schemas, _initialize_tool_schemas. simpl.
  rewrite lookup_insert_Some. intros [[_ <-]|[_ H]]; [by left|].
  revert H. rewrite lookup_insert_Some. intros [[_ <-]|[_ H]]; [by right; left|].
  revert H. rewrite lookup_insert_Some. intros [[_ <-]|[_ H]]; [by right; right|].
  by rewrite lookup_empty in H.
Qed.

Lemma schema_fields_typed tool schema field :
  tool_schemas !! tool = Some schema ->
  field ∈ required_fields schema ++ optional_fields schema ->
  is_Some (field_types schema !! field).
Proof.
  intros Hs Hf. apply list_elem_of_In in Hf.
  destruct (tool_schema_cases _ _ Hs) as [->|[->| ->]]; simpl in Hf;
    repeat (destruct Hf as [<-|Hf]; [by eexists; vm_compute|]); done.
Qed.

(** X4. Every error [validate_tool_request] reports carries one of fourteen
    codes. [UNDEFINED_FIELD], [INVALID_BOOLEAN_TYPE] and
    [MIN_ARRAY_LENGTH_VIOLATION], which the code can build, are never
    reported: every field of the schemas is typed, a boolean is an [int] and
    so never reaches the boolean branch, and no length is negative. *)
Theorem validate_tool_request_error_codes (req : ToolRequest.t)
    (e : error_entry) :
  e ∈ ValidationResult.errors (validate_tool_request req) ->
  e_code e ∈ reported_codes /\ e_code e ∉ silent_codes.
Proof.
  intros He.
  assert (Hk : known e).
  { revert e He. apply Forall_forall.
    unfold validate_tool_request.
    destruct (validate_tool_request_try req) as [r|x] eqn:Htry;
      [|simpl; known_list].
    unfold validate_tool_request_try in Htry.
    destruct (tool_schemas !! ToolRequest.tool_name req) as [schema|] eqn:Hs.
    2:{ injection Htry as <-. simpl. known_list. }
    set (p := ToolRequest.parameters req) in *.
    destruct (deeper_check _validate_user_info p "user_info" _)
      as [e1|] eqn:H1; simpl in Htry; [|done].
    destruct (deeper_check _validate_chat_history p "chat_history" e1)
      as [e2|] eqn:H2; simpl in Htry; [|done].
    injection Htry as <-. simpl.
    eapply deeper_check_known; [apply validate_chat_history_known| |exact H2].
    eapply deeper_check_known; [apply validate_user_info_known| |exact H1].
    apply optional_loop_known.
    { intros f Hf. eapply schema_fields_typed; [exact Hs|].
      apply elem_of_app. by right. }
    apply required_loop_known; [|done].
    intros f Hf. eapply schema_fields_typed; [exact Hs|].
    apply elem_of_app. by left. }
  split; [exact Hk|].
  unfold known in Hk. apply list_elem_of_In in Hk. simpl in Hk.
  intros Hs. apply list_elem_of_In in Hs. simpl in Hs.
  repeat (destruct Hk as [Hk|Hk];
          [rewrite <- Hk in Hs; clear -Hs; intuition discriminate|]).
  done.
Qed.

Lemma validate_tool_request_error_codes_witness :
  let req := Fixtures.note_maker_request
               (<["topic" := VStr ""]> Fixtures.note_maker_parameters) in
  exists e, ValidationResult.errors (validate_tool_request req) = [e]
            /\ e_code e = "MIN_LENGTH_VIOLATION"
            /\ e_code e ∈ reported_codes /\ e_code e ∉ silent_codes.
Proof.
  intros req. eexists. split; [by vm_compute|]. split; [done|].
  apply (validate_tool_request_error_codes req).
  vm_compute. apply list_elem_of_here.
Defined.

(** X5. When [validate_tool_request] returns validated data, the tool has a
    schema and the data are the parameters of the request restricted to the
    required and optional fields of that schema: other keys are dropped and
    no value is changed. Every required field is there, with a value its
    field check finds no error in. *)
Theorem validated_data_is_restriction (req : ToolRequest.t)
    (validated_data : pydict) :
  ValidationResult.validated_data (validate_tool_request req)
  = Some validated_data ->
  exists schema,
    tool_schemas !! ToolRequest.tool_name req = Some schema
    /\ (forall k,
          validated_data !! k
          = if decide (k ∈ required_fields schema ++ optional_fields schema)
            then ToolRequest.parameters req !! k else None)
    /\ (forall field,
          field ∈ required_fields schema ->
          exists v, validated_data !! field = Some v
                    /\ fr_errors (_validate_field field v schema) = []).
Proof.
  intros Hvd. unfold validate_tool_request in Hvd.
  destruct (validate_tool_request_try req) as [r|e] eqn:Htry; [|done].
  assert (Hvalid : ValidationResult.is_valid r = true).
  { unfold validate_tool_request_try in Htry.
    destruct (tool_schemas !! ToolRequest.tool_name req); [|by simplify_eq].
    destruct (deeper_check _validate_user_info _ _ _); simpl in Htry; [|done].
    destruct (deeper_check _validate_chat_history _ _ _); simpl in Htry;
      [|done].
    injection Htry as <-. simpl in *. by case_match. }
  destruct (validate_try_valid _ _ Htry Hvalid)
    as (schema & Hs & Hreq & Hopt & _ & _ & ->).
  simpl in Hvd. injection Hvd as <-.
  exists schema. split; [done|]. split.
  - intros k. apply lookup_kept.
  - intros field Hf. rewrite Forall_forall in Hreq.
    destruct (Hreq field Hf) as (v & Hv & Hok). exists v. split.
    + rewrite lookup_kept, decide_True; [done|]. apply elem_of_app. by left.
    + by apply validate_field_valid_iff.
Qed.

Lemma validated_data_is_restriction_witness :
  let req := Fixtures.note_maker_request
               (<["debug" := VBool true]> Fixtures.note_maker_parameters) in
  exists schema,
    tool_schemas !! "note_maker" = Some schema
    /\ forall k,
         Fixtures.note_maker_parameters !! k
         = if decide (k ∈ required_fields schema ++ optional_fields schema)
           then ToolRequest.parameters req !! k else None.
Proof.
  intros req.
  destruct (validated_data_is_restriction req Fixtures.note_maker_parameters)
    as (schema & Hs & Hk & _).
  - vm_compute. reflexivity.
  - exists schema. split; [exact Hs|exact Hk].
Defined.

(** X6. For a field the schema types as [integer], [_validate_field] treats
    a boolean exactly as the integer 0 or 1: [True] is accepted as a count of
    1, and [False] is refused like 0. *)
Theorem boolean_checked_as_integer (schema : tool_schema) (field : string)
    (b : bool) :
  field_types schema !! field = Some "integer" ->
  _validate_field field (VBool b) schema
  = _validate_field field (VInt (Py.int_of_bool b)) schema.
Proof. intros Ht. unfold _validate_field. by rewrite Ht. Qed.

Lemma boolean_checked_as_integer_witness :
  fr_is_valid (_validate_field "count" (VBool true) flashcard_generator_schema)
  = true
  /\ _validate_field "count" (VBool false) flashcard_generator_schema
     = _validate_field "count" (VInt 0) flashcard_generator_schema
  /\ fr_is_valid (_validate_field "count" (VInt 0) flashcard_generator_schema)
     = false.
Proof.
  split; [|split].
  - rewrite (boolean_checked_as_integer flashcard_generator_schema "count" true);
      by vm_compute.
  - apply (boolean_checked_as_integer flashcard_generator_schema "count" false).
    by vm_compute.
  - by vm_compute.
Defined.

(* ---- sanitize ---- *)
Lemma remove_char_clean c s :
  PyStr.contains (String c "") (PyStr.remove_char c s) = false.
Proof.
  induction s as [|d s IH]; [done|]. simpl.
  destruct (Ascii.eqb c d) eqn:E; [done|].
  simpl. rewrite IH.
  destruct (ascii_dec c d) as [->|]; [by rewrite Ascii.eqb_refl in E|done].
Qed.

Lemma sanitize_str_clean s :
  PyStr.contains (String PyStr.NUL "") (sanitize_str s) = false.
Proof. apply remove_char_clean. Qed.

Lemma sanitize_value_dict v d :
  sanitize_value v = VDict d -> exists d', v = VDict d' /\ d = sanitize_value <$> d'.
Proof. destruct v; simpl; intros [=]; eauto. Qed.

Lemma at_path_sanitize path :
  through_objects path = true ->
  forall v, at_path (sanitize_value v) path = sanitize_value <$> at_path v path.
Proof.
  remember (length path) as n eqn:Hn.
  revert path Hn. induction n as [n IH] using lt_wf_ind.
  intros [|[k|i] path] -> Hp v; [done| |].
  - simpl in Hp |- *. destruct v as [| | | | | |d]; try done.
    cbn [sanitize_value]. rewrite lookup_fmap.
    destruct (d !! k) as [x|]; [|done]. simpl.
    apply (IH (length path)); [simpl; lia|done|done].
  - destruct path as [|[k|j] path]; [done| |done].
    simpl in Hp.
    destruct v as [| | | | |l|]; try done.
    cbn [sanitize_value at_path]. rewrite list_lookup_fmap.
    destruct (l !! i) as [item|]; [|done]. simpl.
    destruct item as [| | | | | |d]; try done.
    rewrite lookup_fmap.
    destruct (d !! k) as [x|]; [|done]. simpl.
    apply (IH (length path)); [simpl; lia|done|done].
Qed.

(** X7. Along every path on which each array item entered is an object,
    [sanitize_input] leaves at the end of the path the sanitized form of what
    the input has there; a string found there is the stripped input string
    without its null bytes, and holds no null byte. *)
Theorem sanitize_input_cleans_through_objects (data : pydict)
    (path : list path_step) :
  through_objects path = true ->
  at_path (VDict (sanitize_input data)) path
  = sanitize_value <$> at_path (VDict data) path
  /\ forall s, at_path (VDict (sanitize_input data)) path = Some (VStr s) ->
               PyStr.contains (String PyStr.NUL "") s = false
               /\ exists s0, at_path (VDict data) path = Some (VStr s0)
                             /\ s = sanitize_str s0.
Proof.
  intros Hp.
  assert (E : at_path (VDict (sanitize_input data)) path
              = sanitize_value <$> at_path (VDict data) path)
    by apply (at_path_sanitize path Hp (VDict data)).
  split; [done|]. intros s Hs. rewrite E in Hs.
  destruct (at_path (VDict data) path) as [v|]; [|done].
  simpl in Hs. injection Hs as Hs.
  destruct v; simpl in Hs; try done. injection Hs as <-.
  split; [apply sanitize_str_clean | eauto].
Qed.

Lemma sanitize_input_cleans_through_objects_witness :
  at_path (VDict (sanitize_input sanitize_data)) [Key "nested"; Key "value"]
  = Some (VStr "Anothervalue")
  /\ PyStr.contains (String PyStr.NUL "") "Anothervalue" = false.
Proof.
  split; [by vm_compute|].
  apply (sanitize_input_cleans_through_objects sanitize_data
           [Key "nested"; Key "value"]); by vm_compute.
Defined.
End ValidatorProperties.

(* ===================================================================== *)
(** * More on the analysis of the context *)
(* ===================================================================== *)

Section AnalyzerProperties.
Import Re ContextAnalyzer SchemaValidator.

Lemma score_range patterns text :
  patterns <> [] ->
  (0 <= score patterns text)%Q /\ (score patterns text <= 1)%Q.
Proof.
  intros Hne. unfold score, matched.
  pose proof (length_filter (fun p => is_Some (search p text)) patterns) as Hle.
  set (m := length (filter _ patterns)) in *.
  assert (Hpos : (0 < length patterns)%nat).
  { destruct patterns; [done|simpl; lia]. }
  assert (Hz : Z.pos (Pos.of_nat (length patterns))
               = Z.of_nat (length patterns))
    by (rewrite <- positive_nat_Z, Nat2Pos.id; lia).
  unfold Qle. simpl. rewrite Hz. split; lia.
Qed.

Lemma llm_intent_known llm message intent :
  _llm_intent_detection llm message = Some intent -> intent ∈ categories.
Proof.
  unfold _llm_intent_detection. destruct (llm message) as [response|]; [|done].
  destruct (existsb _ intent_patterns) eqn:E; [|done].
  intros [= <-]. apply existsb_exists in E as (ip & Hip & E).
  apply String.eqb_eq in E. rewrite E.
  apply list_elem_of_In, in_map, Hip.
Qed.

Lemma best_intent_known text :
  let best := max_by_score (intent_scores text) in
  best.1 ∈ categories /\ (0 <= best.2)%Q /\ (best.2 <= 1)%Q.
Proof.
  rewrite intent_scores_by_category. unfold max_by_score. simpl.
  unfold better. simpl.
  repeat case_match; simpl.
  all: split; [apply list_elem_of_In; simpl; tauto|].
  all: apply score_range; discriminate.
Qed.

Lemma category_tools intent :
  intent ∈ categories ->
  _map_intent_to_tool intent
  ∈ ["note_maker"; "flashcard_generator"; "concept_explainer";
     "quiz_generator"].
Proof.
  intros H. apply list_elem_of_In in H. simpl in H.
  apply list_elem_of_In.
  repeat (destruct H as [<-|H]; [vm_compute; tauto|]). done.
Qed.

(** X8. Whatever the message and whatever the language model answers,
    [_detect_intent] returns one of the four categories with a confidence
    between 0 and 1, and [_map_intent_to_tool] sends it to one of the four
    tool names: the analysis never yields the tool [unknown]. *)
Theorem detect_intent_range (llm : string -> result string)
    (message : string) :
  let intent := _detect_intent llm message in
  intent.1 ∈ categories
  /\ (0 <= intent.2)%Q /\ (intent.2 <= 1)%Q
  /\ _map_intent_to_tool intent.1
     ∈ ["note_maker"; "flashcard_generator"; "concept_explainer";
        "quiz_generator"].
Proof.
  intros intent.
  assert (H : intent.1 ∈ categories /\ (0 <= intent.2)%Q /\ (intent.2 <= 1)%Q).
  { subst intent. unfold _detect_intent.
    pose proof (best_intent_known (PyStr.lower message)) as Hbest.
    simpl in Hbest.
    destruct (negb _); [|done].
    destruct (_llm_intent_detection llm message) as [i|] eqn:E; [|done].
    destruct (negb (i =? "")%string); [|done].
    simpl. split; [by eapply llm_intent_known|]. by split. }
  destruct H as (H1 & H2 & H3). repeat split; try done.
  by apply category_tools.
Qed.



Lemma prefix_app_l (a b s : string) :
  String.prefix (a +:+ b) s = true -> String.prefix a s = true.
Proof.
  revert s. induction a as [|c a IH]; intros s; [by destruct s|].
  destruct s as [|d s]; simpl; [done|].
  destruct (ascii_dec c d); [apply IH|done].
Qed.

Lemma contains_app_l (a b s : string) :
  PyStr.contains (a +:+ b) s = true -> PyStr.contains a s = true.
Proof.
  induction s as [|d s IH]; cbn [PyStr.contains].
  - rewrite !orb_false_r. apply prefix_app_l.
  - intros H. apply orb_true_iff in H as [H|H].
    + apply (prefix_app_l a b) in H. by rewrite H.
    + rewrite (IH H). apply orb_true_r.
Qed.

Lemma contains_here (b s : string) :
  String.prefix b s = true -> PyStr.contains b s = true.
Proof. intros H. destruct s; cbn [PyStr.contains]; by rewrite H. Qed.

Lemma prefix_app_r (a b s : string) :
  String.prefix (a +:+ b) s = true -> PyStr.contains b s = true.
Proof.
  revert s. induction a as [|c a IH]; intros s.
  - apply contains_here.
  - destruct s as [|d s]; [simpl; intros E; discriminate E|].
    change (String c a +:+ b) with (String c (a +:+ b)).
    cbn [String.prefix PyStr.contains].
    destruct (ascii_dec c d); [|intros E; discriminate E].
    intros H. apply IH in H. rewrite H. apply orb_true_r.
Qed.

Lemma contains_app_r (a b s : string) :
  PyStr.contains (a +:+ b) s = true -> PyStr.contains b s = true.
Proof.
  induction s as [|d s IH].
  - cbn [PyStr.contains]. rewrite orb_false_r. intros H.
    by apply prefix_app_r in H.
  - intros H. cbn [PyStr.contains] in H. apply orb_true_iff in H as [H|H].
    + by apply prefix_app_r in H.
    + cbn [PyStr.contains]. rewrite (IH H). apply orb_true_r.
Qed.

Ltac step_subject m Hmath Henv Hcs :=
  rewrite filter_cons;
  let H := fresh "H" in
  destruct (decide (Is_true (PyStr.contains _ m))) as [H|H];
  [ apply Is_true_true in H;
    try (pose proof (Hmath H)); try (pose proof (Henv H));
    try (pose proof (Hcs H));
    intros [= <-];
    (split;
     [ apply list_elem_of_In; vm_compute; tauto
     | intros Hin; apply list_elem_of_In in Hin; vm_compute in Hin;
       first [ solve [intuition discriminate] | congruence ] ])
  | apply Is_true_false in H ].

(** X10. [_extract_subject] returns the title-cased form of the first
    subject of its list that occurs in the message. [Mathematics],
    [Environmental Science] and [Computer Science] are never returned, since
    [math] and [science] come earlier in the list and occur wherever they
    do; a message with [mathematics] gives [Math]. The chat history is not
    consulted. *)
Theorem extract_subject_shadowed (message : string)
    (chat_history : list ChatMessage.t) :
  (forall subject, _extract_subject message chat_history = Some subject ->
                   subject ∈ map PyStr.title subjects
                   /\ subject ∉ shadowed_subjects)
  /\ (PyStr.contains "mathematics" (PyStr.lower message) = true ->
      _extract_subject message chat_history = Some "Math")
  /\ _extract_subject message chat_history = _extract_subject message [].
Proof.
  split; [|split; [|done]].
  - intros subject. unfold _extract_subject, subjects.
    set (m := PyStr.lower message).
    assert (Hmath : PyStr.contains "mathematics" m = true ->
                    PyStr.contains "math" m = true)
      by apply (contains_app_l "math" "ematics").
    assert (Henv : PyStr.contains "environmental science" m = true ->
                   PyStr.contains "science" m = true)
      by apply (contains_app_r "environmental " "science").
    assert (Hcs : PyStr.contains "computer science" m = true ->
                  PyStr.contains "science" m = true)
      by apply (contains_app_r "computer " "science").
    do 20 (step_subject m Hmath Henv Hcs).
    rewrite filter_nil. intros E. discriminate E.
  - intros H. apply (contains_app_l "math" "ematics") in H.
    unfold _extract_subject, subjects.
    rewrite filter_cons_True by by apply Is_true_true.
    reflexivity.
Qed.









Lemma omap_rev_filter {A B : Type} (f : A -> option B) (P : A -> bool)
    (l : list A) :
  (forall x, P x = false -> f x = None) ->
  omap f (rev (filter (fun x => P x) l)) = omap f (rev l).
Proof.
  intros Hf. induction l as [|x l IH]; [done|].
  rewrite filter_cons. cbn [rev]. rewrite omap_app.
  destruct (decide (Is_true (P x))) as [H|H].
  - cbn [rev]. rewrite omap_app, IH. done.
  - apply Is_true_false in H. rewrite IH. simpl. rewrite (Hf x H).
    by rewrite app_nil_r.
Qed.

(** X13. Besides the message, [_extract_topic] only reads the last three
    messages of the chat history, and among them only those of the student:
    older messages, and what the assistant said, never provide the topic. *)
Theorem extract_topic_history_window (message : string)
    (older recent : list ChatMessage.t) :
  length recent = 3%nat ->
  _extract_topic message (older ++ recent) = _extract_topic message recent
  /\ _extract_topic message (older ++ recent)
     = _extract_topic message (filter (fun msg => from_user msg) recent).
Proof.
  intros Hlen.
  assert (H3 : last_three (older ++ recent) = recent).
  { unfold last_three. rewrite length_app, Hlen.
    apply drop_app_length'. lia. }
  assert (H3' : last_three recent = recent).
  { unfold last_three. rewrite Hlen. done. }
  assert (H3f : last_three (filter (fun msg => from_user msg) recent)
                = filter (fun msg => from_user msg) recent).
  { unfold last_three.
    pose proof (length_filter (fun msg => from_user msg) recent) as Hle.
    replace (length (filter _ recent) - 3)%nat with 0%nat by lia. done. }
  unfold _extract_topic. rewrite H3, H3', H3f. split; [done|].
  rewrite (omap_rev_filter _ from_user); [done|].
  intros msg Hm. unfold from_user in Hm. by rewrite Hm.
Qed.

Lemma extract_topic_history_window_witness :
  let older := [ChatMessage.mk USER "tell me about volcanoes please"] in
  let recent := [ChatMessage.mk USER "hi";
                 ChatMessage.mk ASSISTANT "a word about glaciers then";
                 ChatMessage.mk USER "thanks"] in
  _extract_topic "help" (older ++ recent) = _extract_topic "help" recent
  /\ _extract_topic "help" recent = None
  /\ _extract_topic "help" older = Some "volcanoes".
Proof.
  intros older recent. split; [|split; by vm_compute].
  apply (extract_topic_history_window "help" older recent). reflexivity.
Defined.
End AnalyzerProperties.

(* ===================================================================== *)
(** * The result of an extraction *)
(* ===================================================================== *)

Section ExtractorProperties.
Import ContextAnalyzer ParameterExtractor.

Lemma extractor_schema_cases tool s :
  tool_schemas !! tool = Some s ->
  (tool = "note_maker"
   /\ s = mk_schema ["user_info"; "chat_history"; "topic"; "subject";
                     "note_taking_style"]
                    ["include_examples"; "include_analogies"])
  \/ (tool = "flashcard_generator"
      /\ s = mk_schema ["user_info"; "topic"; "count"; "difficulty"; "subject"]
                       ["include_examples"])
  \/ (tool = "concept_explainer"
      /\ s = mk_schema ["user_info"; "chat_history"; "concept_to_explain";
                        "current_topic"; "desired_depth"] []).
Proof.
  unfold tool_schemas, _initialize_tool_schemas. simpl.
  rewrite lookup_insert_Some. intros [[<- <-]|[_ H]]; [by left|].
  revert H. rewrite lookup_insert_Some.
  intros [[<- <-]|[_ H]]; [by right; left|].
  revert H. rewrite lookup_insert_Some.
  intros [[<- <-]|[_ H]]; [by right; right|].
  by rewrite lookup_empty in H.
Qed.

Lemma missing_loop (params : pydict) fs (acc : pydict * list string) :
  (fold_left (fun (acc : pydict * list string) param =>
                match params !! param with
                | Some VNone | None => (acc.1, acc.2 ++ [param])
                | Some v => (<[param := v]> acc.1, acc.2)
                end) fs acc).2
  = acc.2 ++ filter (fun p => absent params p) fs.
Proof.
  revert acc. induction fs as [|f fs IH]; intros acc; simpl.
  - by rewrite app_nil_r.
  - rewrite IH, filter_cons.
    destruct (params !! f) as [v|] eqn:E.
    + destruct (decide (Is_true (absent params f))) as [Ha|Ha];
        unfold absent in Ha; rewrite E in Ha;
        destruct v; simpl in *; try done; by rewrite <- app_assoc.
    + rewrite decide_True by (unfold absent; by rewrite E).
      simpl. by rewrite <- app_assoc.
Qed.

Lemma validate_parameters_missing params s :
  (_validate_parameters params s).2
  = filter (fun p => absent params p) (required s).
Proof. unfold _validate_parameters. simpl. by rewrite missing_loop. Qed.

Lemma lookup_validate_parameters_any (params : pydict) s k :
  (_validate_parameters params s).1 !! k
  = if decide (k ∈ optional s) then
      match params !! k with
      | Some v => Some v
      | None => None
      end
    else if decide (k ∈ required s) then
      (if absent params k then None else params !! k)
    else None.
Proof.
  unfold _validate_parameters. simpl.
  change (fold_left _ (optional s) ?acc) with (keep params (optional s) acc).
  rewrite lookup_keep, lookup_required_loop. unfold absent.
  cbn [fst]. rewrite lookup_empty.
  destruct (decide (k ∈ optional s)), (decide (k ∈ required s));
    destruct (params !! k) as [[]|]; done.
Qed.

Lemma lookup_update (d other : pydict) k :
  Py.update d other !! k
  = match other !! k with Some v => Some v | None => d !! k end.
Proof.
  unfold Py.update. rewrite lookup_union.
  destruct (other !! k), (d !! k); done.
Qed.

Lemma infer_from_context_cases context tool k v :
  _infer_from_context context tool !! k = Some v ->
  v <> VNone
  /\ (k = "user_info"
      /\ v = VDict (UserInfo.dict (ConversationContext.user_info context))
      \/ k = "chat_history"
         /\ v = VList (map (fun msg => VDict (ChatMessage.dict msg))
                           (ConversationContext.chat_history context))
      \/ k <> "user_info" /\ k <> "chat_history").
Proof.
  unfold _infer_from_context, _infer_note_maker_params,
    _infer_flashcard_params, _infer_concept_explainer_params.
  repeat case_match; rewrite ?lookup_update;
    repeat match goal with
           | |- context [(<[?a := ?x]> ?m) !! k] =>
               destruct (decide (k = a)) as [->|];
               [rewrite lookup_insert_eq | rewrite lookup_insert_ne by done]
           end;
    rewrite ?lookup_empty; intros E; try discriminate E;
    injection E as <-; (split; [done|]); auto 10.
Qed.

Ltac look :=
  repeat first [ rewrite lookup_insert_eq
               | rewrite lookup_insert_ne by done
               | rewrite lookup_empty ].

Lemma infer_from_context_user_info context tool :
  _infer_from_context context tool !! "user_info"
  = Some (VDict (UserInfo.dict (ConversationContext.user_info context))).
Proof.
  unfold _infer_from_context, _infer_note_maker_params,
    _infer_flashcard_params, _infer_concept_explainer_params.
  repeat case_match; rewrite ?lookup_update; by look.
Qed.

Lemma infer_from_context_sets context tool s p :
  tool_schemas !! tool = Some s ->
  p ∈ required s -> p ∉ unguessable ->
  is_Some (_infer_from_context context tool !! p).
Proof.
  intros Hs Hp Hu. unfold unguessable in Hu.
  rewrite !not_elem_of_cons in Hu. destruct Hu as (? & ? & ? & ? & _).
  apply list_elem_of_In in Hp.
  unfold _infer_from_context, _infer_note_maker_params,
    _infer_flashcard_params, _infer_concept_explainer_params.
  destruct (extractor_schema_cases _ _ Hs) as [[-> ->]|[[-> ->]|[-> ->]]];
    simpl in Hp; cbn [String.eqb Ascii.eqb Bool.eqb andb].
  all: repeat (destruct Hp as [<-|Hp]; [|]); try done.
  all: repeat case_match; rewrite ?lookup_update; look; eauto.
Qed.

Lemma extract_parameters_result llm_json intent context s :
  tool_schemas !! EducationalIntent.suggested_tool intent = Some s ->
  let validated :=
    _validate_parameters
      (_extract_with_multiple_methods
         llm_json intent context (EducationalIntent.suggested_tool intent)) s
  in
  extract_parameters llm_json intent context
  = ParameterExtractionResult.mk
      (bool_decide (length validated.2 = 0%nat)) validated.1 validated.2
      (_calculate_confidence_scores validated.1 context) "hybrid".
Proof.
  intros Hs. unfold extract_parameters, extract_parameters_try. rewrite Hs.
  by destruct (_validate_parameters
                 (_extract_with_multiple_methods
                    llm_json intent context
                    (EducationalIntent.suggested_tool intent)) s).
Qed.

Lemma schema_disjoint tool s k :
  tool_schemas !! tool = Some s -> k ∈ required s -> k ∉ optional s.
Proof.
  intros Hs Hk Ho. apply list_elem_of_In in Hk, Ho.
  destruct (extractor_schema_cases _ _ Hs) as [[-> ->]|[[-> ->]|[-> ->]]];
    simpl in Hk, Ho;
    repeat (destruct Hk as [<-|Hk]; [intuition discriminate|]); done.
Qed.

Lemma required_lookup llm_json intent context s p :
  tool_schemas !! EducationalIntent.suggested_tool intent = Some s ->
  p ∈ required s ->
  let merged :=
    _extract_with_multiple_methods
      llm_json intent context (EducationalIntent.suggested_tool intent) in
  ParameterExtractionResult.extracted_parameters
    (extract_parameters llm_json intent context) !! p
  = if absent merged p then None else merged !! p.
Proof.
  intros Hs Hp merged. rewrite (extract_parameters_result _ _ _ _ Hs).
  cbn [ParameterExtractionResult.extracted_parameters].
  rewrite lookup_validate_parameters_any.
  rewrite decide_False by by eapply schema_disjoint.
  by rewrite decide_True.
Qed.

Lemma missing_parameters_iff llm_json intent context s p :
  tool_schemas !! EducationalIntent.suggested_tool intent = Some s ->
  let r := extract_parameters llm_json intent context in
  p ∈ ParameterExtractionResult.missing_parameters r
  <-> p ∈ required s
      /\ ParameterExtractionResult.extracted_parameters r !! p = None.
Proof.
  intros Hs r. subst r.
  assert (Hl := fun Hp => required_lookup llm_json intent context s p Hs Hp).
  cbv zeta in Hl.
  rewrite (extract_parameters_result _ _ _ _ Hs) in Hl |- *.
  cbn [ParameterExtractionResult.extracted_parameters
       ParameterExtractionResult.missing_parameters] in Hl |- *.
  set (merged := _extract_with_multiple_methods _ _ _ _) in *.
  rewrite validate_parameters_missing, list_elem_of_filter, Is_true_true.
  split.
  - intros [Ha Hp]. split; [done|]. by rewrite (Hl Hp), Ha.
  - intros [Hp Hn]. split; [|done]. rewrite (Hl Hp) in Hn.
    destruct (absent merged p) eqn:E; [done|].
    unfold absent in E. rewrite Hn in E. done.
Qed.

(** X14. For a tool with an extraction schema, the extracted parameters
    only have keys of the schema, a parameter is reported missing exactly
    when it is required and absent from them, no required parameter is
    stored with the value [None], and the extraction succeeds exactly when
    nothing is missing, that is when every required parameter is there. *)
Theorem extraction_result_shape
    (llm_json : ConversationContext.t -> string -> result pydict)
    (intent : EducationalIntent.t) (context : ConversationContext.t)
    (s : schema) :
  tool_schemas !! EducationalIntent.suggested_tool intent = Some s ->
  let r := extract_parameters llm_json intent context in
  let extracted := ParameterExtractionResult.extracted_parameters r in
  let missing := ParameterExtractionResult.missing_parameters r in
  (forall k, is_Some (extracted !! k) -> k ∈ schema_fields s)
  /\ (forall p, p ∈ missing <-> p ∈ required s /\ extracted !! p = None)
  /\ (forall p, p ∈ required s -> extracted !! p <> Some VNone)
  /\ (ParameterExtractionResult.success r = true <-> missing = [])
  /\ (ParameterExtractionResult.success r = true
      <-> forall p, p ∈ required s -> is_Some (extracted !! p)).
Proof.
  intros Hs r extracted missing.
  assert (Hmiss : forall p, p ∈ missing
                            <-> p ∈ required s /\ extracted !! p = None)
    by (intros p; by apply missing_parameters_iff).
  assert (Hsucc : ParameterExtractionResult.success r = true <-> missing = []).
  { subst missing r. rewrite (extract_parameters_result _ _ _ _ Hs).
    cbn [ParameterExtractionResult.missing_parameters
         ParameterExtractionResult.success].
    rewrite bool_decide_eq_true.
    split; [apply nil_length_inv|by intros ->]. }
  split; [|split; [|split; [|split]]].
  - intros k [v Hk]. subst extracted r.
    rewrite (extract_parameters_result _ _ _ _ Hs) in Hk.
    cbn [ParameterExtractionResult.extracted_parameters] in Hk.
    rewrite lookup_validate_parameters_any in Hk.
    unfold schema_fields. apply elem_of_app.
    destruct (decide (k ∈ optional s)); [by right|].
    destruct (decide (k ∈ required s)); [by left|done].
  - exact Hmiss.
  - intros p Hp. subst extracted r. rewrite (required_lookup _ _ _ _ _ Hs Hp).
    unfold absent.
    destruct (_ !! p) as [[]|]; done.
  - exact Hsucc.
  - rewrite Hsucc. split.
    + intros Hnil p Hp.
      destruct (extracted !! p) eqn:E; [eauto|].
      assert (p ∈ missing) as Hin by (by apply Hmiss).
      rewrite Hnil in Hin. by apply elem_of_nil in Hin.
    + intros Hall.
      destruct missing as [|p l] eqn:E; [done|].
      assert (p ∈ p :: l) as Hin by left.
      apply Hmiss in Hin as [Hp Hn]. destruct (Hall p Hp) as [v Hv].
      congruence.
Qed.

(** X15. What the contextual pass derives is final: under every key of the
    schema it sets, the result of [extract_parameters] holds its value,
    whatever the language model and the classifier proposed. In particular
    [user_info] is always that of the conversation context, and the only
    parameters that can be missing are [topic], [subject],
    [concept_to_explain] and [current_topic]. *)
Theorem contextual_pass_wins
    (llm_json : ConversationContext.t -> string -> result pydict)
    (intent : EducationalIntent.t) (context : ConversationContext.t)
    (s : schema) :
  let tool := EducationalIntent.suggested_tool intent in
  tool_schemas !! tool = Some s ->
  let r := extract_parameters llm_json intent context in
  let extracted := ParameterExtractionResult.extracted_parameters r in
  (forall k v, _infer_from_context context tool !! k = Some v ->
               k ∈ schema_fields s -> extracted !! k = Some v)
  /\ extracted !! "user_info"
     = Some (VDict (UserInfo.dict (ConversationContext.user_info context)))
  /\ (forall p, p ∈ ParameterExtractionResult.missing_parameters r ->
                p ∈ unguessable).
Proof.
  intros tool Hs r extracted. subst r extracted.
  rewrite (extract_parameters_result _ _ _ _ Hs).
  fold tool. set (merged := _extract_with_multiple_methods _ _ _ _).
  cbn [ParameterExtractionResult.extracted_parameters
       ParameterExtractionResult.missing_parameters
       ParameterExtractionResult.success].
  assert (Hwin : forall k v, _infer_from_context context tool !! k = Some v ->
                             merged !! k = Some v /\ absent merged k = false).
  { intros k v Hk. unfold merged. unfold absent.
    rewrite extraction_precedence, Hk.
    split; [done|]. apply infer_from_context_cases in Hk as [Hv _].
    by destruct v. }
  assert (Hkeep : forall k v, _infer_from_context context tool !! k = Some v ->
                    k ∈ schema_fields s ->
                    (_validate_parameters merged s).1 !! k = Some v).
  { intros k v Hk Hf. destruct (Hwin k v Hk) as [Hm Ha].
    rewrite lookup_validate_parameters_any, Hm, Ha.
    apply elem_of_app in Hf.
    destruct (decide (k ∈ optional s)); [done|].
    destruct (decide (k ∈ required s)); [done|tauto]. }
  split; [exact Hkeep|]. split.
  - apply Hkeep; [apply infer_from_context_user_info|].
    apply list_elem_of_In.
    destruct (extractor_schema_cases _ _ Hs) as [[_ ->]|[[_ ->]|[_ ->]]];
      simpl; tauto.
  - intros p Hp. rewrite validate_parameters_missing in Hp.
    apply list_elem_of_filter in Hp as [Ha Hp]. apply Is_true_true in Ha.
    destruct (decide (p ∈ unguessable)) as [|Hn]; [done|].
    destruct (infer_from_context_sets context tool s p Hs Hp Hn) as [v Hv].
    destruct (Hwin p v Hv) as [_ Ha']. congruence.
Qed.

Lemma extraction_result_shape_witness :
  let context := fifteen_cards_context in
  let intent := analyze_context Fixtures.llm_down context in
  let r := extract_parameters Fixtures.llm_json_down intent context in
  ParameterExtractionResult.missing_parameters r = ["topic"; "subject"]
  /\ forall p, p ∈ ParameterExtractionResult.missing_parameters r
               <-> p ∈ ["user_info"; "topic"; "count"; "difficulty"; "subject"]
                   /\ ParameterExtractionResult.extracted_parameters r !! p
                      = None.
Proof.
  intros context intent r. split; [by vm_compute|].
  destruct (extraction_result_shape Fixtures.llm_json_down intent context
              (mk_schema ["user_info"; "topic"; "count"; "difficulty";
                          "subject"] ["include_examples"]))
    as (_ & H & _); [by vm_compute|exact H].
Defined.

Lemma contextual_pass_wins_witness :
  let context := fifteen_cards_context in
  let intent := analyze_context Fixtures.llm_down context in
  let r := extract_parameters Fixtures.llm_json_down intent context in
  ParameterExtractionResult.extracted_parameters r !! "user_info"
  = Some (VDict (UserInfo.dict Fixtures.sample_user_info)).
Proof.
  intros context intent r.
  destruct (contextual_pass_wins Fixtures.llm_json_down intent context
              (mk_schema ["user_info"; "topic"; "count"; "difficulty";
                          "subject"] ["include_examples"]))
    as (_ & H & _); [by vm_compute|exact H].
Defined.

Lemma validator_schema_named tool schema :
  SchemaValidator.tool_schemas !! tool = Some schema ->
  (tool = "note_maker" /\ schema = SchemaValidator.note_maker_schema)
  \/ (tool = "flashcard_generator"
      /\ schema = SchemaValidator.flashcard_generator_schema)
  \/ (tool = "concept_explainer"
      /\ schema = SchemaValidator.concept_explainer_schema).
Proof.
  unfold SchemaValidator.tool_schemas, SchemaValidator._initialize_tool_schemas.
  simpl.
  rewrite lookup_insert_Some. intros [[<- <-]|[_ H]]; [by left|].
  revert H. rewrite lookup_insert_Some.
  intros [[<- <-]|[_ H]]; [by right; left|].
  revert H. rewrite lookup_insert_Some.
  intros [[<- <-]|[_ H]]; [by right; right|].
  by rewrite lookup_empty in H.
Qed.

(** X16. Every value the contextual pass of the extractor sets under a
    field of the tool's schema passes the validator's check of that field:
    the inferred styles, difficulties, depths and counts are always among
    the permitted ones. *)
Theorem contextual_fields_pass_validation (context : ConversationContext.t)
    (tool : string) (schema : SchemaValidator.tool_schema) (field : string)
    (v : value) :
  SchemaValidator.tool_schemas !! tool = Some schema ->
  _infer_from_context context tool !! field = Some v ->
  field ∈ SchemaValidator.required_fields schema
          ++ SchemaValidator.optional_fields schema ->
  SchemaValidator._validate_field field v schema
  = SchemaValidator.mk_field_result true [].
Proof.
  intros Hs Hv Hf. apply list_elem_of_In in Hf. revert Hv.
  unfold _infer_from_context, _infer_note_maker_params,
    _infer_flashcard_params, _infer_concept_explainer_params,
    mastery_count, flashcard_difficulty.
  destruct (validator_schema_named _ _ Hs) as [[-> ->]|[[-> ->]|[-> ->]]];
    simpl in Hf; cbn [String.eqb Ascii.eqb Bool.eqb andb].
  all: repeat (destruct Hf as [<-|Hf]; [|]); try done.
  all: repeat case_match; rewrite ?lookup_update; look.
  all: intros E; try discriminate E; injection E as <-; reflexivity.
Qed.

Lemma contextual_fields_pass_validation_witness :
  SchemaValidator._validate_field "count" (VInt 10)
    SchemaValidator.flashcard_generator_schema
  = SchemaValidator.mk_field_result true [].
Proof.
  apply (contextual_fields_pass_validation fifteen_cards_context
           "flashcard_generator").
  - reflexivity.
  - by vm_compute.
  - apply list_elem_of_In. simpl. tauto.
Defined.

(** X17. The confidence scores of an extraction have an entry for exactly
    the extracted parameters, each between 0.3 and 1, and the score of
    [user_info] is 1. *)
Theorem confidence_scores_shape
    (llm_json : ConversationContext.t -> string -> result pydict)
    (intent : EducationalIntent.t) (context : ConversationContext.t) :
  let r := extract_parameters llm_json intent context in
  let scores := ParameterExtractionResult.confidence_scores r in
  (forall k, is_Some (scores !! k)
             <-> is_Some (ParameterExtractionResult.extracted_parameters r
                            !! k))
  /\ (forall k q, scores !! k = Some q -> (3 # 10 <= q)%Q /\ (q <= 1)%Q)
  /\ (forall q, scores !! "user_info" = Some q -> q = 1%Q).
Proof.
  intros r scores.
  assert (E : scores
              = _calculate_confidence_scores
                  (ParameterExtractionResult.extracted_parameters r) context).
  { subst scores r. unfold extract_parameters, extract_parameters_try.
    destruct (tool_schemas !! EducationalIntent.suggested_tool intent)
      as [s|]; [|done].
    by destruct (_validate_parameters _ s). }
  rewrite E. unfold _calculate_confidence_scores.
  split; [|split].
  - intros k. rewrite map_lookup_imap.
    destruct (_ !! k); simpl; split; intros [? ?]; eauto; done.
  - intros k q. rewrite map_lookup_imap.
    destruct (_ !! k); simpl; [|done].
    intros [= <-]. repeat case_match; done.
  - intros q. rewrite map_lookup_imap.
    destruct (_ !! "user_info"); simpl; [|done].
    by intros [= <-].
Qed.
End ExtractorProperties.

(* ===================================================================== *)
(** * The workflow, the client and the endpoint *)
(* ===================================================================== *)

Section WorkflowProperties.
Import ToolOrchestrator ToolOrchestrator.OrchestratorState.

Variable config : gmap string string.
Variable llm : string -> result string.
Variable llm_json : ConversationContext.t -> string -> result pydict.
Variable transport : http_request -> http_reply.
Variable coerce_str : value -> result string.
Variable coerce_dict : value -> result pydict.

Lemma lookup_fill_missing missing context tool k :
  ParameterExtractor.fill_missing_parameters missing context tool !! k
  = if decide (k ∈ missing) then Some (filled_value k context tool) else None.
Proof.
  unfold ParameterExtractor.fill_missing_parameters.
  assert (H : forall (acc : pydict),
             fold_left
               (fun (filled_params : pydict) param =>
                  if existsb (String.eqb param) ["topic"; "subject"]
                  then <[param := VStr (ParameterExtractor._ask_for_parameter
                                          param context)]> filled_params
                  else <[param := ParameterExtractor._get_intelligent_default
                                    param context tool]> filled_params)
               missing acc !! k
             = if decide (k ∈ missing)
               then Some (filled_value k context tool) else acc !! k).
  { induction missing as [|p missing IH]; intros acc; [done|].
    cbn [fold_left]. rewrite IH.
    destruct (decide (k ∈ missing)) as [Hin|Hin].
    - rewrite decide_True by by right. done.
    - destruct (decide (k = p)) as [->|Hne].
      + rewrite decide_True by by left.
        unfold filled_value. case_match; by rewrite lookup_insert_eq.
      + rewrite decide_False by (intros [?|?]%elem_of_cons; done).
        case_match; by rewrite lookup_insert_ne. }
  rewrite H. by rewrite lookup_empty.
Qed.

(** The state after the extraction node. *)
Lemma extract_node_fields context intent :
  let state := _extract_parameters_node llm_json (analyzed context intent) in
  conversation_context state = context
  /\ educational_intent state = Some intent
  /\ tool_request state = None
  /\ tool_response state = None
  /\ orchestrator_response state = None
  /\ error_message state = None
  /\ workflow_step state <> "error".
Proof.
  unfold _extract_parameters_node, analyzed. simpl.
  by destruct (ParameterExtractor.ParameterExtractionResult.success _).
Qed.

Lemma lookup_node_parameters context intent k :
  let r := ParameterExtractor.extract_parameters llm_json intent context in
  let missing := ParameterExtractor.ParameterExtractionResult.missing_parameters r in
  let extracted := ParameterExtractor.ParameterExtractionResult.extracted_parameters r in
  extracted_parameters
    (_extract_parameters_node llm_json (analyzed context intent)) !! k
  = if decide (k ∈ missing)
    then Some (filled_value k context (EducationalIntent.suggested_tool intent))
    else extracted !! k.
Proof.
  intros r missing extracted.
  unfold _extract_parameters_node, analyzed. simpl. fold r.
  destruct (ParameterExtractor.ParameterExtractionResult.success r) eqn:Hs.
  - simpl. fold extracted.
    assert (missing = []) as ->; [|by rewrite decide_False by apply not_elem_of_nil].
    subst missing r. revert Hs.
    unfold ParameterExtractor.extract_parameters,
      ParameterExtractor.extract_parameters_try.
    destruct (ParameterExtractor.tool_schemas !! _) as [s|]; [|done].
    destruct (ParameterExtractor._validate_parameters _ s) as [v m]. simpl.
    intros H%bool_decide_eq_true. by apply nil_length_inv.
  - simpl. unfold Py.merge. rewrite lookup_union, lookup_fill_missing.
    fold missing extracted.
    destruct (decide (k ∈ missing)); destruct (extracted !! k); done.
Qed.

Lemma tables_agree tool :
  ParameterExtractor.tool_schemas !! tool
  = (fun s => ParameterExtractor.mk_schema (SchemaValidator.required_fields s)
                                           (SchemaValidator.optional_fields s))
    <$> SchemaValidator.tool_schemas !! tool.
Proof.
  unfold ParameterExtractor.tool_schemas,
    ParameterExtractor._initialize_tool_schemas,
    SchemaValidator.tool_schemas, SchemaValidator._initialize_tool_schemas.
  cbn [list_to_map foldr fst snd].
  rewrite <- lookup_fmap, !fmap_insert, fmap_empty. done.
Qed.

Lemma node_required context intent s p :
  ParameterExtractor.tool_schemas !! EducationalIntent.suggested_tool intent
  = Some s ->
  p ∈ ParameterExtractor.required s ->
  is_Some (extracted_parameters
             (_extract_parameters_node llm_json (analyzed context intent))
           !! p).
Proof.
  intros Hs Hp. rewrite lookup_node_parameters.
  case_decide as Hm; [eauto|].
  destruct (ParameterExtractor.ParameterExtractionResult.extracted_parameters
              (ParameterExtractor.extract_parameters llm_json intent context)
            !! p) eqn:E; [eauto|].
  exfalso. apply Hm. by apply (missing_parameters_iff _ _ _ s).
Qed.

(** X18. After the extraction node, for a tool with an extraction schema,
    the parameters of the state hold every field the validator's schema of
    that tool requires. A parameter that was missing holds what
    [fill_missing_parameters] made up: for [topic] the question addressed to
    the student, stored as if it were the topic, and for
    [concept_to_explain] the value [None]. *)
Theorem extraction_node_fills_required (context : ConversationContext.t)
    (intent : EducationalIntent.t) (s : ParameterExtractor.schema) :
  let tool := EducationalIntent.suggested_tool intent in
  ParameterExtractor.tool_schemas !! tool = Some s ->
  let r := ParameterExtractor.extract_parameters llm_json intent context in
  let missing :=
    ParameterExtractor.ParameterExtractionResult.missing_parameters r in
  let params :=
    extracted_parameters
      (_extract_parameters_node llm_json (analyzed context intent)) in
  (forall schema p, SchemaValidator.tool_schemas !! tool = Some schema ->
                    p ∈ SchemaValidator.required_fields schema ->
                    is_Some (params !! p))
  /\ (forall p, p ∈ missing ->
                params !! p = Some (filled_value p context tool))
  /\ ("topic" ∈ missing ->
      params !! "topic"
      = Some (VStr ("What specific topic would you like to focus on, "
                    +:+ UserInfo.name (ConversationContext.user_info context)
                    +:+ "?")))
  /\ ("concept_to_explain" ∈ missing ->
      params !! "concept_to_explain" = Some VNone).
Proof.
  intros tool Hs r missing params.
  assert (Hfill : forall p, p ∈ missing ->
                    params !! p = Some (filled_value p context tool)).
  { intros p Hp. subst params. rewrite lookup_node_parameters.
    by rewrite decide_True. }
  split; [|split; [exact Hfill|split]].
  - intros schema p Hsch Hp. apply (node_required _ _ s); [done|].
    pose proof (tables_agree tool) as Ht. rewrite Hs, Hsch in Ht.
    injection Ht as ->. done.
  - intros H. by rewrite (Hfill _ H).
  - intros H. by rewrite (Hfill _ H).
Qed.

Lemma truthy_of_lookup (d : pydict) k :
  is_Some (d !! k) -> Py.truthy (VDict d) = true.
Proof.
  intros [v Hv]. simpl. apply negb_true_iff, bool_decide_eq_false.
  intros H%map_size_empty_iff. by rewrite H, lookup_empty in Hv.
Qed.

Abbreviation call :=
  (_call_educational_tool config transport coerce_str coerce_dict).

(** The run of the graph once the request has been built. *)
Lemma run_from_validate fuel state log req :
  educational_intent state <> None ->
  Py.truthy (VDict (extracted_parameters state)) = true ->
  (match educational_intent state with
   | Some intent =>
       req
       = ToolRequest.mk (EducationalIntent.suggested_tool intent)
           (extracted_parameters state)
           (ConversationContext.user_info (conversation_context state))
           (ConversationContext.chat_history (conversation_context state))
   | None => False
   end) ->
  run config llm llm_json transport coerce_str coerce_dict
      (S (S (S fuel))) validate_request state log
  = let validated :=
      set_workflow_step "request_validated"
        (set_tool_request (Some req) state) in
    let executed :=
      set_workflow_step "tool_executed"
        (set_tool_response (Some (call req log).1) validated) in
    (Some (_format_response_node executed,
           [validate_request; execute_tool; format_response]),
     (call req log).2).
Proof.
  intros Hi Ht Hr.
  destruct (educational_intent state) as [intent|] eqn:Ei; [|done].
  rewrite run_step. cbn [run_node io_ret].
  assert (Hv : _validate_request_node state
               = set_workflow_step "request_validated"
                   (set_tool_request (Some req) state)).
  { unfold _validate_request_node. rewrite Ei, Ht, Hr. done. }
  rewrite Hv. cbn [next_node _should_execute_tool workflow_step
                   set_workflow_step String.eqb Ascii.eqb Bool.eqb].
  rewrite run_step. cbn [run_node _execute_tool_node tool_request
                         set_workflow_step set_tool_request io_bind io_ret].
  unfold io_bind, io_ret.
  destruct (call req log) as [response log'] eqn:Ec.
  cbn [next_node]. rewrite run_step. cbn [run_node io_ret next_node fst snd].
  reflexivity.
Qed.

Lemma call_log req log :
  (call req log).2 = log
  \/ exists endpoint,
       tool_endpoints config !! ToolRequest.tool_name req = Some endpoint
       /\ endpoint <> ""
       /\ (call req log).2 = log ++ [mk_request (endpoint +:+ "/generate") req 30].
Proof.
  destruct (tool_endpoints config !! ToolRequest.tool_name req)
    as [endpoint|] eqn:E.
  - destruct (decide (endpoint = "")) as [->|Hne].
    + left. by rewrite call_unknown by auto.
    + right. exists endpoint. rewrite (call_known _ _ _ _ _ _ endpoint) by done.
      done.
  - left. by rewrite call_unknown by auto.
Qed.

Lemma call_success req log :
  ToolResponse.success (call req log).1 = true ->
  exists endpoint has_content body,
    tool_endpoints config !! ToolRequest.tool_name req = Some endpoint
    /\ endpoint <> ""
    /\ (call req log).2 = log ++ [mk_request (endpoint +:+ "/generate") req 30]
    /\ transport (mk_request (endpoint +:+ "/generate") req 30)
       = Response 200 has_content body
    /\ handle_reply coerce_str coerce_dict
         (Response 200 has_content body) = Ok (call req log).1.
Proof.
  destruct (tool_endpoints config !! ToolRequest.tool_name req)
    as [endpoint|] eqn:E.
  2:{ by rewrite call_unknown by auto. }
  destruct (decide (endpoint = "")) as [->|Hne].
  { by rewrite call_unknown by auto. }
  rewrite (call_known _ _ _ _ _ _ endpoint) by done. cbn [fst snd].
  set (request := mk_request _ _ _).
  destruct (transport request) as [status hc body|e] eqn:Et.
  2:{ simpl. by destruct e. }
  destruct (handle_reply coerce_str coerce_dict (Response status hc body))
    as [r|e] eqn:Eh.
  2:{ by destruct e. }
  intros Hs. destruct (decide (status = 200)) as [->|Hst].
  - exists endpoint, hc, body. done.
  - destruct (handle_error_reply_shape _ _ _ _ _ _ Hst Eh) as [Hf _].
    congruence.
Qed.

Lemma ainvoke_to_validate context log :
  let intent := ContextAnalyzer.analyze_context llm context in
  let state := _extract_parameters_node llm_json (analyzed context intent) in
  ainvoke config llm llm_json transport coerce_str coerce_dict
          (initial_state context) log
  = let '(rest, log') :=
      run config llm llm_json transport coerce_str coerce_dict
          4 validate_request state log in
    (match rest with
     | Some (final, visited) =>
         Some (final, analyze_context :: extract_parameters :: visited)
     | None => None
     end, log').
Proof.
  intros intent state. unfold ainvoke.
  rewrite run_step. cbn [run_node io_ret next_node].
  rewrite analyze_node_initial. fold intent.
  rewrite run_step. cbn [run_node io_ret next_node]. fold state.
  destruct (run _ _ _ _ _ _ 4 validate_request state log) as [[[f v]|] l];
    reflexivity.
Qed.

Lemma run_error_path state log intent :
  educational_intent state = Some intent ->
  Py.truthy (VDict (extracted_parameters state)) = false ->
  run config llm llm_json transport coerce_str coerce_dict
      4 validate_request state log
  = (Some (_handle_error_node
             (fail_with "Missing intent or parameters" state),
           [validate_request; handle_error]), log).
Proof.
  intros Ei Ht. rewrite run_step. cbn [run_node io_ret].
  assert (Hv : _validate_request_node state
               = fail_with "Missing intent or parameters" state).
  { unfold _validate_request_node. by rewrite Ei, Ht. }
  rewrite Hv. reflexivity.
Qed.

(** X19. When the tool the analysis suggests has an extraction schema and a
    non-empty endpoint, the workflow runs its five nodes in order, never
    takes the error path, posts exactly one request to the endpoint with the
    parameters left by the extraction node, and answers with the success
    flag and the error of the tool response. No schema validation stands
    between extraction and the call. *)
Theorem supported_tool_is_called (context : ConversationContext.t)
    (log : list http_request) (s : ParameterExtractor.schema)
    (endpoint : string) :
  let intent := ContextAnalyzer.analyze_context llm context in
  let tool := EducationalIntent.suggested_tool intent in
  ParameterExtractor.tool_schemas !! tool = Some s ->
  tool_endpoints config !! tool = Some endpoint ->
  endpoint <> "" ->
  let params :=
    extracted_parameters
      (_extract_parameters_node llm_json (analyzed context intent)) in
  let req :=
    ToolRequest.mk tool params (ConversationContext.user_info context)
                   (ConversationContext.chat_history context) in
  let request := mk_request (endpoint +:+ "/generate") req 30 in
  let response := (call req log).1 in
  (exists final,
      ainvoke config llm llm_json transport coerce_str coerce_dict
              (initial_state context) log
      = (Some (final, [analyze_context; extract_parameters; validate_request;
                       execute_tool; format_response]),
         log ++ [request])
      /\ tool_request final = Some req
      /\ tool_response final = Some response
      /\ workflow_step final = "response_formatted")
  /\ orchestrate config llm llm_json transport coerce_str coerce_dict
                 context log
     = (Some (OrchestratorResponse.mk
                (ToolResponse.success response) (Some response) (Some intent)
                (if ToolResponse.success response then None
                 else ToolResponse.error response)
                (Some context)),
        log ++ [request]).
Proof.
  intros intent tool Hs He Hne params req request response.
  set (state := _extract_parameters_node llm_json (analyzed context intent)).
  destruct (extract_node_fields context intent)
    as (Hc & Hi & _ & _ & _ & _ & _).
  fold state in Hc, Hi.
  assert (Ht : Py.truthy (VDict (extracted_parameters state)) = true).
  { apply (truthy_of_lookup _ "user_info"), (node_required _ _ s); [done|].
    apply list_elem_of_In.
    destruct (extractor_schema_cases _ _ Hs) as [[_ ->]|[[_ ->]|[_ ->]]];
      simpl; tauto. }
  assert (Hlog : (call req log).2 = log ++ [request]).
  { by rewrite (call_known _ _ _ _ _ _ endpoint). }
  assert (Hrun := run_from_validate 1 state log req).
  rewrite Hi, Hc in Hrun. specialize (Hrun ltac:(done) Ht eq_refl).
  cbv zeta in Hrun. rewrite Hlog in Hrun.
  assert (Hall := ainvoke_to_validate context log). cbv zeta in Hall.
  fold intent state in Hall. rewrite Hrun in Hall.
  split.
  - eexists. split; [exact Hall|]. done.
  - unfold orchestrate, io_bind, io_ret. rewrite Hall.
    unfold _format_response_node. simpl. rewrite Hi, Hc. fold response.
    by destruct (ToolResponse.success response).
Qed.

(** X20. [orchestrate] always returns a response, which carries the
    conversation context and the intent of the analysis; it sends at most
    one request; it reports success only when a request was sent and
    answered with status 200; and a response without tool response is the
    failure [Missing intent or parameters], with no request sent. *)
Theorem orchestrate_always_responds (context : ConversationContext.t)
    (log : list http_request) :
  exists response log',
    orchestrate config llm llm_json transport coerce_str coerce_dict
                context log = (Some response, log')
    /\ OrchestratorResponse.conversation_context response = Some context
    /\ OrchestratorResponse.educational_intent response
       = Some (ContextAnalyzer.analyze_context llm context)
    /\ (log' = log \/ exists request, log' = log ++ [request])
    /\ (OrchestratorResponse.success response = true ->
        exists request has_content body,
          log' = log ++ [request]
          /\ transport request = Response 200 has_content body)
    /\ (OrchestratorResponse.tool_response response = None ->
        log' = log
        /\ OrchestratorResponse.success response = false
        /\ OrchestratorResponse.error_message response
           = Some "Missing intent or parameters").
Proof.
  set (intent := ContextAnalyzer.analyze_context llm context).
  set (state := _extract_parameters_node llm_json (analyzed context intent)).
  destruct (extract_node_fields context intent)
    as (Hc & Hi & _ & _ & _ & _ & _).
  fold state in Hc, Hi.
  assert (Hall := ainvoke_to_validate context log). cbv zeta in Hall.
  fold intent state in Hall.
  destruct (Py.truthy (VDict (extracted_parameters state))) eqn:Ht.
  - set (req := ToolRequest.mk (EducationalIntent.suggested_tool intent)
                  (extracted_parameters state)
                  (ConversationContext.user_info context)
                  (ConversationContext.chat_history context)).
    assert (Hrun := run_from_validate 1 state log req).
    rewrite Hi, Hc in Hrun. specialize (Hrun ltac:(done) Ht eq_refl).
    cbv zeta in Hrun. rewrite Hrun in Hall.
    eexists _, _. split.
    { unfold orchestrate, io_bind, io_ret. rewrite Hall.
      unfold _format_response_node. simpl. reflexivity. }
    simpl. rewrite Hi, Hc.
    split; [done|]. split; [done|]. split; [|split].
    + destruct (call_log req log) as [->|(e & _ & _ & ->)]; eauto.
    + intros Hs. destruct (call_success req log Hs)
        as (e & hc & body & _ & _ & Hl & Htr & _). eauto.
    + done.
  - rewrite (run_error_path state log intent Hi Ht) in Hall.
    eexists _, _. split.
    { unfold orchestrate, io_bind, io_ret. rewrite Hall. simpl. reflexivity. }
    simpl. rewrite Hi, Hc. repeat split; auto. done.
Qed.

End WorkflowProperties.

Section ClientValidation.
Import ToolOrchestrator.

Variable config : gmap string string.
Variable transport : http_request -> http_reply.
Variable coerce_str : value -> result string.
Variable coerce_dict : value -> result pydict.

Abbreviation call :=
  (_call_educational_tool config transport coerce_str coerce_dict).

Lemma failed_is_valid error code :
  error <> "" ->
  SchemaValidator.validate_tool_response (failed error code)
  = SchemaValidator.ValidationResult.mk true [] []
      (Some (ToolResponse.dict (failed error code))).
Proof.
  intros Hne. unfold SchemaValidator.validate_tool_response. simpl.
  destruct (String.eqb_spec error ""); done.
Qed.

Ltac failed_valid :=
  rewrite failed_is_valid by (simpl; discriminate); reflexivity.

(** X21. Every response the tool client makes up itself passes
    [validate_tool_response]: for an unknown tool, a transport failure, a
    body that does not parse, or an error status without body. A status 200
    with a JSON object gives a successful response that is valid exactly
    when the object is not empty, and a status 200 with [null] gives a
    successful response that is refused. *)
Theorem client_responses_under_validation (req : ToolRequest.t)
    (log : list http_request) :
  let response := (call req log).1 in
  let valid :=
    SchemaValidator.ValidationResult.is_valid
      (SchemaValidator.validate_tool_response response) in
  let tool_name := ToolRequest.tool_name req in
  (tool_endpoints config !! tool_name = None
   \/ tool_endpoints config !! tool_name = Some "" -> valid = true)
  /\ (forall endpoint,
        tool_endpoints config !! tool_name = Some endpoint ->
        endpoint <> "" ->
        let request := mk_request (endpoint +:+ "/generate") req 30 in
        (forall e, transport request = Failure e -> valid = true)
        /\ (forall status has_content e,
              transport request = Response status has_content (Raise e) ->
              valid = true)
        /\ (forall status body,
              status <> 200 ->
              transport request = Response status false body ->
              valid = true)
        /\ (forall has_content d,
              transport request = Response 200 has_content (Ok (VDict d)) ->
              response = ToolResponse.mk true (Some d) None None
              /\ (valid = true <-> d <> ∅))
        /\ (forall has_content,
              transport request = Response 200 has_content (Ok VNone) ->
              response = ToolResponse.mk true None None None
              /\ valid = false)).
Proof.
  intros response valid tool_name. split.
  - intros H. subst valid response. rewrite call_unknown by done.
    cbn [fst]. by rewrite failed_is_valid.
  - intros endpoint He Hne request.
    assert (Hr : response
                 = match handle_reply coerce_str coerce_dict
                           (transport request) with
                   | Ok response => response
                   | Raise (TimeoutException _) =>
                       failed "Tool request timed out" "TIMEOUT"
                   | Raise (ConnectError _) =>
                       failed ("Could not connect to " +:+ tool_name
                               +:+ " service") "CONNECTION_ERROR"
                   | Raise e =>
                       failed ("Tool call failed: " +:+ exn_str e) "CALL_ERROR"
                   end).
    { subst response. by rewrite (call_known _ _ _ _ _ _ endpoint). }
    subst valid. rewrite Hr. clear Hr.
    split; [|split; [|split; [|split]]].
    + intros e ->. destruct e; cbn [handle_reply]; failed_valid.
    + intros status hc e ->. cbn [handle_reply].
      destruct (status =? 200) eqn:Es.
      * destruct e; cbn [mbind result_bind]; failed_valid.
      * destruct hc.
        -- destruct e; cbn [mbind result_bind]; failed_valid.
        -- simpl. done.
    + intros status body Hst ->. cbn [handle_reply].
      destruct (Z.eqb_spec status 200); [done|]. simpl. done.
    + intros hc d ->. simpl. split; [done|].
      rewrite negb_involutive, <- map_size_empty_iff.
      destruct (decide (size d = 0%nat)) as [E|E].
      * rewrite (bool_decide_true _ E). simpl. split; [done|tauto].
      * rewrite (bool_decide_false _ E). simpl. split; [done|].
        done.
    + intros hc ->. simpl. done.
Qed.

End ClientValidation.

Lemma extraction_node_fills_required_witness :
  let context := fifteen_cards_context in
  let intent := ContextAnalyzer.analyze_context Fixtures.llm_down context in
  ToolOrchestrator.OrchestratorState.extracted_parameters
    (ToolOrchestrator._extract_parameters_node Fixtures.llm_json_down
       (analyzed context intent))
    !! "topic"
  = Some (VStr "What specific topic would you like to focus on, Test Student?").
Proof.
  intros context intent.
  destruct (extraction_node_fills_required Fixtures.llm_json_down context intent
              (ParameterExtractor.mk_schema
                 ["user_info"; "topic"; "count"; "difficulty"; "subject"]
                 ["include_examples"])) as (_ & _ & H & _); [by vm_compute|].
  etransitivity; [apply H; vm_compute; apply list_elem_of_here|reflexivity].
Defined.

Lemma supported_tool_is_called_witness :
  let context := fifteen_cards_context in
  let intent := ContextAnalyzer.analyze_context Fixtures.llm_down context in
  let params :=
    ToolOrchestrator.OrchestratorState.extracted_parameters
      (ToolOrchestrator._extract_parameters_node Fixtures.llm_json_down
         (analyzed context intent)) in
  let req :=
    ToolRequest.mk "flashcard_generator" params Fixtures.sample_user_info [] in
  snd (ToolOrchestrator.orchestrate ∅ Fixtures.llm_down Fixtures.llm_json_down
         unreachable Fixtures.strict_str Fixtures.strict_dict context [])
  = [ToolOrchestrator.mk_request "http://localhost:8002/generate" req 30].
Proof.
  intros context intent params req.
  destruct (supported_tool_is_called ∅ Fixtures.llm_down Fixtures.llm_json_down
              unreachable Fixtures.strict_str Fixtures.strict_dict context []
              (ParameterExtractor.mk_schema
                 ["user_info"; "topic"; "count"; "difficulty"; "subject"]
                 ["include_examples"])
              "http://localhost:8002") as [_ H];
    [by vm_compute|by vm_compute|done|].
  rewrite H. reflexivity.
Defined.

Lemma client_responses_under_validation_witness :
  let req := Fixtures.note_maker_request Fixtures.note_maker_parameters in
  SchemaValidator.ValidationResult.is_valid
    (SchemaValidator.validate_tool_response
       (fst (ToolOrchestrator._call_educational_tool
               ∅ bad_gateway Fixtures.strict_str Fixtures.strict_dict req [])))
  = true.
Proof.
  intros req.
  destruct (client_responses_under_validation ∅ bad_gateway Fixtures.strict_str
              Fixtures.strict_dict req []) as [_ H].
  destruct (H "http://localhost:8001") as (_ & H2 & _);
    [by vm_compute|done|].
  by eapply H2.
Defined.

Section Endpoint.
Import ToolOrchestrator.

Variable config : gmap string string.
Variable llm : string -> result string.
Variable llm_json : ConversationContext.t -> string -> result pydict.
Variable transport : http_request -> http_reply.
Variable coerce_str : value -> result string.
Variable coerce_dict : value -> result pydict.

(** X22. The [/orchestrate] endpoint validates the context as a request for
    the tool named [unknown], which has no schema: for every context it
    returns the failure [Input validation failed: Unknown tool: unknown],
    and the workflow is never run and no request is sent. *)
Theorem orchestrate_request_always_rejects (context : ConversationContext.t)
    (log : list http_request) :
  Main.orchestrate_request config llm llm_json transport coerce_str coerce_dict
                           context log
  = (Main.Returned
       (OrchestratorResponse.mk false None None
          (Some "Input validation failed: Unknown tool: unknown") None),
     log).
Proof. reflexivity. Qed.
End Endpoint.

(* ===================================================================== *)
(** * The sessions of the state manager *)
(* ===================================================================== *)

Section Sessions.
Import StateManager.

Lemma infer_mastery_level_bounds user_info :
  1 <= _infer_mastery_level user_info <= 10.
Proof. unfold _infer_mastery_level. repeat case_match; lia. Qed.

(** X23. [_infer_mastery_level] always returns a level within 1..10; a
    summary that mentions [level 10] is read as level 1, because [level 1] is
    tested first and occurs in it. *)
Theorem infer_mastery_level_range (user_info : UserInfo.t) :
  1 <= _infer_mastery_level user_info <= 10
  /\ (PyStr.contains "level 10"
        (PyStr.lower (UserInfo.mastery_level_summary user_info)) = true ->
      _infer_mastery_level user_info = 1).
Proof.
  split; [apply infer_mastery_level_bounds|].
  intros H. apply (contains_app_l "level 1" "0") in H.
  unfold _infer_mastery_level. by rewrite H.
Qed.

Lemma infer_mastery_level_range_witness :
  _infer_mastery_level
    (UserInfo.mk "u1" "Ada" "12" "visual" "focused" "Level 10 - Master")
  = 1.
Proof.
  apply (infer_mastery_level_range
           (UserInfo.mk "u1" "Ada" "12" "visual" "focused" "Level 10 - Master")).
  by vm_compute.
Defined.

Lemma lookup_fold_delete (sessions : gmap string ConversationSession.t)
    (l : list (string * ConversationSession.t)) k v :
  fold_left (fun sessions kv => delete kv.1 sessions) l sessions !! k = Some v ->
  sessions !! k = Some v.
Proof.
  revert sessions. induction l as [|x l IH]; intros sessions; [done|].
  simpl. intros H. apply IH in H. by apply lookup_delete_Some in H as [_ H].
Qed.

Lemma length_last_fifty {A : Type} (l : list A) :
  (length (if Z.of_nat (length l) >? 50 then drop (length l - 50) l else l)
   <= 50)%nat.
Proof.
  destruct (Z.of_nat (length l) >? 50) eqn:E.
  - rewrite length_drop. lia.
  - rewrite Z.gtb_ltb in E. apply Z.ltb_ge in E. lia.
Qed.

Lemma bounded_after self c : bounded self -> bounded (manager_after self c).
Proof.
  intros [Hs Hp]. unfold bounded.
  destruct c as [u c1 c2|uid sid t1 t2|sid now|sid m now|now];
    cbn [manager_after create_student_profile create_session
         cleanup_expired_sessions snd student_profiles active_sessions].
  - split; [done|]. intros user_id profile.
    rewrite lookup_insert_Some. intros [[_ <-]|[_ H]]; [|by eapply Hp].
    eexists. split; [reflexivity|apply infer_mastery_level_bounds].
  - split; [|done]. intros session_id session.
    rewrite lookup_insert_Some. intros [[_ <-]|[_ H]]; [simpl; lia|by eapply Hs].
  - unfold get_session.
    destruct (active_sessions self !! sid) as [session|] eqn:E; [|done].
    case_match; [|done]. split; [|done].
    cbn [snd active_sessions].
    intros session_id s' Hd. apply lookup_delete_Some in Hd as [_ Hd].
    by eapply Hs.
  - unfold add_message_to_session.
    destruct (active_sessions self !! sid) as [session|] eqn:E; [|done].
    split; [|done]. cbn [snd active_sessions]. intros session_id s'.
    rewrite lookup_insert_Some. intros [[_ <-]|[_ H]]; [|by eapply Hs].
    cbn [ConversationSession.chat_history]. apply length_last_fifty.
  - split; [|done]. intros session_id session H.
    apply lookup_fold_delete in H. by eapply Hs.
Qed.

Lemma bounded_after_calls calls : bounded (after_calls calls).
Proof.
  unfold after_calls.
  assert (H : bounded init)
    by (split; intros ? ?; unfold init; simpl; by rewrite lookup_empty).
  revert H. generalize init. induction calls as [|c calls IH]; intros self H;
    [done|].
  simpl. apply IH. by apply bounded_after.
Qed.

(** X24. After any sequence of [create_student_profile], [create_session],
    [get_session], [add_message_to_session] and [cleanup_expired_sessions]
    calls on a fresh manager, every session holds at most 50 messages, and
    [get_conversation_context] never raises: the context it builds has a
    mastery level within 1..10, at most 50 messages and an empty current
    message. *)
Theorem sessions_stay_bounded (calls : list manager_call) (session_id : string) :
  let self := after_calls calls in
  (forall session, active_sessions self !! session_id = Some session ->
                   (length (ConversationSession.chat_history session) <= 50)%nat)
  /\ exists context,
       get_conversation_context self session_id = Ok context
       /\ forall c, context = Some c ->
                    ConversationContext.mastery_in_range c
                    /\ (length (ConversationContext.chat_history c) <= 50)%nat
                    /\ ConversationContext.current_message c = "".
Proof.
  intros self. destruct (bounded_after_calls calls) as [Hs Hp].
  fold self in Hs, Hp. split; [apply Hs|].
  unfold get_conversation_context.
  destruct (active_sessions self !! session_id) as [session|] eqn:Es;
    [|by eexists; split].
  destruct (student_profiles self !! ConversationSession.user_id session)
    as [profile|] eqn:Ep; [|by eexists; split].
  destruct (Hp _ _ Ep) as (m & Hm & Hr). rewrite Hm.
  replace ((1 <=? m) && (m <=? 10)) with true by lia.
  eexists. split; [reflexivity|]. intros c [= <-].
  unfold ConversationContext.mastery_in_range. simpl.
  split; [done|]. split; [by eapply Hs|done].
Qed.

(** X25. [add_message_to_session] on an existing session succeeds whatever
    the age of the session: the message becomes the last of the history,
    which keeps a suffix of the old one and at most 50 messages, and the
    session counts as active from then on. [get_session] returns it for two
    hours after the message; later it removes it, and a further
    [add_message_to_session] is refused. *)
Theorem add_message_then_get_session (self : StateManager.t)
    (session_id : string) (session : ConversationSession.t)
    (message : ChatMessage.t) (sent now : Z) :
  active_sessions self !! session_id = Some session ->
  let added := add_message_to_session self session_id message sent in
  added.1 = true
  /\ (exists kept session',
        active_sessions added.2 !! session_id = Some session'
        /\ ConversationSession.chat_history session' = kept ++ [message]
        /\ (exists dropped,
              ConversationSession.chat_history session = dropped ++ kept)
        /\ (length (ConversationSession.chat_history session') <= 50)%nat
        /\ ConversationSession.last_activity session' = sent
        /\ (now - sent <= session_timeout ->
            get_session added.2 session_id now = (Some session', added.2))
        /\ (session_timeout < now - sent ->
            (get_session added.2 session_id now).1 = None
            /\ forall later,
                 (add_message_to_session
                    (get_session added.2 session_id now).2 session_id message
                    later).1 = false)).
Proof.
  intros Hs added. subst added. unfold add_message_to_session. rewrite Hs.
  cbn [fst snd]. split; [done|].
  set (h := ConversationSession.chat_history session).
  set (k := if Z.of_nat (length (h ++ [message])) >? 50
            then (length (h ++ [message]) - 50)%nat else 0%nat).
  assert (Hk : (if Z.of_nat (length (h ++ [message])) >? 50
                then drop (length (h ++ [message]) - 50) (h ++ [message])
                else h ++ [message]) = drop k h ++ [message]).
  { subst k. destruct (Z.of_nat (length (h ++ [message])) >? 50) eqn:E.
    - apply drop_app_le. rewrite length_app. simpl. lia.
    - done. }
  exists (drop k h). eexists. split; [apply lookup_insert_eq|].
  cbn [ConversationSession.chat_history ConversationSession.last_activity].
  split; [exact Hk|]. split; [exists (take k h); by rewrite take_drop|].
  split; [apply length_last_fifty|]. split; [done|]. split.
  - intros Hnow. unfold get_session. cbn [active_sessions].
    rewrite lookup_insert_eq. cbn [ConversationSession.last_activity].
    rewrite Z.gtb_ltb. by replace (session_timeout <? now - sent) with false by lia.
  - intros Hnow. unfold get_session. cbn [active_sessions].
    rewrite lookup_insert_eq. cbn [ConversationSession.last_activity].
    replace (now - sent >? session_timeout) with true by lia.
    split; [done|]. intros later. unfold add_message_to_session.
    cbn [snd active_sessions]. by rewrite lookup_delete_eq.
Qed.
End Sessions.

Lemma add_message_then_get_session_witness :
  let self :=
    (StateManager.create_session StateManager.init "u1" "s1" 0 0).2 in
  let message := ChatMessage.mk USER "hello" in
  let late := 3 * StateManager.session_timeout in
  let added := StateManager.add_message_to_session self "s1" message late in
  added.1 = true
  /\ exists session',
       StateManager.get_session added.2 "s1" late = (Some session', added.2)
       /\ StateManager.ConversationSession.chat_history session' = [message].
Proof.
  intros self message late added.
  destruct (add_message_then_get_session self "s1"
              (StateManager.ConversationSession.mk "s1" "u1" [] None 0 0 [] [] ∅)
              message late late)
    as (H1 & kept & session' & Hs & Hh & _ & _ & _ & Hg & _);
    [reflexivity|].
  split; [exact H1|]. exists session'. split.
  - apply Hg. unfold StateManager.session_timeout. lia.
  - subst added. unfold StateManager.add_message_to_session in Hs.
    cbn in Hs. rewrite lookup_insert_eq in Hs. by injection Hs as <-.
Defined.
